(** * Federal spending collector: a shallow embedding of [data_collector.py]

    The development follows the pipeline of [SimpleCollector]:
    response validation, field extraction, paginated fetching, cleaning,
    the data-quality gate and the persistence writer.  Part I embeds the
    code, Part II states and proves its properties. *)

From Stdlib Require Import ZArith QArith Lia Lqa Ascii Sorted Permutation.
From stdpp Require Import base option list strings pretty gmap.

Set Warnings "-register-all".
Close Scope Q_scope.

(** * Part I.  The embedding *)

(** ** Strings

    Strings are sequences of the code points below 256; the helpers below
    are the [str] methods the collector calls, on that alphabet. *)

Module Str.

(** [c.isspace()] for the code points below 256: the ASCII controls 9 to
    13 and 28 to 31, the space, NEXT LINE (133) and NO-BREAK SPACE (160). *)
Definition is_whitespace (c : ascii) : bool :=
  let n := Ascii.nat_of_ascii c in
  ((9 <=? n) && (n <=? 13) || (28 <=? n) && (n <=? 32)
   || (n =? 133) || (n =? 160))%nat.

Definition is_empty (s : string) : bool :=
  match s with EmptyString => true | String _ _ => false end.

Fixpoint lstrip (s : string) : string :=
  match s with
  | EmptyString => EmptyString
  | String c s' => if is_whitespace c then lstrip s' else s
  end.

Fixpoint rstrip (s : string) : string :=
  match s with
  | EmptyString => EmptyString
  | String c s' =>
      let r := rstrip s' in
      if is_whitespace c && is_empty r then EmptyString else String c r
  end.

(** [s.strip()]. *)
Definition strip (s : string) : string := rstrip (lstrip s).

Definition lower_char (c : ascii) : ascii :=
  let n := Ascii.nat_of_ascii c in
  if ((65 <=? n) && (n <=? 90))%nat then Ascii.ascii_of_nat (n + 32) else c.

(** [s.lower()] on the ASCII letters. *)
Fixpoint lower (s : string) : string :=
  match s with
  | EmptyString => EmptyString
  | String c s' => String (lower_char c) (lower s')
  end.

(** [hay.startswith(needle)]. *)
Fixpoint startswith (hay needle : string) : bool :=
  match needle, hay with
  | EmptyString, _ => true
  | String _ _, EmptyString => false
  | String a needle', String b hay' => Ascii.eqb a b && startswith hay' needle'
  end.

(** [needle in hay]. *)
Fixpoint contains (hay needle : string) : bool :=
  startswith hay needle ||
  match hay with
  | EmptyString => false
  | String _ hay' => contains hay' needle
  end.

(** [hay.endswith(suffix)]. *)
Fixpoint endswith (hay suffix : string) : bool :=
  String.eqb hay suffix ||
  match hay with
  | EmptyString => false
  | String _ hay' => endswith hay' suffix
  end.


Fixpoint last_char (s : string) : option ascii :=
  match s with
  | EmptyString => None
  | String c EmptyString => Some c
  | String _ s' => last_char s'
  end.



End Str.

(** ** Python values and exceptions *)

Module Py.

(** The exception classes the collector can meet; all of them derive
    from [Exception], which is what every handler of the source
    catches. *)
Inductive exn : Type :=
| TypeError | ValueError | AttributeError | KeyError | IndexError
| OverflowError | OSError | Timeout | ConnectionError | JSONDecodeError.

(** A call either returns a value or raises. *)
Inductive result (A : Type) : Type :=
| Ret (a : A)
| Raise (e : exn).
Arguments Ret {A} a.
Arguments Raise {A} e.

Definition bind {A B} (m : result A) (k : A -> result B) : result B :=
  match m with
  | Ret a => k a
  | Raise e => Raise e
  end.

(** [try: body / except Exception as e: handler]. *)
Definition try_except {A} (body : result A) (handler : exn -> A) : A :=
  match body with
  | Ret a => a
  | Raise e => handler e
  end.

(** Python floats: a finite one is represented by the rational it denotes;
    rounding is not modelled. *)
Inductive float : Type :=
| Finite (q : Q)
| Inf (negative : bool)
| NaN.

(** The values a decoded JSON document is made of. *)
Inductive value : Type :=
| None_
| Bool (b : bool)
| Int (z : Z)
| Float (f : float)
| Str (s : string)
| List (l : list value)
| Dict (d : gmap string value).



(** [bool(v)]. *)
Definition truthy (v : value) : bool :=
  match v with
  | None_ => false
  | Bool b => b
  | Int z => negb (z =? 0)%Z
  | Float (Finite q) => negb (Qeq_bool q 0)
  | Float _ => true
  | Str s => negb (Str.is_empty s)
  | List l => match l with [] => false | _ :: _ => true end
  | Dict d => negb (bool_decide (d = ∅))
  end.

(** [v == s] for a [str] [s]: only a [str] equals a [str]. *)
Definition eq_str (v : value) (s : string) : bool :=
  match v with Str s' => String.eqb s' s | _ => false end.

(** [len(v)]. *)
Definition len (v : value) : result nat :=
  match v with
  | Str s => Ret (String.length s)
  | List l => Ret (length l)
  | Dict d => Ret (size d)
  | _ => Raise TypeError
  end.

(** [key in v] for a [str] [key]: key membership in a dict, element
    membership in a list, substring test in a str; the other values are
    not containers. *)
Definition contains (v : value) (key : string) : result bool :=
  match v with
  | Dict d => Ret (bool_decide (is_Some (d !! key)))
  | List l => Ret (existsb (fun x => eq_str x key) l)
  | Str s => Ret (Str.contains s key)
  | _ => Raise TypeError
  end.

(** Calling a [dict] method ([keys], [get]) on [v]. *)
Definition as_dict (v : value) : result (gmap string value) :=
  match v with
  | Dict d => Ret d
  | _ => Raise AttributeError
  end.

End Py.

Notation "x <- m ; k" := (Py.bind m (fun x => k))
  (at level 20, m at level 100, k at level 200, only parsing).

(** ** Response validator: [SimpleCollector.validate_api_response] *)

Definition basic_fields : list string :=
  ["Award ID"; "Recipient Name"; "Award Amount"].

(** The comprehension-like loop that collects the basic fields present in
    the first record. *)
Fixpoint found_fields (fields : list string) (first_record : Py.value)
  : Py.result (list string) :=
  match fields with
  | [] => Py.Ret []
  | field :: fields' =>
      present <- Py.contains first_record field ;
      rest <- found_fields fields' first_record ;
      Py.Ret (if present then field :: rest else rest)
  end.

Definition validate_api_response (response_data : Py.value) : Py.result bool :=
  match response_data with
  | Py.None_ => Py.Ret false
  | Py.Dict d =>
      match d !! "results" with
      | None => Py.Ret false
      | Some (Py.List results) =>
          match results with
          | [] => Py.Ret true
          | first_record :: _ =>
              (* the debug print evaluates [len(first_record)] *)
              n_fields <- Py.len first_record ;
              found <- found_fields basic_fields first_record ;
              if (length found =? 0)%nat then
                (* the failure message prints [first_record.keys()] *)
                keys <- Py.as_dict first_record ;
                Py.Ret false
              else Py.Ret true
          end
      | Some _ => Py.Ret false
      end
  | _ => Py.Ret false
  end.

(** ** The conversions [float(v)] and [int(v)] *)

Module Conv.

(** The whitespace [float] and [int] ignore around a number: what
    [str.strip] removes, but for the separators 28 to 31. *)
Definition is_space (c : ascii) : bool :=
  let n := Ascii.nat_of_ascii c in
  ((9 <=? n) && (n <=? 13) || (n =? 32) || (n =? 133) || (n =? 160))%nat.

Fixpoint lstrip (s : string) : string :=
  match s with
  | EmptyString => EmptyString
  | String c s' => if is_space c then lstrip s' else s
  end.

Fixpoint rstrip (s : string) : string :=
  match s with
  | EmptyString => EmptyString
  | String c s' =>
      let r := rstrip s' in
      if is_space c && Str.is_empty r then EmptyString else String c r
  end.

Definition strip (s : string) : string := rstrip (lstrip s).

Definition digit_of (c : ascii) : option Z :=
  let n := Ascii.nat_of_ascii c in
  if ((48 <=? n) && (n <=? 57))%nat then Some (Z.of_nat (n - 48)) else None.

Definition starts_with_digit (s : string) : bool :=
  match s with
  | String c _ => bool_decide (is_Some (digit_of c))
  | EmptyString => false
  end.

(** Reads a [digitpart]: digits, with single underscores allowed between
    two digits.  Returns the number read, how many digits it had, and the
    rest of the input. *)
Fixpoint read_digits (s : string) (acc : Z) (count : nat) : Z * nat * string :=
  match s with
  | EmptyString => (acc, count, s)
  | String c s' =>
      match digit_of c with
      | Some d => read_digits s' (10 * acc + d)%Z (S count)
      | None =>
          if Ascii.eqb c "_" && negb (count =? 0)%nat && starts_with_digit s'
          then read_digits s' acc count
          else (acc, count, s)
      end
  end.

(** An optional sign; [true] is "negative". *)
Definition read_sign (s : string) : bool * string :=
  match s with
  | String "-" s' => (true, s')
  | String "+" s' => (false, s')
  | _ => (false, s)
  end.

Definition apply_sign (negative : bool) (z : Z) : Z :=
  if negative then (- z)%Z else z.

(** The exponent part [("e" | "E") [sign] digitpart], or nothing. *)
Definition read_exponent (s : string) : option (Z * string) :=
  match s with
  | String c s' =>
      if Ascii.eqb c "e" || Ascii.eqb c "E" then
        let '(negative, s1) := read_sign s' in
        let '(e, count, rest) := read_digits s1 0 0 in
        if (count =? 0)%nat then None else Some (apply_sign negative e, rest)
      else Some (0%Z, s)
  | EmptyString => Some (0%Z, s)
  end.

(** [m * 10 ^ e] as a rational in lowest terms. *)
Definition scale10 (m e : Z) : Q :=
  Qred (if (0 <=? e)%Z then Qmake (m * 10 ^ e) 1
        else Qmake m (Z.to_pos (10 ^ (- e)))).

(** The magnitude from which a decimal number is nearer to [2 ^ 1024]
    than to the largest float, and [float(int)] overflows. *)
Definition float_int_bound : Z := (2 ^ 1024 - 2 ^ 970)%Z.

(** A number of that magnitude reads as an infinity; below it, the float
    is represented by the number read, rounding apart. *)
Definition float_of_number (negative : bool) (q : Q) : Py.float :=
  if Qle_bool (inject_Z float_int_bound) q
     || Qle_bool q (inject_Z (- float_int_bound))
  then Py.Inf negative
  else Py.Finite q.

(** [float(s)] for a [str]: surrounding whitespace is ignored, then
    [[sign] (floatnumber | "inf" | "infinity" | "nan")]. *)
Definition float_of_string (s : string) : Py.result Py.float :=
  let '(negative, body) := read_sign (strip s) in
  let word := Str.lower body in
  if String.eqb word "inf" || String.eqb word "infinity" then
    Py.Ret (Py.Inf negative)
  else if String.eqb word "nan" then Py.Ret Py.NaN
  else
    let '(int_part, int_count, after_int) := read_digits body 0 0 in
    let '(mantissa, frac_count, after_frac) :=
      match after_int with
      | String "." s' =>
          read_digits s' int_part 0
      | _ => (int_part, 0%nat, after_int)
      end in
    if ((int_count + frac_count) =? 0)%nat then Py.Raise Py.ValueError
    else
      match read_exponent after_frac with
      | Some (e, EmptyString) =>
          Py.Ret (float_of_number negative
                    (scale10 (apply_sign negative mantissa)
                             (e - Z.of_nat frac_count)))
      | _ => Py.Raise Py.ValueError
      end.

(** [float(v)]. *)
Definition float (v : Py.value) : Py.result Py.float :=
  match v with
  | Py.Float f => Py.Ret f
  | Py.Int z =>
      if (Z.abs z <? float_int_bound)%Z then Py.Ret (Py.Finite (inject_Z z))
      else Py.Raise Py.OverflowError
  | Py.Bool b => Py.Ret (Py.Finite (if b then 1%Q else 0%Q))
  | Py.Str s => float_of_string s
  | _ => Py.Raise Py.TypeError
  end.

(** [int(s)] for a [str], base 10. *)
Definition int_of_string (s : string) : Py.result Z :=
  let '(negative, body) := read_sign (strip s) in
  let '(z, count, rest) := read_digits body 0 0 in
  if negb (count =? 0)%nat && Str.is_empty rest
  then Py.Ret (apply_sign negative z)
  else Py.Raise Py.ValueError.

(** [int(v)]; a float is truncated towards zero. *)
Definition int (v : Py.value) : Py.result Z :=
  match v with
  | Py.Int z => Py.Ret z
  | Py.Bool b => Py.Ret (if b then 1%Z else 0%Z)
  | Py.Float (Py.Finite q) => Py.Ret (Z.quot (Qnum q) (Zpos (Qden q)))
  | Py.Float (Py.Inf _) => Py.Raise Py.OverflowError
  | Py.Float Py.NaN => Py.Raise Py.ValueError
  | Py.Str s => int_of_string s
  | _ => Py.Raise Py.TypeError
  end.

End Conv.

(** ** Field extractor: [process_to_dataframe.safe_extract] *)

(** The [convert_type] argument: [str], [float], [int], or anything
    else. *)
Inductive convert_type : Type := CStr | CFloat | CInt | COther.

(** The per-run error tally [field_errors]. *)
Abbreviation tally := (gmap string nat).

Section Extractor.

(** [str(v)] of a value that is not already a [str] is its printed
    representation, which the extractor only passes on. *)
Variable repr : Py.value -> string.

Definition str (v : Py.value) : string :=
  match v with Py.Str s => s | _ => repr v end.

(** [item.get(field_name, fallback)]. *)
Definition dict_get (item : gmap string Py.value) (field_name : string)
    (fallback : Py.value) : Py.value :=
  default fallback (item !! field_name).

Definition is_none (v : Py.value) : bool :=
  match v with Py.None_ => true | _ => false end.

(** [value in [None, "", "null"]]. *)
Definition is_null_like (v : Py.value) : bool :=
  is_none v || Py.eq_str v "" || Py.eq_str v "null".

(** The body of the [try] block. *)
Definition safe_extract_body (item : gmap string Py.value)
    (field_name : string) (fallback : Py.value) (ty : convert_type)
  : Py.result Py.value :=
  let value := dict_get item field_name fallback in
  if is_none value || Py.eq_str value "" then Py.Ret fallback
  else
    match ty with
    | CStr =>
        if negb (Py.eq_str value "")
        then Py.Ret (Py.Str (Str.strip (str value)))
        else Py.Ret fallback
    | CFloat =>
        if negb (is_null_like value)
        then f <- Conv.float value ; Py.Ret (Py.Float f)
        else Py.Ret (Py.Float (Py.Finite 0))
    | CInt =>
        if negb (is_null_like value)
        then z <- Conv.int value ; Py.Ret (Py.Int z)
        else Py.Ret (Py.Int 0)
    | COther => Py.Ret value
    end.

(** [field_errors[field_name] = field_errors.get(field_name, 0) + 1]. *)
Definition record_error (field_errors : tally) (field_name : string) : tally :=
  <[field_name := S (default 0%nat (field_errors !! field_name))]> field_errors.

(** The whole helper: what the call evaluates to at its caller (a value,
    or an exception escaping it) and the tally afterwards. *)
Definition safe_extract (item : gmap string Py.value) (field_errors : tally)
    (field_name : string) (fallback : Py.value) (ty : convert_type)
  : Py.result Py.value * tally :=
  Py.try_except
    (v <- safe_extract_body item field_name fallback ty ;
     Py.Ret (Py.Ret v, field_errors))
    (fun e => (Py.Ret fallback, record_error field_errors field_name)).

End Extractor.

(** ** Paginated fetcher *)

(** The part of the POST body that varies between requests; the field
    list sent along is a function of the award group alone. *)
Record payload : Type := Payload {
  award_type_codes : list string;
  limit : Z;
  page : Z
}.

(** What [requests.post] does: it raises, or hands back a response with a
    status code and a body that [response.json()] decodes or rejects. *)
Inductive http_outcome : Type :=
| PostRaises (e : Py.exn)
| Response (status_code : Z) (json : Py.result Py.value).

Definition award_type_groups : list (string * list string) :=
  [ ("contracts", ["A"; "B"; "C"; "D"]);
    ("grants", ["02"; "03"; "04"; "05"]);
    ("direct_payments", ["06"; "10"]);
    ("loans", ["07"; "08"]);
    ("other", ["09"; "11"; "-1"]) ].

Definition lookup_group (award_group : string) : option (list string) :=
  snd <$> List.find (fun g => String.eqb (fst g) award_group) award_type_groups.

(** [v[0]]. *)
Definition index0 (v : Py.value) : Py.result Py.value :=
  match v with
  | Py.List (x :: _) => Py.Ret x
  | Py.List [] => Py.Raise Py.IndexError
  | Py.Str (String c _) => Py.Ret (Py.Str (String c EmptyString))
  | Py.Str EmptyString => Py.Raise Py.IndexError
  | Py.Dict _ => Py.Raise Py.KeyError
  | _ => Py.Raise Py.TypeError
  end.

Section Fetcher.

Local Open Scope Z_scope.

(** The remote API. *)
Variable post : payload -> http_outcome.

(** The debug block that prints the first record of a page. *)
Definition debug_first_record (d : gmap string Py.value) : Py.result unit :=
  match d !! "results" with
  | Some results =>
      if Py.truthy results then
        first_record <- index0 results ;
        n_fields <- Py.len first_record ;
        fields <- Py.as_dict first_record ;
        Py.Ret tt
      else Py.Ret tt
  | None => Py.Ret tt
  end.

(** [fetch_spending_data_with_page]: the decoded response, or [None]. *)
Definition fetch_spending_data_with_page (lim : Z) (award_group : string)
    (pg : Z) : option Py.value :=
  match lookup_group award_group with
  | None => None
  | Some codes =>
      Py.try_except
        (match post (Payload codes lim pg) with
         | PostRaises e => Py.Raise e
         | Response status_code json =>
             if status_code =? 200 then
               response_data <- json ;
               d <- Py.as_dict response_data ;
               shown <- debug_first_record d ;
               valid <- validate_api_response response_data ;
               Py.Ret (if valid then Some response_data else None)
             else Py.Ret None
         end)
        (fun e => None)
  end.

Definition api_max_limit : Z := 100.

(** Ceiling division, written as in the source. *)
Definition total_requests (total_limit : Z) : Z :=
  (total_limit + api_max_limit - 1) `div` api_max_limit.

(** The state the loop threads: the accumulator, the page requests made
    so far (the calls of [fetch_spending_data_with_page], with page
    number and size, oldest first) and the loop variable. *)
Record fetch_state : Type := FetchState {
  all_results : list Py.value;
  requests : list (Z * Z);
  request_num : Z
}.

(** The records of a page that passes
    [batch_data and 'results' in batch_data and batch_data['results']];
    a page handed back by [fetch_spending_data_with_page] has a list
    there. *)
Definition batch_results_of (batch_data : option Py.value)
  : option (list Py.value) :=
  match batch_data with
  | Some (Py.Dict d) =>
      match d !! "results" with
      | Some (Py.List (r :: rs)) => Some (r :: rs)
      | _ => None
      end
  | _ => None
  end.

(** How one iteration of the [for] loop ends. *)
Inductive control : Type := Break | NextIteration.

(** The body of [for request_num in range(total_requests)].  The pause
    of one second that ends an iteration leaves the state alone. *)
Definition loop_body (total_limit : Z) (award_group : string)
    (num : Z) (st : fetch_state) : control * fetch_state :=
  let remaining_records := total_limit - Z.of_nat (length (all_results st)) in
  let current_limit := Z.min api_max_limit remaining_records in
  if current_limit <=? 0 then (Break, FetchState (all_results st) (requests st) num)
  else
    let current_page := num + 1 in
    let batch_data :=
      fetch_spending_data_with_page current_limit award_group current_page in
    let issued := requests st ++ [(current_page, current_limit)] in
    match batch_results_of batch_data with
    | Some batch_results =>
        let st' := FetchState (all_results st ++ batch_results) issued num in
        if Z.of_nat (length batch_results) <? current_limit
        then (Break, st')
        else (NextIteration, st')
    | None => (NextIteration, FetchState (all_results st) issued num)
    end.

(** [count] iterations of the loop starting at [num], unless it breaks. *)
Fixpoint pagination_loop (total_limit : Z) (award_group : string)
    (count : nat) (num : Z) (st : fetch_state) : fetch_state :=
  match count with
  | O => st
  | S count' =>
      match loop_body total_limit award_group num st with
      | (Break, st') => st'
      | (NextIteration, st') =>
          pagination_loop total_limit award_group count' (num + 1) st'
      end
  end.

Definition final_response (st : fetch_state) : Py.value :=
  Py.Dict
    {[ "results" := Py.List (all_results st);
       "page_metadata" :=
         Py.Dict
           {[ "page" := Py.Int 1;
              "hasNext" := Py.Bool false;
              "hasPrevious" := Py.Bool false;
              "total" := Py.Int (Z.of_nat (length (all_results st)));
              "requests_made" := Py.Int (request_num st + 1);
              "pagination_used" := Py.Bool true ]} ]}.

Definition run_pagination (total_limit : Z) (award_group : string)
  : fetch_state :=
  pagination_loop total_limit award_group
    (Z.to_nat (total_requests total_limit)) 0 (FetchState [] [] 0).

(** [fetch_spending_data_with_pagination]: the combined response, or
    [None] when nothing was collected. *)
Definition fetch_spending_data_with_pagination (total_limit : Z)
    (award_group : string) : option Py.value :=
  let st := run_pagination total_limit award_group in
  match all_results st with
  | [] => None
  | _ :: _ => Some (final_response st)
  end.

End Fetcher.

(** ** The table of normalized records *)

(** One row of the DataFrame.  The columns the cleaner and the quality
    gate read are fields of their own; the remaining columns travel along
    in [other_columns].  Names and identifiers are strings, as
    [safe_extract] produces them; amounts are the finite values of the
    float column. *)
Record Row : Type := mkRow {
  award_id : string;
  recipient_name : string;
  award_amount : Q;
  awarding_agency : string;
  fetched_at : string;
  other_columns : list (string * Py.value)
}.

(** Comparisons on amounts, as booleans. *)
Definition amount_le (a b : Q) : bool := Qle_bool a b.
Definition amount_lt (a b : Q) : bool := negb (Qle_bool b a).
Definition amount_eq (a b : Q) : bool := Qeq_bool a b.

(** [series.sum()] of a boolean series: how many rows satisfy [p]. *)
Definition count_where (p : Row -> bool) (rows : list Row) : nat :=
  length (List.filter p rows).

(** [df['recipient_name'].str.strip() != '']. *)
Definition name_not_blank (r : Row) : bool :=
  negb (Str.is_empty (Str.strip (recipient_name r))).

(** [df['recipient_name'].str.contains('Unknown', case=False, na=False)]. *)
Definition name_contains_unknown (r : Row) : bool :=
  Str.contains (Str.lower (recipient_name r)) (Str.lower "Unknown").

Definition is_negative (r : Row) : bool := amount_lt (award_amount r) 0.

Definition zero_and_unknown (r : Row) : bool :=
  amount_eq (award_amount r) 0 && name_contains_unknown r.

(** [df.duplicated(subset=['award_id'])]: a row is marked when its
    identifier occurred in an earlier row. *)
Fixpoint duplicated_from (seen : list string) (rows : list Row) : list bool :=
  match rows with
  | [] => []
  | r :: rows' =>
      bool_decide (award_id r ∈ seen)
        :: duplicated_from (award_id r :: seen) rows'
  end.

Definition duplicated (rows : list Row) : list bool := duplicated_from [] rows.

Definition duplicate_count (rows : list Row) : nat :=
  length (List.filter (fun b : bool => b) (duplicated rows)).

(** [df.drop_duplicates(subset=['award_id'], keep='first')]. *)
Fixpoint drop_duplicates_from (seen : list string) (rows : list Row)
  : list Row :=
  match rows with
  | [] => []
  | r :: rows' =>
      if bool_decide (award_id r ∈ seen)
      then drop_duplicates_from seen rows'
      else r :: drop_duplicates_from (award_id r :: seen) rows'
  end.

Definition drop_duplicates (rows : list Row) : list Row :=
  drop_duplicates_from [] rows.

(** [df.sort_values('award_amount', ascending=False)].  The call names no
    [kind], so pandas sorts with its default algorithm, which is not
    stable: the result is the table in descending order of amount, and the
    order of rows with equal amounts is the algorithm's.  The cleaner
    below therefore takes the sort as a parameter, and what is said about
    it for every sort that meets [descending_sort] holds whatever pandas
    does with ties. *)
Definition descending_sort (sort : list Row -> list Row) : Prop :=
  forall rows : list Row,
    Permutation (sort rows) rows /\
    StronglySorted (fun a b => (award_amount b <= award_amount a)%Q) (sort rows).

(** One such sort, the order-preserving one: rows of equal amount keep
    their relative order.  [insert_desc r sorted] puts [r], which precedes
    all of [sorted] in the table, in front of the first row that is not
    larger. *)
Fixpoint insert_desc (r : Row) (sorted : list Row) : list Row :=
  match sorted with
  | [] => [r]
  | x :: sorted' =>
      if amount_le (award_amount x) (award_amount r)
      then r :: x :: sorted'
      else x :: insert_desc r sorted'
  end.

Definition sort_values (rows : list Row) : list Row :=
  foldr insert_desc [] rows.

(** Another one, which turns the order of rows of equal amount around:
    [insert_desc_strict r sorted] puts [r] in front of the first row that
    is smaller. *)
Fixpoint insert_desc_strict (r : Row) (sorted : list Row) : list Row :=
  match sorted with
  | [] => [r]
  | x :: sorted' =>
      if amount_lt (award_amount x) (award_amount r)
      then r :: x :: sorted'
      else x :: insert_desc_strict r sorted'
  end.

Definition sort_values_reversing_ties (rows : list Row) : list Row :=
  foldr insert_desc_strict [] rows.

(** ** Cleaner: [SimpleCollector.clean_dataframe]

    The cleaner reads the columns [recipient_name], [award_amount] and
    [award_id], so its argument has them and [df.empty] says that there is
    no row.  The column index is left alone; [reset_index] renumbers the
    rows, which a list does by itself. *)

(** Step 1. *)
Definition remove_empty_recipients (rows : list Row) : list Row :=
  List.filter name_not_blank rows.

(** Step 2. *)
Definition handle_negative_amounts (rows : list Row) : list Row :=
  let negative_count := count_where is_negative rows in
  if (0 <? negative_count)%nat
  then List.filter (fun r => negb (zero_and_unknown r)) rows
  else rows.

Section Cleaner.

(** What [df.sort_values('award_amount', ascending=False)] returns. *)
Variable sort : list Row -> list Row.

(** Step 3. *)
Definition handle_duplicates_with (rows : list Row) : list Row :=
  if (0 <? duplicate_count rows)%nat
  then drop_duplicates (sort rows)
  else rows.

Definition clean_dataframe_with (df : list Row) : list Row :=
  match df with
  | [] => df
  | _ :: _ =>
      let df1 := remove_empty_recipients df in
      let df2 := handle_negative_amounts df1 in
      let df3 := handle_duplicates_with df2 in
      sort df3
  end.

End Cleaner.

(** The cleaner with the order-preserving sort. *)
Definition handle_duplicates (rows : list Row) : list Row :=
  handle_duplicates_with sort_values rows.

Definition clean_dataframe (df : list Row) : list Row :=
  clean_dataframe_with sort_values df.

(** ** Data-quality gate: [SimpleCollector.validate_processed_data] *)

Record DataFrame : Type := mkDataFrame {
  df_columns : list string;
  df_rows : list Row
}.

(** [df.empty]: some axis has length zero. *)
Definition df_empty (df : DataFrame) : bool :=
  match df_columns df, df_rows df with
  | _ :: _, _ :: _ => false
  | _, _ => true
  end.

Definition required_columns : list string :=
  ["award_id"; "recipient_name"; "award_amount"; "awarding_agency";
   "fetched_at"].

Definition missing_columns (df : DataFrame) : list string :=
  List.filter (fun col => negb (bool_decide (col ∈ df_columns df)))
    required_columns.

Inductive issue : Type :=
| EmptyRecipientNames (n : nat)
| ZeroOrNegativeAmounts (n : nat)
| SuspiciouslyLargeAmounts (n : nat)
| EmptyAgencyNames (n : nat)
| DuplicateAwardIds (n : nat).

Definition report (n : nat) (mk : nat -> issue) : list issue :=
  if (0 <? n)%nat then [mk n] else [].

Definition name_blank (r : Row) : bool :=
  Str.is_empty (Str.strip (recipient_name r)).

Definition agency_blank (r : Row) : bool :=
  Str.is_empty (Str.strip (awarding_agency r)).

Definition amount_not_positive (r : Row) : bool := amount_le (award_amount r) 0.

Definition amount_very_large (r : Row) : bool :=
  amount_lt (inject_Z (10 ^ 12)) (award_amount r).

(** [critical_issues > total_records * 0.1].  The product is taken as the
    exact tenth of the row count: for the row counts a table can have,
    rounding does not change how it compares with an integer. *)
Definition too_many_critical (critical_issues total_records : nat) : bool :=
  amount_lt (inject_Z (Z.of_nat total_records) * (1 # 10))%Q
            (inject_Z (Z.of_nat critical_issues)).

Definition validate_processed_data (df : DataFrame) : bool :=
  if df_empty df then false
  else
    match missing_columns df with
    | _ :: _ => false
    | [] =>
        let rows := df_rows df in
        let total_records := length rows in
        let empty_recipients := count_where name_blank rows in
        let invalid_amounts := count_where amount_not_positive rows in
        let very_large_amounts := count_where amount_very_large rows in
        let empty_agencies := count_where agency_blank rows in
        let duplicate_ids := duplicate_count rows in
        let issues :=
          report empty_recipients EmptyRecipientNames
          ++ report invalid_amounts ZeroOrNegativeAmounts
          ++ report very_large_amounts SuspiciouslyLargeAmounts
          ++ report empty_agencies EmptyAgencyNames
          ++ report duplicate_ids DuplicateAwardIds in
        match issues with
        | _ :: _ =>
            let critical_issues := (empty_recipients + duplicate_ids)%nat in
            if too_many_critical critical_issues total_records
            then false
            else true
        | [] => true
        end
    end.

(** ** Persistence writer *)

(** A file, as its readers see it: its size, what [pd.read_csv] makes of
    it and what [json.load] makes of it. *)
Record file : Type := mkFile {
  file_size : nat;
  read_csv : Py.result DataFrame;
  json_load : Py.result Py.value
}.

Abbreviation filesystem := (gmap string file).

(** What a write is asked to store. *)
Inductive content : Type :=
| CsvOf (df : DataFrame)
| JsonOf (metadata_of : DataFrame) (records : list Row)
| TestText
| LogEntry.

(** What a run of [save_data] does that an operator can observe. *)
Inductive event : Type :=
| Saved (path : string)
| IntegrityChecked (path : string) (passed : bool)
| BackupVersionsCreated
| SavedFilesValidated (paths : list string) (all_valid : bool)
| SaveLogged.

(** How a statement ends inside a function that returns a [bool]: it
    falls through with a value, the function returns, or an exception
    travels up. *)
Inductive flow (A : Type) : Type :=
| Normal (a : A)
| Return (b : bool)
| Raised (e : Py.exn).
Arguments Normal {A} a.
Arguments Return {A} b.
Arguments Raised {A} e.

(** Statements act on the file system and leave events behind. *)
Definition io (A : Type) : Type := filesystem -> flow A * filesystem * list event.

Definition io_ret {A} (a : A) : io A := fun fs => (Normal a, fs, []).

Definition io_bind {A B} (m : io A) (k : A -> io B) : io B :=
  fun fs =>
    match m fs with
    | (Normal a, fs', evs) =>
        let '(r, fs'', evs') := k a fs' in (r, fs'', evs ++ evs')
    | (Return b, fs', evs) => (Return b, fs', evs)
    | (Raised e, fs', evs) => (Raised e, fs', evs)
    end.

Notation "x <<- m ; k" := (io_bind m (fun x => k))
  (at level 20, m at level 100, k at level 200, only parsing).

Definition io_return {A} (b : bool) : io A := fun fs => (Return b, fs, []).

Definition emit (e : event) : io unit := fun fs => (Normal tt, fs, [e]).

(** [try: body / except Exception: handler]. *)
Definition io_try {A} (body : io A) (handler : Py.exn -> io A) : io A :=
  fun fs =>
    match body fs with
    | (Raised e, fs', evs) =>
        let '(r, fs'', evs') := handler e fs' in (r, fs'', evs ++ evs')
    | other => other
    end.

(** The value of a call whose body is [body]: falling off the end of
    [save_data] cannot happen, every path ends in a [return]. *)
Definition io_call (body : io unit) (fs : filesystem)
  : bool * filesystem * list event :=
  match body fs with
  | (Return b, fs', evs) => (b, fs', evs)
  | (Normal _, fs', evs) => (false, fs', evs)
  | (Raised _, fs', evs) => (false, fs', evs)
  end.

(** [os.path.join(directory, name)] for a relative [name]. *)
Definition path_join (directory name : string) : string :=
  directory +:+ "/" +:+ name.

(** [len(data.get('records', []))] in the verdict of the JSON check. *)
Definition records_length (data : Py.value) : Py.result nat :=
  d <- Py.as_dict data ;
  Py.len (default (Py.List []) (d !! "records")).

(** [check_file_integrity]: the boolean of the verdict. *)
Definition check_file_integrity (fs : filesystem) (file_path : string) : bool :=
  Py.try_except
    (match fs !! file_path with
     | None => Py.Ret false
     | Some f =>
         if (file_size f =? 0)%nat then Py.Ret false
         else if Str.endswith file_path ".csv" then
           df <- read_csv f ;
           Py.Ret (negb (df_empty df))
         else if Str.endswith file_path ".json" then
           data <- json_load f ;
           if negb (Py.truthy data) then Py.Ret false
           else n <- records_length data ; Py.Ret true
         else Py.Ret true
     end)
    (fun e => false).

(** The per-file verdict of [validate_saved_files]. *)
Definition saved_file_valid (fs : filesystem) (file_path : string) : bool :=
  match fs !! file_path with
  | None => false
  | Some f =>
      if (file_size f =? 0)%nat then false
      else
        Py.try_except
          (if Str.endswith file_path ".csv" then
             test_df <- read_csv f ;
             Py.Ret (negb (df_empty test_df))
           else if Str.endswith file_path ".json" then
             test_data <- json_load f ;
             if negb (Py.truthy test_data) then Py.Ret false
             else
               match test_data with
               | Py.Dict d =>
                   match d !! "records" with
                   | Some records =>
                       records_count <- Py.len records ;
                       match d !! "metadata" with
                       | Some metadata =>
                           m <- Py.as_dict metadata ; Py.Ret true
                       | None => Py.Ret true
                       end
                   | None => Py.Ret true
                   end
               | _ => Py.Ret true
               end
           else Py.Ret true)
          (fun e => false)
  end.

Section Writer.

(** The environment: the directory the collector writes to, the
    timestamp of this run, and the operating system. *)
Variable data_dir : string.
Variable timestamp : string.
Variable os_write : string -> content -> filesystem -> Py.result filesystem.
Variable os_remove : string -> filesystem -> Py.result filesystem.
Variable os_makedirs : string -> filesystem -> Py.result filesystem.
(** What [create_backup_versions] leaves behind; it swallows its own
    exceptions. *)
Variable create_backup_effect : filesystem -> filesystem.

(** Lifts an operating-system call that may raise. *)
Definition os_call (op : filesystem -> Py.result filesystem) : io unit :=
  fun fs =>
    match op fs with
    | Py.Ret fs' => (Normal tt, fs', [])
    | Py.Raise e => (Raised e, fs, [])
    end.

Definition validate_storage_environment : io bool :=
  io_try
    (made <<- (fun fs =>
                 match fs !! data_dir with
                 | Some _ => io_ret tt fs
                 | None => os_call (os_makedirs data_dir) fs
                 end) ;
     let test_file_path := path_join data_dir "temp_write_test.txt" in
     io_try
       (written <<- os_call (os_write test_file_path TestText) ;
        removed <<- os_call (os_remove test_file_path) ;
        io_ret true)
       (fun e => io_ret false))
    (fun e => io_ret false).

Definition run_integrity_check (file_path : string) : io bool :=
  fun fs =>
    let is_valid := check_file_integrity fs file_path in
    (Normal is_valid, fs, [IntegrityChecked file_path is_valid]).

(** Writes one data file and records that it was written. *)
Definition save_file (file_path : string) (c : content) : io unit :=
  written <<- os_call (os_write file_path c) ;
  emit (Saved file_path).

Definition create_backup_versions : io unit :=
  fun fs => (Normal tt, create_backup_effect fs, [BackupVersionsCreated]).

(** Appends to a log file; failures are only printed. *)
Definition append_log (log_file_path : string) : io unit :=
  io_try (os_call (os_write log_file_path LogEntry)) (fun e => io_ret tt).

Definition validate_saved_files (file_paths : list string) : io bool :=
  fun fs =>
    let all_valid := forallb (saved_file_valid fs) file_paths in
    let '(r, fs', evs) := append_log (path_join data_dir "file_validation.log") fs in
    (Normal all_valid, fs', evs ++ [SavedFilesValidated file_paths all_valid]).

Definition log_successful_save : io unit :=
  done <<- append_log (path_join data_dir "save_operations.log") ;
  emit SaveLogged.

Definition format_in (save_format : string) (formats : list string) : bool :=
  existsb (String.eqb save_format) formats.

(** The columns the metadata block of the JSON document aggregates; a
    missing one makes the lookup raise. *)
Definition json_metadata_columns : list string :=
  ["award_amount"; "recipient_name"; "awarding_agency";
   "covid_19_obligations"; "covid_19_outlays";
   "infrastructure_obligations"; "infrastructure_outlays"].

Definition build_json_data (df : DataFrame) : io content :=
  fun fs =>
    if forallb (fun col => bool_decide (col ∈ df_columns df)) json_metadata_columns
    then (Normal (JsonOf df (df_rows df)), fs, [])
    else (Raised Py.KeyError, fs, []).

(** One of the two format blocks of [save_data]: the timestamped file,
    its check, the latest file, its check. *)
Definition save_format_block (file_path latest_path : string)
    (prepare : io content) (saved_files : list string) : io (list string) :=
  io_try
    (c <<- prepare ;
     w1 <<- save_file file_path c ;
     let saved_files := saved_files ++ [file_path] in
     is_valid <<- run_integrity_check file_path ;
     if negb is_valid then io_return false
     else
       w2 <<- save_file latest_path c ;
       is_valid <<- run_integrity_check latest_path ;
       if negb is_valid then io_return false
       else io_ret saved_files)
    (fun e => io_return false).

Definition save_data_body (df : DataFrame) (save_format : string) : io unit :=
  storage_ok <<- validate_storage_environment ;
  if negb storage_ok then io_return false
  else
    io_try
      (let csv_path :=
         path_join data_dir ("spending_data_useful_" +:+ timestamp +:+ ".csv") in
       let json_path :=
         path_join data_dir ("spending_data_useful_" +:+ timestamp +:+ ".json") in
       let latest_csv_path := path_join data_dir "spending_data_useful_latest.csv" in
       let latest_json_path := path_join data_dir "spending_data_useful_latest.json" in
       let saved_files := [] in
       saved_files <<-
         (if format_in save_format ["csv"; "both"]
          then save_format_block csv_path latest_csv_path
                 (io_ret (CsvOf df)) saved_files
          else io_ret saved_files) ;
       saved_files <<-
         (if format_in save_format ["json"; "both"]
          then save_format_block json_path latest_json_path
                 (build_json_data df) saved_files
          else io_ret saved_files) ;
       backed_up <<- create_backup_versions ;
       all_valid <<- validate_saved_files saved_files ;
       if all_valid then
         logged <<- log_successful_save ;
         io_return true
       else io_return false)
      (fun e => io_return false).

(** [SimpleCollector.save_data]: its return value, the file system it
    leaves and the events of the run. *)
Definition save_data (df : DataFrame) (save_format : string)
    (fs : filesystem) : bool * filesystem * list event :=
  if df_empty df then (false, fs, [])
  else io_call (save_data_body df save_format) fs.

End Writer.

(** ** Vocabulary of the statements and sample data *)

(** The raw record of the extraction scenario. *)
Definition sample_record : gmap string Py.value :=
  {[ "Award ID" := Py.Str "X1";
     "Recipient Name" := Py.Str "Acme";
     "Award Amount" := Py.Str "1000.50" ]}.




(** The ways a page request fails: the award group is unknown, the
    transport raises, the status is not 200, the body does not decode,
    the decoded body is not accepted by the validator; or, whatever the
    reason, [fetch_spending_data_with_page] hands back [None]. *)
Definition page_request_fails (post : payload -> http_outcome)
    (lim : Z) (award_group : string) (pg : Z) : Prop :=
  match lookup_group award_group with
  | None => True
  | Some codes =>
      (exists e, post (Payload codes lim pg) = PostRaises e) \/
      (exists status json,
          post (Payload codes lim pg) = Response status json /\ status <> 200%Z) \/
      (exists e, post (Payload codes lim pg) = Response 200 (Py.Raise e)) \/
      (exists v,
          post (Payload codes lim pg) = Response 200 (Py.Ret v) /\
          validate_api_response v <> Py.Ret true) \/
      fetch_spending_data_with_page post lim award_group pg = None
  end.

(** Every page comes back with as many records as were asked for. *)
Definition full_pages (post : payload -> http_outcome) (award_group : string)
  : Prop :=
  forall lim pg, (0 < lim)%Z ->
    exists (d : gmap string Py.value) rs,
      fetch_spending_data_with_page post lim award_group pg = Some (Py.Dict d) /\
      d !! "results" = Some (Py.List rs) /\
      Z.of_nat (length rs) = lim.

(** The plan of the specification: [count] requests from loop index
    [num] on, each for [min(100, what is still missing)] records when
    every earlier page was full. *)
Fixpoint planned_from (total_limit : Z) (count : nat) (num : Z) : list (Z * Z) :=
  match count with
  | O => []
  | S count' =>
      ((num + 1)%Z, Z.min 100 (total_limit - 100 * num))
        :: planned_from total_limit count' (num + 1)%Z
  end.

Definition planned_requests (total_limit : Z) : list (Z * Z) :=
  planned_from total_limit (Z.to_nat (total_requests total_limit)) 0.

(** An API that always answers with a full page of copies of the sample
    record. *)
Definition generous_api (p : payload) : http_outcome :=
  Response 200
    (Py.Ret (Py.Dict
       {[ "results" :=
            Py.List (replicate (Z.to_nat (limit p)) (Py.Dict sample_record)) ]})).

(** An API that never answers. *)
Definition dead_api (p : payload) : http_outcome := PostRaises Py.Timeout.

(** An API that times out on page 2 and is generous otherwise. *)
Definition flaky_api (p : payload) : http_outcome :=
  if (page p =? 2)%Z then PostRaises Py.Timeout else generous_api p.

(** Rows with only the columns the cleaner reads filled in. *)
Definition row (id name : string) (amount : Q) : Row :=
  mkRow id name amount "Department of Defense" "2024-01-01T00:00:00" [].

(** The rows the deduplication step works on: what is left after the
    blank-name rule and the zero-amount rule. *)
Definition before_dedup (df : list Row) : list Row :=
  handle_negative_amounts (remove_empty_recipients df).

(** [w] wins its identifier group in [rows]: it is a row of the table,
    every row of the group placed before it has a strictly smaller
    amount, and no row of the group placed after it has a larger one. *)
Definition is_group_winner (rows : list Row) (w : Row) : Prop :=
  exists before after,
    rows = before ++ w :: after /\
    (forall r, In r before -> award_id r = award_id w ->
               (award_amount r < award_amount w)%Q) /\
    (forall r, In r after -> award_id r = award_id w ->
               (award_amount r <= award_amount w)%Q).

(** A table with a zero-amount "Unknown" row and no negative amount. *)
Definition unknown_zero_table : list Row :=
  [row "A1" "Unknown Vendor" 0; row "A2" "Acme" 10].

(** A table whose largest row of group "X1" falls to the zero-amount
    rule. *)
Definition unknown_max_table : list Row :=
  [row "X1" "Unknown Vendor" 0; row "X1" "Acme" (-5)].

(** Amounts do not increase along the table. *)
Definition sorted_desc (rows : list Row) : Prop :=
  StronglySorted (fun a b => (award_amount b <= award_amount a)%Q) rows.

(** The rows of one identifier group, in table order. *)
Definition same_id (w r : Row) : bool := String.eqb (award_id r) (award_id w).



(** A table with all the required columns and no row. *)
Definition no_rows : DataFrame := mkDataFrame required_columns [].

(** No backup was made in a run with these events. *)
Definition no_backup (evs : list event) : Prop :=
  ~ In BackupVersionsCreated evs.

(** An operating system that stores what it is given. *)
Definition file_of (c : content) : file :=
  match c with
  | CsvOf df => mkFile 1 (Py.Ret df) (Py.Raise Py.JSONDecodeError)
  | JsonOf df records =>
      mkFile 1 (Py.Raise Py.ValueError)
        (Py.Ret (Py.Dict
           {[ "metadata" := Py.Dict ∅;
              "records" := Py.List (map (fun _ => Py.Dict ∅) records) ]}))
  | TestText | LogEntry =>
      mkFile 1 (Py.Raise Py.ValueError) (Py.Raise Py.JSONDecodeError)
  end.

Definition sound_write (path : string) (c : content) (fs : filesystem)
  : Py.result filesystem :=
  Py.Ret (<[path := file_of c]> fs).

(** An operating system that reports success but leaves JSON documents
    empty on disk. *)
Definition truncating_write (path : string) (c : content) (fs : filesystem)
  : Py.result filesystem :=
  match c with
  | JsonOf _ _ =>
      Py.Ret (<[path := mkFile 0 (Py.Raise Py.ValueError)
                          (Py.Raise Py.JSONDecodeError)]> fs)
  | _ => sound_write path c fs
  end.

Definition plain_remove (path : string) (fs : filesystem)
  : Py.result filesystem :=
  Py.Ret (delete path fs).

Definition plain_makedirs (path : string) (fs : filesystem)
  : Py.result filesystem :=
  Py.Ret (<[path := mkFile 0 (Py.Raise Py.OSError) (Py.Raise Py.OSError)]> fs).

(** A table with every column the writer needs and one row. *)
Definition one_row_table : DataFrame :=
  mkDataFrame (required_columns ++ json_metadata_columns) [row "X1" "Acme" 1000.5].

(** What may be left behind by a format block that was entered. *)
Definition block_outcome (file_path latest_path : string)
    (out : flow (list string) * filesystem * list event) : Prop :=
  match out with
  | (Normal _, _, evs) =>
      evs = [Saved file_path; IntegrityChecked file_path true;
             Saved latest_path; IntegrityChecked latest_path true]
  | (Return b, _, evs) => b = false /\ no_backup evs
  | (Raised _, _, _) => False
  end.

(** What a format step, entered or skipped, may leave behind. *)
Definition step_outcome (out : flow (list string) * filesystem * list event)
  : Prop :=
  match out with
  | (Normal _, _, evs) =>
      (forall p, ~ In (IntegrityChecked p false) evs) /\
      (forall p, In (Saved p) evs -> In (IntegrityChecked p true) evs) /\
      no_backup evs
  | (Return b, _, evs) => b = false /\ no_backup evs
  | (Raised _, _, _) => False
  end.

(** The page numbers 1, ..., n. *)
Definition page_numbers (n : nat) : list Z :=
  map (fun i => Z.of_nat (S i)) (seq 0 n).

(** The API never hands back more records than it was asked for. *)
Definition honours_limit (post : payload -> http_outcome)
    (award_group : string) : Prop :=
  forall lim pg v rs,
    fetch_spending_data_with_page post lim award_group pg = Some v ->
    batch_results_of (Some v) = Some rs ->
    (Z.of_nat (length rs) <= lim)%Z.

(** A list of records is empty or starts with a record that the response
    validator accepts as first record: a dict with one of the basic
    fields. *)
Definition valid_first_record (records : list Py.value) : Prop :=
  match records with
  | [] => True
  | first_record :: _ =>
      exists item field,
        first_record = Py.Dict item /\
        field ∈ basic_fields /\ is_Some (item !! field)
  end.

(** An API that answers every request with the same number of records,
    whatever was asked for. *)
Definition fixed_page_api (n : nat) (p : payload) : http_outcome :=
  Response 200
    (Py.Ret (Py.Dict
       {[ "results" := Py.List (replicate n (Py.Dict sample_record)) ]})).

(** Names for the files and the parts of [save_data]. *)
Section WriterParts.

Variable data_dir : string.
Variable timestamp : string.
Variable os_write : string -> content -> filesystem -> Py.result filesystem.
Variable create_backup_effect : filesystem -> filesystem.

Definition csv_path : string :=
  path_join data_dir ("spending_data_useful_" +:+ timestamp +:+ ".csv").

Definition json_path : string :=
  path_join data_dir ("spending_data_useful_" +:+ timestamp +:+ ".json").

Definition latest_csv_path : string :=
  path_join data_dir "spending_data_useful_latest.csv".

Definition latest_json_path : string :=
  path_join data_dir "spending_data_useful_latest.json".

(** What [save_data] does once both format blocks are through. *)
Definition finish_save (saved_files : list string) : io unit :=
  backed_up <<- create_backup_versions create_backup_effect ;
  all_valid <<- validate_saved_files data_dir os_write saved_files ;
  if all_valid then
    logged <<- log_successful_save data_dir os_write ;
    io_return true
  else io_return false.

(** The file system once a sound operating system has stored the four
    data files of a save with format "both". *)
Definition stored_data_files (df : DataFrame) (fs : filesystem) : filesystem :=
  <[latest_json_path := file_of (JsonOf df (df_rows df))]>
    (<[json_path := file_of (JsonOf df (df_rows df))]>
       (<[latest_csv_path := file_of (CsvOf df)]>
          (<[csv_path := file_of (CsvOf df)]> fs))).

(** What [save_data] does once the storage check has passed. *)
Definition save_data_main (df : DataFrame) (save_format : string) : io unit :=
  io_try
    (saved_files <<-
       (if format_in save_format ["csv"; "both"]
        then save_format_block os_write csv_path latest_csv_path
               (io_ret (CsvOf df)) []
        else io_ret []) ;
     saved_files <<-
       (if format_in save_format ["json"; "both"]
        then save_format_block os_write json_path latest_json_path
               (build_json_data df) saved_files
        else io_ret saved_files) ;
     finish_save saved_files)
    (fun e => io_return false).

End WriterParts.

(** ** Record extraction: the loop of [process_to_dataframe] *)

(** One assignment [record[column] = safe_extract(raw_field, fallback,
    convert)] of the loop body. *)
Record assignment : Type := Assign {
  column : string;
  raw_field : string;
  fallback_value : Py.value;
  convert : convert_type
}.

(** [f'UNKNOWN_ID_{i+1}'] for the loop index [i]. *)
Definition unknown_id (i : nat) : string := "UNKNOWN_ID_" +:+ pretty (i + 1)%nat.

(** The assignments of the loop body for the record at index [i], in the
    order of the source. *)
Definition useful_columns (i : nat) : list assignment :=
  [ Assign "award_amount" "Award Amount" (Py.Float (Py.Finite 0)) CFloat;
    Assign "covid_19_obligations" "COVID-19 Obligations"
      (Py.Float (Py.Finite 0)) CFloat;
    Assign "covid_19_outlays" "COVID-19 Outlays" (Py.Float (Py.Finite 0)) CFloat;
    Assign "infrastructure_obligations" "Infrastructure Obligations"
      (Py.Float (Py.Finite 0)) CFloat;
    Assign "infrastructure_outlays" "Infrastructure Outlays"
      (Py.Float (Py.Finite 0)) CFloat;
    Assign "award_id" "Award ID" (Py.Str (unknown_id i)) CStr;
    Assign "recipient_name" "Recipient Name" (Py.Str "Unknown Recipient") CStr;
    Assign "recipient_id" "recipient_id" (Py.Str "No ID") CStr;
    Assign "recipient_uei" "Recipient UEI" (Py.Str "No UEI") CStr;
    Assign "awarding_agency" "Awarding Agency" (Py.Str "Unknown Agency") CStr;
    Assign "awarding_agency_code" "Awarding Agency Code"
      (Py.Str "Unknown Code") CStr;
    Assign "awarding_sub_agency" "Awarding Sub Agency"
      (Py.Str "Unknown Sub Agency") CStr;
    Assign "awarding_sub_agency_code" "Awarding Sub Agency Code"
      (Py.Str "Unknown Code") CStr;
    Assign "funding_agency" "Funding Agency"
      (Py.Str "Unknown Funding Agency") CStr;
    Assign "funding_agency_code" "Funding Agency Code"
      (Py.Str "Unknown Code") CStr;
    Assign "funding_sub_agency" "Funding Sub Agency"
      (Py.Str "Unknown Sub Agency") CStr;
    Assign "funding_sub_agency_code" "Funding Sub Agency Code"
      (Py.Str "Unknown Code") CStr;
    Assign "place_of_performance_state_code" "Place of Performance State Code"
      (Py.Str "Unknown") CStr;
    Assign "place_of_performance_country_code"
      "Place of Performance Country Code" (Py.Str "USA") CStr;
    Assign "place_of_performance_zip5" "Place of Performance Zip5"
      (Py.Str "Unknown") CStr;
    Assign "description" "Description" (Py.Str "No Description") CStr;
    Assign "contract_award_type" "Contract Award Type" (Py.Str "N/A") CStr;
    Assign "naics_code" "naics_code" (Py.Str "Unknown") CStr;
    Assign "naics_description" "naics_description" (Py.Str "Unknown") CStr;
    Assign "psc_code" "psc_code" (Py.Str "Unknown") CStr;
    Assign "psc_description" "psc_description" (Py.Str "Unknown") CStr;
    Assign "last_modified_date" "Last Modified Date"
      (Py.Str "Unknown Date") CStr;
    Assign "base_obligation_date" "Base Obligation Date"
      (Py.Str "Unknown Date") CStr;
    Assign "start_date" "Start Date" (Py.Str "Unknown Date") CStr;
    Assign "end_date" "End Date" (Py.Str "Unknown Date") CStr ].

(** What the loop has accumulated. *)
Record extraction_state : Type := ExtractionState {
  records : list (gmap string Py.value);
  processed_count : nat;
  error_count : nat;
  field_errors_of : tally
}.

Section RecordLoop.

Variable repr : Py.value -> string.

(** [datetime.now().isoformat()] while the record at an index is
    processed. *)
Variable now_isoformat : nat -> Py.result string.

(** The assignments, run in order on the record under construction; an
    exception that leaves [safe_extract] would leave the loop body. *)
Fixpoint run_assignments (item : gmap string Py.value)
    (assignments : list assignment)
    (record : gmap string Py.value) (field_errors : tally)
  : Py.result (gmap string Py.value) * tally :=
  match assignments with
  | [] => (Py.Ret record, field_errors)
  | a :: rest =>
      match safe_extract repr item field_errors (raw_field a)
              (fallback_value a) (convert a) with
      | (Py.Ret v, field_errors') =>
          run_assignments item rest (<[column a := v]> record) field_errors'
      | (Py.Raise e, field_errors') => (Py.Raise e, field_errors')
      end
  end.

(** [record['fetched_at']], with its own [try]. *)
Definition fetched_at_value (i : nat) : Py.value :=
  Py.try_except (s <- now_isoformat i ; Py.Ret (Py.Str s))
    (fun e => Py.Str "Error - Timestamp").

(** [record.get(field) and record.get(field) not in
    [f'UNKNOWN_ID_{i+1}', 'Unknown Recipient', '', None]]. *)
Definition essential_present (i : nat) (record : gmap string Py.value)
    (field : string) : bool :=
  let v := default Py.None_ (record !! field) in
  Py.truthy v &&
  negb (Py.eq_str v (unknown_id i) || Py.eq_str v "Unknown Recipient"
        || Py.eq_str v "" || is_none v).

Definition essential_fields : list string := ["award_id"; "recipient_name"].

Definition has_essential (i : nat) (record : gmap string Py.value) : bool :=
  forallb (essential_present i record) essential_fields.

Definition count_error (st : extraction_state) (field_errors : tally)
  : extraction_state :=
  ExtractionState (records st) (processed_count st) (S (error_count st))
    field_errors.

(** The body of [for i, item in enumerate(results)]. *)
Definition process_item (i : nat) (item : Py.value) (st : extraction_state)
  : extraction_state :=
  match item with
  | Py.Dict d =>
      match run_assignments d (useful_columns i) ∅ (field_errors_of st) with
      | (Py.Ret record, field_errors) =>
          let record := <["fetched_at" := fetched_at_value i]> record in
          if has_essential i record then
            ExtractionState (records st ++ [record]) (S (processed_count st))
              (error_count st) field_errors
          else count_error st field_errors
      | (Py.Raise e, field_errors) => count_error st field_errors
      end
  | _ => count_error st (field_errors_of st)
  end.

Fixpoint process_items (i : nat) (results : list Py.value)
    (st : extraction_state) : extraction_state :=
  match results with
  | [] => st
  | item :: rest => process_items (S i) rest (process_item i item st)
  end.

(** The loop, from its initial counters. *)
Definition extract_records (results : list Py.value) : extraction_state :=
  process_items 0 results (ExtractionState [] 0 0 ∅).

End RecordLoop.

(** The names of the columns a kept record has. *)
Definition record_columns : list string :=
  map column (useful_columns 0) ++ ["fetched_at"].

(** The five financial columns. *)
Definition financial_columns : list string :=
  ["award_amount"; "covid_19_obligations"; "covid_19_outlays";
   "infrastructure_obligations"; "infrastructure_outlays"].

(** A printed representation, for the examples. *)
Definition plain_repr (v : Py.value) : string :=
  match v with
  | Py.Str s => s
  | Py.Int z => pretty z
  | _ => "?"
  end.

(** No character of [s] is whitespace. *)
Fixpoint no_whitespace (s : string) : bool :=
  match s with
  | EmptyString => true
  | String c s' => negb (Str.is_whitespace c) && no_whitespace s'
  end.

(** The record the loop body builds, as a value. *)
Section BuiltRecord.

Variable repr : Py.value -> string.
Variable now_isoformat : nat -> Py.result string.

(** The value an assignment leaves in its column. *)
Definition stored_value (item : gmap string Py.value) (a : assignment)
  : Py.value :=
  Py.try_except
    (safe_extract_body repr item (raw_field a) (fallback_value a) (convert a))
    (fun e => fallback_value a).

Definition assigned (item : gmap string Py.value)
    (assignments : list assignment) (record : gmap string Py.value)
  : gmap string Py.value :=
  foldl (fun r a => <[column a := stored_value item a]> r) record assignments.

(** The record of the dict at index [i]. *)
Definition built_record (i : nat) (item : gmap string Py.value)
  : gmap string Py.value :=
  <["fetched_at" := fetched_at_value now_isoformat i]>
    (assigned item (useful_columns i) ∅).

End BuiltRecord.

Arguments built_record : simpl never.

(** The raw fields that are converted to [float]. *)
Definition amount_fields : list string :=
  ["Award Amount"; "COVID-19 Obligations"; "COVID-19 Outlays";
   "Infrastructure Obligations"; "Infrastructure Outlays"].

(** ** Backup rotation: [cleanup_old_backups] *)

(** [backup_files.sort(key=lambda x: x[1], reverse=True)] on the list of
    [(filename, mtime)] pairs.  [list.sort] is stable, also with
    [reverse=True]: entries of equal time keep their relative order.
    [insert_newest e sorted] puts [e], which precedes all of [sorted] in
    the list, in front of the first entry that is not newer. *)
Fixpoint insert_newest (e : string * Q) (sorted : list (string * Q))
  : list (string * Q) :=
  match sorted with
  | [] => [e]
  | x :: sorted' =>
      if Qle_bool (snd x) (snd e)
      then e :: x :: sorted'
      else x :: insert_newest e sorted'
  end.

Definition sort_newest_first (backup_files : list (string * Q))
  : list (string * Q) :=
  foldr insert_newest [] backup_files.

Section Backups.

(** [os.listdir], [os.path.getmtime] and [os.remove]; each may raise. *)
Variable listdir : string -> Py.result (list string).
Variable getmtime : string -> Py.result Q.
Variable remove : string -> Py.result unit.

(** The first loop: the [(filename, mtime)] pairs of the files whose name
    starts with "backup_", in directory order. *)
Fixpoint collect_backup_files (backup_dir : string) (filenames : list string)
  : Py.result (list (string * Q)) :=
  match filenames with
  | [] => Py.Ret []
  | filename :: rest =>
      if Str.startswith filename "backup_" then
        mtime <- getmtime (path_join backup_dir filename) ;
        backup_files <- collect_backup_files backup_dir rest ;
        Py.Ret ((filename, mtime) :: backup_files)
      else collect_backup_files backup_dir rest
  end.

(** The second loop.  Its value is the list of the paths it has removed;
    the exception of a removal that fails ends it. *)
Fixpoint remove_files (backup_dir : string)
    (files_to_remove : list (string * Q)) : list string :=
  match files_to_remove with
  | [] => []
  | (filename, _) :: rest =>
      let file_path := path_join backup_dir filename in
      match remove file_path with
      | Py.Ret _ => file_path :: remove_files backup_dir rest
      | Py.Raise _ => []
      end
  end.

(** [cleanup_old_backups]: the paths it removes, in the order of removal. *)
Definition cleanup_old_backups (backup_dir : string) (keep_count : nat)
  : list string :=
  Py.try_except
    (filenames <- listdir backup_dir ;
     backup_files <- collect_backup_files backup_dir filenames ;
     let backup_files := sort_newest_first backup_files in
     if (keep_count <? length backup_files)%nat
     then Py.Ret (remove_files backup_dir (drop keep_count backup_files))
     else Py.Ret [])
    (fun e => []).

End Backups.

(** Newest first. *)
Definition newest_first (backup_files : list (string * Q)) : Prop :=
  StronglySorted (fun a b => (snd b <= snd a)%Q) backup_files.

(** ** Single request and all award types *)

Definition award_groups : list string :=
  ["contracts"; "grants"; "direct_payments"; "loans"; "other"].

Section AllAwardTypes.

Local Open Scope Z_scope.

(** The remote API for a request that names no page: the award type
    codes and the limit are what varies. *)
Variable post_unpaged : list string -> Z -> http_outcome.

(** [fetch_spending_data]: the decoded response, or [None].  Its debug
    block raises for the same first records as the one of
    [fetch_spending_data_with_page]. *)
Definition fetch_spending_data (lim : Z) (award_group : string)
  : option Py.value :=
  match lookup_group award_group with
  | None => None
  | Some codes =>
      Py.try_except
        (match post_unpaged codes lim with
         | PostRaises e => Py.Raise e
         | Response status_code json =>
             if status_code =? 200 then
               response_data <- json ;
               d <- Py.as_dict response_data ;
               shown <- debug_first_record d ;
               valid <- validate_api_response response_data ;
               Py.Ret (if valid then Some response_data else None)
             else Py.Ret None
         end)
        (fun e => None)
  end.

(** The body of [for group in award_groups]. *)
Definition add_group (limit_per_group : Z) (all_data : list Py.value)
    (group : string) : list Py.value :=
  match batch_results_of (fetch_spending_data limit_per_group group) with
  | Some results => all_data ++ results
  | None => all_data
  end.

Definition combined_response (all_data : list Py.value) : Py.value :=
  Py.Dict
    {[ "results" := Py.List all_data;
       "page_metadata" :=
         Py.Dict
           {[ "page" := Py.Int 1;
              "hasNext" := Py.Bool false;
              "hasPrevious" := Py.Bool false;
              "total" := Py.Int (Z.of_nat (length all_data)) ]} ]}.

(** [fetch_all_award_types]: the combined response, or [None] when no
    group gave a record. *)
Definition fetch_all_award_types (limit_per_group : Z) : option Py.value :=
  let all_data := foldl (add_group limit_per_group) [] award_groups in
  match all_data with
  | [] => None
  | _ :: _ => Some (combined_response all_data)
  end.

End AllAwardTypes.

(** An API that answers a request for a group with as many copies of the
    sample record as asked for, and fails for loans. *)
Definition four_groups_api (codes : list string) (lim : Z) : http_outcome :=
  if bool_decide (codes = ["07"; "08"]) then PostRaises Py.Timeout
  else
    Response 200
      (Py.Ret (Py.Dict
         {[ "results" :=
              Py.List (replicate (Z.to_nat lim) (Py.Dict sample_record)) ]})).

(** [w] carries the largest amount of its identifier group in [rows]. *)
Definition has_group_maximum (rows : list Row) (w : Row) : Prop :=
  In w rows /\
  forall r, In r rows -> award_id r = award_id w ->
            (award_amount r <= award_amount w)%Q.



(** Two rows of one award with the same amount. *)
Definition tied_group : list Row :=
  [row "X1" "first" 2; row "X1" "second" 2].

(** * Part II.  Properties *)

(** ** Strings *)





(** ** Response validator *)

Lemma found_fields_container (first_record : Py.value) (n : nat) :
  Py.len first_record = Py.Ret n ->
  exists b1 b2 b3,
    Py.contains first_record "Award ID" = Py.Ret b1 /\
    Py.contains first_record "Recipient Name" = Py.Ret b2 /\
    Py.contains first_record "Award Amount" = Py.Ret b3.
Proof.
  destruct first_record; simpl; intros H; try discriminate;
    do 3 eexists; repeat split.
Qed.

Lemma basic_fields_cases (field : string) :
  field ∈ basic_fields <->
  field = "Award ID" \/ field = "Recipient Name" \/ field = "Award Amount".
Proof.
  unfold basic_fields. rewrite !elem_of_cons, elem_of_nil. tauto.
Qed.

Lemma validate_nonempty_results (d : gmap string Py.value)
    (first_record : Py.value) (rest : list Py.value) :
  d !! "results" = Some (Py.List (first_record :: rest)) ->
  validate_api_response (Py.Dict d) = Py.Ret true <->
  exists field,
    field ∈ basic_fields /\ Py.contains first_record field = Py.Ret true.
Proof.
  intros Hres. unfold validate_api_response. rewrite Hres.
  destruct (Py.len first_record) as [n|e] eqn:Hlen.
  - destruct (found_fields_container _ _ Hlen) as (b1 & b2 & b3 & H1 & H2 & H3).
    simpl. rewrite H1, H2, H3. simpl. split.
    + intros Hv.
      destruct b1; [exists "Award ID"; rewrite basic_fields_cases; auto|].
      destruct b2; [exists "Recipient Name"; rewrite basic_fields_cases; auto|].
      destruct b3; [exists "Award Amount"; rewrite basic_fields_cases; auto|].
      simpl in Hv. destruct (Py.as_dict first_record); discriminate.
    + intros (field & Hin & Hc). apply basic_fields_cases in Hin.
      destruct Hin as [->|[->| ->]];
        [assert (b1 = true) by congruence
        |assert (b2 = true) by congruence
        |assert (b3 = true) by congruence];
        subst; repeat match goal with b : bool |- _ => destruct b end;
        reflexivity.
  - simpl. split; [discriminate|].
    intros (field & _ & Hc).
    destruct first_record; simpl in *; discriminate.
Qed.



(** ** Field extractor *)

Section ExtractorFacts.

Variable repr : Py.value -> string.
Variable item : gmap string Py.value.
Variable field_errors : tally.
Variable field_name : string.
Variable fallback : Py.value.







End ExtractorFacts.



(** ** Paginated fetcher *)

Section FetcherFacts.

Local Open Scope Z_scope.

Variable post : payload -> http_outcome.
Variable total_limit : Z.
Variable award_group : string.

Abbreviation current_limit_of st :=
  (Z.min api_max_limit (total_limit - Z.of_nat (length (all_results st)))).

Lemma page_failure_gives_none (lim pg : Z) :
  page_request_fails post lim award_group pg ->
  fetch_spending_data_with_page post lim award_group pg = None.
Proof.
  unfold page_request_fails, fetch_spending_data_with_page.
  destruct (lookup_group award_group) as [codes|]; [|reflexivity].
  intros [[e H]|[(status & json & H & Hs)|[[e H]|[(v & H & Hv)|H]]]].
  - rewrite H. reflexivity.
  - rewrite H. apply Z.eqb_neq in Hs. rewrite Hs. reflexivity.
  - rewrite H. reflexivity.
  - rewrite H. simpl.
    destruct (Py.as_dict v) as [d|e]; [|reflexivity]. simpl.
    destruct (debug_first_record d) as [[]|e]; [|reflexivity]. simpl.
    destruct (validate_api_response v) as [[|]|e]; try reflexivity.
    contradiction.
  - exact H.
Qed.

(** A page that is handed back has passed the validator: it is a dict
    whose "results" entry is a list. *)
Lemma fetched_page_shape (lim pg : Z) (v : Py.value) :
  fetch_spending_data_with_page post lim award_group pg = Some v ->
  exists (d : gmap string Py.value) rs,
    v = Py.Dict d /\ d !! "results" = Some (Py.List rs).
Proof.
  unfold fetch_spending_data_with_page.
  destruct (lookup_group award_group) as [codes|]; [|discriminate].
  destruct (post _) as [e|status json]; [discriminate|].
  destruct (status =? 200); [|discriminate].
  destruct json as [response_data|e]; [|discriminate]. simpl.
  destruct (Py.as_dict response_data) as [d|e] eqn:Hd; [|discriminate]. simpl.
  destruct (debug_first_record d) as [[]|e]; [|discriminate]. simpl.
  destruct (validate_api_response response_data) as [[|]|e] eqn:Hv;
    try discriminate.
  simpl. intros [= <-].
  destruct response_data; try discriminate. simpl in Hd. simplify_eq.
  simpl in Hv. destruct (d !! "results") as [[]|] eqn:Hr; try discriminate.
  do 2 eexists. split; [reflexivity|eassumption].
Qed.

Lemma loop_body_issues (num : Z) (st : fetch_state) :
  0 < current_limit_of st ->
  requests (snd (loop_body post total_limit award_group num st))
  = requests st ++ [(num + 1, current_limit_of st)].
Proof.
  intros Hpos. unfold loop_body.
  destruct (current_limit_of st <=? 0) eqn:Hle; [lia|].
  destruct (batch_results_of _) as [batch|]; [|reflexivity].
  destruct (_ <? _); reflexivity.
Qed.

Lemma loop_body_request (num : Z) (st : fetch_state) :
  let st' := snd (loop_body post total_limit award_group num st) in
  requests st' = requests st \/
  requests st' = requests st ++ [(num + 1, current_limit_of st)].
Proof.
  cbv zeta. destruct (Z_lt_le_dec 0 (current_limit_of st)) as [Hpos|Hle].
  - right. apply loop_body_issues. exact Hpos.
  - left. unfold loop_body.
    destruct (current_limit_of st <=? 0) eqn:E; [reflexivity|lia].
Qed.

Lemma loop_body_skips (num : Z) (st : fetch_state) :
  0 < current_limit_of st ->
  fetch_spending_data_with_page post (current_limit_of st) award_group (num + 1)
  = None ->
  loop_body post total_limit award_group num st
  = (NextIteration,
     FetchState (all_results st)
       (requests st ++ [(num + 1, current_limit_of st)]) num).
Proof.
  intros Hpos Hnone. unfold loop_body.
  destruct (current_limit_of st <=? 0) eqn:Hle; [lia|].
  rewrite Hnone. reflexivity.
Qed.

End FetcherFacts.

Section PlanFacts.

Local Open Scope Z_scope.

Variable post : payload -> http_outcome.
Variable total_limit : Z.
Variable award_group : string.

Lemma total_requests_ceiling :
  100 * (total_requests total_limit - 1) < total_limit
  <= 100 * total_requests total_limit.
Proof.
  unfold total_requests, api_max_limit.
  pose proof (Z.div_mod (total_limit + 100 - 1) 100) as Hdm.
  pose proof (Z.mod_pos_bound (total_limit + 100 - 1) 100) as Hb.
  lia.
Qed.

Lemma pagination_loop_requests_bound (count : nat) :
  forall num st,
    (length (requests (pagination_loop post total_limit award_group count num st))
     <= length (requests st) + count)%nat.
Proof.
  induction count as [|count IH]; intros num st; simpl; [lia|].
  pose proof (loop_body_request post total_limit award_group num st) as Hreq.
  destruct (loop_body post total_limit award_group num st) as [[|] st'];
    simpl in Hreq.
  - destruct Hreq as [-> | ->]; rewrite ?length_app; simpl; lia.
  - specialize (IH (num + 1) st').
    destruct Hreq as [Hr|Hr]; rewrite Hr in IH; rewrite ?length_app in IH;
      simpl in IH; lia.
Qed.

Hypothesis Hfull : full_pages post award_group.

Lemma full_page_iteration (num : Z) (st : fetch_state) :
  Z.of_nat (length (all_results st)) = 100 * num ->
  100 * num < total_limit ->
  exists rs,
    Z.of_nat (length rs) = Z.min 100 (total_limit - 100 * num) /\
    loop_body post total_limit award_group num st
    = (NextIteration,
       FetchState (all_results st ++ rs)
         (requests st ++ [(num + 1, Z.min 100 (total_limit - 100 * num))]) num).
Proof.
  intros Hlen Hlt. unfold loop_body, api_max_limit. rewrite Hlen.
  set (cur := Z.min 100 (total_limit - 100 * num)).
  assert (Hpos : 0 < cur) by (unfold cur; lia).
  destruct (cur <=? 0) eqn:Hle; [lia|].
  destruct (Hfull cur (num + 1) Hpos) as (d & rs & Hfetch & Hres & Hrs).
  rewrite Hfetch. simpl. rewrite Hres.
  destruct rs as [|r rs]; [simpl in Hrs; lia|].
  exists (r :: rs). split; [exact Hrs|].
  destruct (Z.of_nat (length (r :: rs)) <? cur) eqn:Hshort; [lia|reflexivity].
Qed.

Lemma full_pages_follow_plan (count : nat) :
  forall num st,
    Z.of_nat (length (all_results st)) = 100 * num ->
    num + Z.of_nat count = total_requests total_limit ->
    requests (pagination_loop post total_limit award_group count num st)
    = requests st ++ planned_from total_limit count num.
Proof.
  pose proof total_requests_ceiling as Hceil.
  induction count as [|count IH]; intros num st Hlen Hnum.
  - simpl. rewrite app_nil_r. reflexivity.
  - assert (Hlt : 100 * num < total_limit) by lia.
    destruct (full_page_iteration num st Hlen Hlt) as (rs & Hrs & Hbody).
    simpl. rewrite Hbody.
    destruct count as [|count'].
    + reflexivity.
    + rewrite IH.
      * simpl. rewrite <- app_assoc. reflexivity.
      * simpl. rewrite length_app. lia.
      * lia.
Qed.

Lemma full_pages_run :
  0 < total_limit ->
  requests (run_pagination post total_limit award_group)
  = planned_requests total_limit.
Proof.
  intros Hpos. pose proof total_requests_ceiling as Hceil.
  unfold run_pagination, planned_requests.
  rewrite full_pages_follow_plan; [reflexivity|reflexivity|lia].
Qed.

End PlanFacts.

Section DeadApiFacts.

Local Open Scope Z_scope.

Variable post : payload -> http_outcome.
Variable total_limit : Z.
Variable award_group : string.

Hypothesis Hfail : forall lim pg, page_request_fails post lim award_group pg.

(** When every request fails, every iteration still issues its request. *)
Lemma failing_loop_requests (count : nat) :
  forall num st,
    0 < total_limit ->
    all_results st = [] ->
    length (requests (pagination_loop post total_limit award_group count num st))
    = (length (requests st) + count)%nat.
Proof.
  induction count as [|count IH]; intros num st Hpos Hnil; simpl; [lia|].
  assert (Hcur : 0 < Z.min api_max_limit
                       (total_limit - Z.of_nat (length (all_results st)))).
  { rewrite Hnil. unfold api_max_limit. simpl. lia. }
  rewrite (loop_body_skips post total_limit award_group num st Hcur)
    by (apply page_failure_gives_none, Hfail).
  rewrite IH by (simpl; assumption).
  simpl. rewrite length_app. simpl. lia.
Qed.

Lemma failing_run_requests :
  length (requests (run_pagination post total_limit award_group))
  = Z.to_nat (total_requests total_limit).
Proof.
  unfold run_pagination.
  destruct (Z_lt_le_dec 0 total_limit) as [Hpos|Hle].
  - rewrite failing_loop_requests by (simpl; auto). reflexivity.
  - assert (Htr : total_requests total_limit <= 0).
    { pose proof (total_requests_ceiling total_limit). lia. }
    destruct (total_requests total_limit); try lia; reflexivity.
Qed.

End DeadApiFacts.

Lemma dead_api_fails (lim : Z) (award_group : string) (pg : Z) :
  page_request_fails dead_api lim award_group pg.
Proof.
  unfold page_request_fails. destruct (lookup_group award_group); [|exact I].
  left. exists Py.Timeout. reflexivity.
Qed.

(** C3, as stated, fails in its proviso: no number of consecutive
    failures makes the fetcher give up before the planned pages are
    through. *)
Lemma no_cap_on_consecutive_failures :
  ~ (exists max_failures : nat,
        forall total_limit : Z,
          (length (requests (run_pagination dead_api total_limit "contracts"))
           <= max_failures)%nat).
Proof.
  intros [max_failures H].
  specialize (H (100 * Z.of_nat (S max_failures))%Z).
  rewrite failing_run_requests in H by (intros; apply dead_api_fails).
  assert (Htr : total_requests (100 * Z.of_nat (S max_failures))
                = Z.of_nat (S max_failures)).
  { pose proof (total_requests_ceiling (100 * Z.of_nat (S max_failures))).
    lia. }
  rewrite Htr in H. lia.
Qed.

(** C3, amended.  A page whose request fails does not end the run: the
    iteration leaves the accumulator as it was, the loop goes on with the
    next loop index and the iteration after it asks for the next page
    number.  No count of failures stops the loop: when every request
    fails, every planned page is still requested. *)
Theorem failed_page_is_skipped (post : payload -> http_outcome)
    (total_limit : Z) (award_group : string) :
  (forall (count : nat) (num : Z) (st : fetch_state),
      let current_limit :=
        Z.min api_max_limit (total_limit - Z.of_nat (length (all_results st))) in
      let current_page := (num + 1)%Z in
      let skipped :=
        FetchState (all_results st)
          (requests st ++ [(current_page, current_limit)]) num in
      (0 < current_limit)%Z ->
      page_request_fails post current_limit award_group current_page ->
      loop_body post total_limit award_group num st = (NextIteration, skipped) /\
      pagination_loop post total_limit award_group (S count) num st
      = pagination_loop post total_limit award_group count (num + 1)%Z skipped /\
      requests (snd (loop_body post total_limit award_group (num + 1)%Z skipped))
      = requests st
        ++ [(current_page, current_limit); ((current_page + 1)%Z, current_limit)]) /\
  ((forall lim pg, page_request_fails post lim award_group pg) ->
   length (requests (run_pagination post total_limit award_group))
   = Z.to_nat (total_requests total_limit)).
Proof.
  split.
  - cbv zeta. intros count num st Hpos Hfail.
    apply page_failure_gives_none in Hfail.
    pose proof (loop_body_skips post total_limit award_group num st Hpos Hfail)
      as Hskip.
    split; [exact Hskip|]. split.
    + simpl. rewrite Hskip. reflexivity.
    + rewrite loop_body_issues; simpl; [|exact Hpos].
      rewrite <- app_assoc. reflexivity.
  - apply failing_run_requests.
Qed.

Lemma failed_page_is_skipped_witness :
  loop_body flaky_api 250 "contracts" 1
    (FetchState (replicate 100 (Py.Dict sample_record)) [(1, 100)%Z] 0)
  = (NextIteration,
     FetchState (replicate 100 (Py.Dict sample_record))
       [(1, 100)%Z; (2, 100)%Z] 1) /\
  length (requests (run_pagination dead_api 250 "contracts")) = 3%nat.
Proof.
  destruct (failed_page_is_skipped flaky_api 250 "contracts") as [Hskip _].
  destruct (failed_page_is_skipped dead_api 250 "contracts") as [_ Hall].
  split.
  - apply (Hskip 1%nat 1%Z
             (FetchState (replicate 100 (Py.Dict sample_record)) [(1, 100)%Z] 0)).
    + reflexivity.
    + simpl. left. exists Py.Timeout. reflexivity.
  - apply Hall. intros lim pg. apply dead_api_fails.
Defined.

Lemma planned_from_length (total_limit : Z) (count : nat) (num : Z) :
  length (planned_from total_limit count num) = count.
Proof.
  revert num. induction count as [|count IH]; intros num; simpl;
    [reflexivity|]. rewrite IH. reflexivity.
Qed.

Lemma generous_api_full : full_pages generous_api "contracts".
Proof.
  intros lim pg Hpos.
  destruct (Z.to_nat lim) as [|n] eqn:Hn; [lia|].
  eexists _, (replicate (S n) (Py.Dict sample_record)).
  split; [|split].
  - unfold fetch_spending_data_with_page, generous_api. simpl.
    rewrite Hn. reflexivity.
  - apply lookup_singleton_eq.
  - rewrite length_replicate. lia.
Qed.

(** C5.  For a positive target the number of planned requests is the
    ceiling of target / 100; every request the loop issues asks for
    min(100, target - records accumulated so far) and no more than the
    planned number are issued; when every page comes back full the
    requests are exactly the planned ones, and for a target of 250 they
    are pages 1, 2, 3 of sizes 100, 100, 50. *)
Theorem pagination_plan (post : payload -> http_outcome)
    (award_group : string) (total_limit : Z) :
  (0 < total_limit)%Z ->
  (100 * (total_requests total_limit - 1) < total_limit
   <= 100 * total_requests total_limit)%Z /\
  length (planned_requests total_limit) = Z.to_nat (total_requests total_limit) /\
  (forall num st,
      let st' := snd (loop_body post total_limit award_group num st) in
      requests st' = requests st \/
      requests st'
      = requests st
        ++ [((num + 1)%Z,
             Z.min 100 (total_limit - Z.of_nat (length (all_results st))))]) /\
  (length (requests (run_pagination post total_limit award_group))
   <= Z.to_nat (total_requests total_limit))%nat /\
  (full_pages post award_group ->
   requests (run_pagination post total_limit award_group)
   = planned_requests total_limit) /\
  (full_pages post award_group ->
   requests (run_pagination post 250 award_group)
   = [(1, 100); (2, 100); (3, 50)]%Z).
Proof.
  intros Hpos.
  split; [apply total_requests_ceiling|].
  split; [apply planned_from_length|].
  split; [intros num st; apply loop_body_request|].
  split.
  { unfold run_pagination.
    pose proof (pagination_loop_requests_bound post total_limit award_group
                  (Z.to_nat (total_requests total_limit)) 0%Z
                  (FetchState [] [] 0%Z)) as Hb.
    simpl in Hb. exact Hb. }
  split.
  - intros Hfull. apply full_pages_run; assumption.
  - intros Hfull. rewrite full_pages_run; [reflexivity|assumption|reflexivity].
Qed.

Lemma pagination_plan_witness :
  requests (run_pagination generous_api 250 "contracts")
  = [(1, 100); (2, 100); (3, 50)]%Z.
Proof.
  apply (pagination_plan generous_api "contracts" 250).
  - reflexivity.
  - exact generous_api_full.
Defined.

(** ** Sorting and deduplication *)

Section SortFacts.

Local Open Scope Q_scope.

Lemma amount_le_iff (a b : Q) : amount_le a b = true <-> a <= b.
Proof. apply Qle_bool_iff. Qed.

Lemma amount_le_false (a b : Q) : amount_le a b = false -> b < a.
Proof.
  intros H. apply Qnot_le_lt. intros Hle.
  apply amount_le_iff in Hle. congruence.
Qed.

Lemma amount_lt_iff (a b : Q) : amount_lt a b = true <-> a < b.
Proof.
  unfold amount_lt. fold (amount_le b a). split.
  - intros H. apply negb_true_iff in H. apply amount_le_false in H. exact H.
  - intros H. apply negb_true_iff.
    destruct (amount_le b a) eqn:E; [|reflexivity].
    apply amount_le_iff in E. lra.
Qed.

Lemma insert_desc_perm (x : Row) (l : list Row) :
  Permutation (insert_desc x l) (x :: l).
Proof.
  induction l as [|y l IH]; simpl; [reflexivity|].
  destruct (amount_le (award_amount y) (award_amount x)); [reflexivity|].
  rewrite IH. apply perm_swap.
Qed.

Lemma sort_values_perm (l : list Row) : Permutation (sort_values l) l.
Proof.
  induction l as [|x l IH]; simpl; [reflexivity|].
  rewrite insert_desc_perm. apply perm_skip. exact IH.
Qed.

Lemma sort_values_In (l : list Row) (r : Row) : In r (sort_values l) <-> In r l.
Proof.
  split; apply Permutation_in;
    [apply sort_values_perm|symmetry; apply sort_values_perm].
Qed.

(** A row that is not smaller than any row of the table goes in front. *)
Lemma insert_desc_front (x : Row) (l : list Row) :
  Forall (fun y => award_amount y <= award_amount x) l ->
  insert_desc x l = x :: l.
Proof.
  intros H. destruct l as [|y l]; [reflexivity|]. simpl.
  apply Forall_inv in H. apply amount_le_iff in H. rewrite H. reflexivity.
Qed.

Lemma insert_desc_sorted (x : Row) (l : list Row) :
  sorted_desc l -> sorted_desc (insert_desc x l).
Proof.
  unfold sorted_desc. induction 1 as [|y l Hl IH Hy]; simpl.
  - repeat constructor.
  - destruct (amount_le (award_amount y) (award_amount x)) eqn:E.
    + apply amount_le_iff in E. constructor.
      * constructor; [exact Hl|exact Hy].
      * constructor; [exact E|].
        eapply Forall_impl; [exact Hy|]. simpl. intros z Hz. lra.
    + apply amount_le_false in E. constructor; [exact IH|].
      rewrite (insert_desc_perm x l). constructor; [lra|exact Hy].
  Qed.

Lemma sort_values_sorted (l : list Row) : sorted_desc (sort_values l).
Proof.
  induction l as [|x l IH]; simpl; [constructor|].
  apply insert_desc_sorted. exact IH.
Qed.

(** Sorting a sorted table changes nothing. *)
Lemma sort_values_fixed (l : list Row) : sorted_desc l -> sort_values l = l.
Proof.
  unfold sorted_desc. induction 1 as [|x l Hl IH Hx]; [reflexivity|].
  simpl. rewrite IH. apply insert_desc_front. exact Hx.
Qed.

(** The sort is stable: it commutes with the selection of any group. *)
Lemma filter_insert_desc (p : Row -> bool) (x : Row) (l : list Row) :
  sorted_desc l ->
  List.filter p (insert_desc x l)
  = if p x then insert_desc x (List.filter p l) else List.filter p l.
Proof.
  unfold sorted_desc. induction 1 as [|y l Hl IH Hy].
  - simpl. destruct (p x); reflexivity.
  - cbn [insert_desc].
    destruct (amount_le (award_amount y) (award_amount x)) eqn:E.
    + remember (y :: l) as m eqn:Hm. simpl. destruct (p x); [|reflexivity].
      symmetry. apply insert_desc_front. subst m.
      apply amount_le_iff in E.
      apply List.Forall_forall. intros z Hz.
      apply List.filter_In in Hz as [Hz _].
      destruct Hz as [<-|Hz]; [exact E|].
      rewrite List.Forall_forall in Hy. specialize (Hy z Hz). simpl in Hy. lra.
    + simpl. rewrite IH. destruct (p y), (p x); simpl; rewrite ?E; reflexivity.
Qed.

Lemma filter_sort_values (p : Row -> bool) (l : list Row) :
  List.filter p (sort_values l) = sort_values (List.filter p l).
Proof.
  induction l as [|x l IH]; simpl; [reflexivity|].
  rewrite filter_insert_desc by apply sort_values_sorted.
  rewrite IH. destruct (p x); reflexivity.
Qed.

(** The head of the sorted group is the first of its largest rows. *)
Lemma sort_values_head (g : list Row) (w : Row) :
  head (sort_values g) = Some w ->
  exists before after,
    g = before ++ w :: after /\
    (forall r, In r before -> award_amount r < award_amount w) /\
    (forall r, In r after -> award_amount r <= award_amount w).
Proof.
  revert w. induction g as [|x g IH]; intros w; simpl; [discriminate|].
  destruct (sort_values g) as [|y s] eqn:Hs.
  - simpl. intros [= <-].
    assert (g = []) as ->.
    { apply Permutation_nil. rewrite <- Hs. apply sort_values_perm. }
    exists [], []. repeat split; intros r [].
  - destruct (IH y eq_refl) as (b & a & Hg & Hb & Ha).
    simpl. destruct (amount_le (award_amount y) (award_amount x)) eqn:E.
    + apply amount_le_iff in E. simpl. intros [= <-].
      exists [], g. split; [reflexivity|]. split; [intros r []|].
      intros r Hr. rewrite Hg in Hr. apply in_app_or in Hr.
      destruct Hr as [Hr|[<-|Hr]];
        [specialize (Hb r Hr)|idtac|specialize (Ha r Hr)]; lra.
    + apply amount_le_false in E. simpl. intros [= <-].
      exists (x :: b), a. rewrite Hg. split; [reflexivity|]. split.
      * intros r [<-|Hr]; [exact E|apply Hb; exact Hr].
      * exact Ha.
Qed.

End SortFacts.

Section DedupFacts.

Lemma same_id_iff (w r : Row) : same_id w r = true <-> award_id r = award_id w.
Proof. unfold same_id. apply String.eqb_eq. Qed.

Lemma drop_duplicates_from_In (rows : list Row) :
  forall seen w,
    In w (drop_duplicates_from seen rows) -> In w rows /\ award_id w ∉ seen.
Proof.
  induction rows as [|r rows IH]; intros seen w; simpl; [tauto|].
  destruct (bool_decide (award_id r ∈ seen)) eqn:E.
  - intros H. apply IH in H. tauto.
  - apply bool_decide_eq_false in E. intros [<-|H]; [tauto|].
    apply IH in H as [H1 H2]. rewrite not_elem_of_cons in H2. tauto.
Qed.

Lemma drop_duplicates_from_NoDup (rows : list Row) :
  forall seen, List.NoDup (map award_id (drop_duplicates_from seen rows)).
Proof.
  induction rows as [|r rows IH]; intros seen; simpl; [constructor|].
  destruct (bool_decide (award_id r ∈ seen)); [apply IH|].
  simpl. constructor; [|apply IH].
  intros Hin. apply List.in_map_iff in Hin as (w & Hid & Hw).
  apply drop_duplicates_from_In in Hw as [_ Hw].
  apply Hw. rewrite Hid. apply elem_of_cons; left; reflexivity.
Qed.

(** A surviving row is the first row of its group. *)
Lemma drop_duplicates_from_first (rows : list Row) :
  forall seen w,
    In w (drop_duplicates_from seen rows) ->
    head (List.filter (same_id w) rows) = Some w.
Proof.
  induction rows as [|r rows IH]; intros seen w; simpl; [tauto|].
  destruct (bool_decide (award_id r ∈ seen)) eqn:E.
  - intros H. pose proof (drop_duplicates_from_In _ _ _ H) as [_ Hw].
    apply bool_decide_eq_true in E.
    destruct (same_id w r) eqn:Hs; [|eapply IH; exact H].
    apply same_id_iff in Hs. congruence.
  - intros [<-|H].
    + assert (same_id r r = true) as -> by (apply same_id_iff; reflexivity).
      reflexivity.
    + pose proof (drop_duplicates_from_In _ _ _ H) as [_ Hw].
      destruct (same_id w r) eqn:Hs; [|eapply IH; exact H].
      apply same_id_iff in Hs. exfalso. apply Hw. rewrite Hs.
      apply elem_of_cons; left; reflexivity.
Qed.

(** Every group that was not seen before keeps a row. *)
Lemma drop_duplicates_from_covers (rows : list Row) :
  forall seen r,
    In r rows -> award_id r ∉ seen ->
    exists w, In w (drop_duplicates_from seen rows) /\ award_id w = award_id r.
Proof.
  induction rows as [|x rows IH]; intros seen r; simpl; [tauto|].
  destruct (bool_decide (award_id x ∈ seen)) eqn:E.
  - apply bool_decide_eq_true in E. intros [<-|H] Hr; [contradiction|].
    apply IH; assumption.
  - intros [<-|H] Hr; [exists x; simpl; auto|].
    destruct (decide (award_id r = award_id x)) as [Heq|Hne].
    + exists x. simpl. auto.
    + destruct (IH (award_id x :: seen) r H) as (w & Hw & Hid).
      * rewrite not_elem_of_cons. tauto.
      * exists w. simpl. auto.
Qed.

Lemma no_duplicates_marked (rows : list Row) :
  forall seen,
    List.filter (fun b : bool => b) (duplicated_from seen rows) = [] <->
    List.NoDup (map award_id rows) /\ (forall r, In r rows -> award_id r ∉ seen).
Proof.
  induction rows as [|x rows IH]; intros seen; simpl.
  - split; [intros _; split; [constructor|tauto]|reflexivity].
  - destruct (bool_decide (award_id x ∈ seen)) eqn:E.
    + apply bool_decide_eq_true in E. split; [discriminate|].
      intros [_ H]. exfalso. apply (H x); auto.
    + apply bool_decide_eq_false in E. rewrite IH. split.
      * intros [Hnd Hseen]. split.
        -- constructor; [|exact Hnd].
           intros Hin. apply List.in_map_iff in Hin as (r & Hid & Hr).
           apply (Hseen r Hr). rewrite Hid. apply elem_of_cons; left; reflexivity.
        -- intros r [<-|Hr]; [exact E|].
           specialize (Hseen r Hr). rewrite not_elem_of_cons in Hseen. tauto.
      * intros [Hnd Hseen]. apply List.NoDup_cons_iff in Hnd as [Hx Hnd].
        split; [exact Hnd|].
        intros r Hr. rewrite not_elem_of_cons. split; [|apply Hseen; auto].
        intros Heq. apply Hx. rewrite <- Heq. apply List.in_map. exact Hr.
Qed.

Lemma duplicate_count_zero (rows : list Row) :
  (0 <? duplicate_count rows)%nat = false <-> List.NoDup (map award_id rows).
Proof.
  unfold duplicate_count, duplicated. rewrite Nat.ltb_ge.
  rewrite Nat.le_0_r, length_zero_iff_nil, no_duplicates_marked.
  split; [tauto|]. intros H. split; [exact H|].
  intros r _. apply not_elem_of_nil.
Qed.

End DedupFacts.

(** ** Cleaner *)

Section CleanerFacts.


(** A split of a selection comes from a split of the table. *)
Lemma filter_split (p : Row -> bool) (l : list Row) :
  forall b w a,
    List.filter p l = b ++ w :: a ->
    exists before after,
      l = before ++ w :: after /\
      List.filter p before = b /\ List.filter p after = a.
Proof.
  induction l as [|x l IH]; intros b w a; simpl.
  - destruct b; discriminate.
  - destruct (p x) eqn:Hx.
    + destruct b as [|y b]; simpl.
      * intros [= <- <-]. exists [], l. auto.
      * intros [= <- H]. destruct (IH _ _ _ H) as (B & A & -> & HB & HA).
        exists (x :: B), A. simpl. rewrite Hx, HB. auto.
    + intros H. destruct (IH _ _ _ H) as (B & A & -> & HB & HA).
      exists (x :: B), A. simpl. rewrite Hx. auto.
Qed.

Lemma count_where_pos (p : Row -> bool) (l : list Row) :
  (0 <? count_where p l)%nat = true <-> exists r, In r l /\ p r = true.
Proof.
  unfold count_where. rewrite Nat.ltb_lt. split.
  - destruct (List.filter p l) as [|r m] eqn:Hf; simpl; [lia|]. intros _.
    exists r. apply List.filter_In. rewrite Hf. left. reflexivity.
  - intros (r & Hr). apply List.filter_In in Hr.
    destruct (List.filter p l); [destruct Hr|simpl; lia].
Qed.

Lemma handle_negative_amounts_In (l : list Row) (r : Row) :
  In r (handle_negative_amounts l) -> In r l.
Proof.
  unfold handle_negative_amounts.
  destruct (0 <? count_where is_negative l)%nat; [|tauto].
  intros H. apply List.filter_In in H. tauto.
Qed.

Lemma handle_duplicates_In (l : list Row) (r : Row) :
  In r (handle_duplicates l) -> In r l.
Proof.
  unfold handle_duplicates, handle_duplicates_with, drop_duplicates.
  destruct (0 <? duplicate_count l)%nat; [|tauto].
  intros H. apply drop_duplicates_from_In in H as [H _].
  apply -> sort_values_In in H. exact H.
Qed.

Lemma handle_duplicates_NoDup (l : list Row) :
  List.NoDup (map award_id (handle_duplicates l)).
Proof.
  unfold handle_duplicates, handle_duplicates_with, drop_duplicates.
  destruct (0 <? duplicate_count l)%nat eqn:E.
  - apply drop_duplicates_from_NoDup.
  - apply duplicate_count_zero. exact E.
Qed.

Lemma handle_duplicates_covers (l : list Row) (r : Row) :
  In r l ->
  exists w, In w (handle_duplicates l) /\ award_id w = award_id r.
Proof.
  intros Hr. unfold handle_duplicates, handle_duplicates_with, drop_duplicates.
  destruct (0 <? duplicate_count l)%nat; [|eauto].
  apply drop_duplicates_from_covers; [|apply not_elem_of_nil].
  apply <- sort_values_In. exact Hr.
Qed.

(** Without duplicated identifiers every row is alone in its group. *)
Lemma lone_row_wins (l : list Row) (w : Row) :
  List.NoDup (map award_id l) -> In w l -> is_group_winner l w.
Proof.
  intros Hnd Hw. apply List.in_split in Hw as (b & a & ->).
  exists b, a. split; [reflexivity|].
  rewrite map_app in Hnd. simpl in Hnd.
  apply List.NoDup_remove_2 in Hnd.
  split; intros r Hr Hid; exfalso; apply Hnd; rewrite <- Hid;
    apply List.in_or_app; [left|right]; apply List.in_map; exact Hr.
Qed.

Lemma handle_duplicates_winner (l : list Row) (w : Row) :
  In w (handle_duplicates l) -> is_group_winner l w.
Proof.
  unfold handle_duplicates, handle_duplicates_with, drop_duplicates.
  destruct (0 <? duplicate_count l)%nat eqn:E.
  - intros Hw. apply drop_duplicates_from_first in Hw.
    rewrite filter_sort_values in Hw.
    apply sort_values_head in Hw as (b & a & Hg & Hb & Ha).
    apply filter_split in Hg as (B & A & -> & HB & HA).
    exists B, A. split; [reflexivity|]. split.
    + intros r Hr Hid. apply Hb. rewrite <- HB.
      apply List.filter_In. split; [exact Hr|]. apply same_id_iff. exact Hid.
    + intros r Hr Hid. apply Ha. rewrite <- HA.
      apply List.filter_In. split; [exact Hr|]. apply same_id_iff. exact Hid.
  - intros Hw. apply lone_row_wins; [|exact Hw].
    apply duplicate_count_zero. exact E.
Qed.

Lemma clean_dataframe_stages (df : list Row) :
  clean_dataframe df = sort_values (handle_duplicates (before_dedup df)).
Proof. destruct df; reflexivity. Qed.

Lemma clean_dataframe_In (df : list Row) (r : Row) :
  In r (clean_dataframe df) -> In r (before_dedup df).
Proof.
  rewrite clean_dataframe_stages, sort_values_In. apply handle_duplicates_In.
Qed.

Lemma clean_dataframe_NoDup (df : list Row) :
  List.NoDup (map award_id (clean_dataframe df)).
Proof.
  rewrite clean_dataframe_stages.
  eapply Permutation_NoDup; [|apply handle_duplicates_NoDup].
  apply Permutation_map. symmetry. apply sort_values_perm.
Qed.

Lemma clean_dataframe_sorted (df : list Row) : sorted_desc (clean_dataframe df).
Proof. rewrite clean_dataframe_stages. apply sort_values_sorted. Qed.


End CleanerFacts.

(** C1.  The cleaner keeps a zero-amount row whose name contains
    "Unknown" when no row of the table has a negative amount: the filter
    of step 2 sits under the test for negative amounts. *)
Theorem zero_unknown_row_survives :
  zero_and_unknown (row "A1" "Unknown Vendor" 0) = true /\
  clean_dataframe unknown_zero_table
  = [row "A2" "Acme" 10; row "A1" "Unknown Vendor" 0] /\
  clean_dataframe (unknown_zero_table ++ [row "A3" "Refund LLC" (-5)])
  = [row "A2" "Acme" 10; row "A3" "Refund LLC" (-5)].
Proof. repeat split. Qed.

(** C2, as stated, fails: the largest row of a group does not win when
    the zero-amount rule removes it before the deduplication. *)
Lemma dropped_row_does_not_win :
  clean_dataframe unknown_max_table = [row "X1" "Acme" (-5)] /\
  ~ (forall w r,
        In w (clean_dataframe unknown_max_table) ->
        In r unknown_max_table ->
        award_id r = award_id w ->
        (award_amount r <= award_amount w)%Q).
Proof.
  split; [reflexivity|]. intros H.
  specialize (H (row "X1" "Acme" (-5)) (row "X1" "Unknown Vendor" 0)).
  assert (Hle : (0 <= -5)%Q).
  { apply H; [left; reflexivity|left; reflexivity|reflexivity]. }
  revert Hle. apply Qlt_not_le. reflexivity.
Qed.

(** ** Data-quality gate *)

Section GateFacts.

Lemma too_many_critical_iff (critical_issues total_records : nat) :
  too_many_critical critical_issues total_records = true <->
  (total_records < 10 * critical_issues)%nat.
Proof.
  unfold too_many_critical. rewrite amount_lt_iff.
  unfold Qlt. simpl. lia.
Qed.

Lemma report_nil (n : nat) (mk : nat -> issue) : report n mk = [] <-> n = 0%nat.
Proof.
  unfold report. destruct n; simpl; split; try reflexivity; discriminate.
Qed.

(** Whatever the other issues are, the verdict is the comparison of the
    critical issues with a tenth of the rows. *)
Lemma validate_verdict (df : DataFrame) :
  df_empty df = false ->
  missing_columns df = [] ->
  validate_processed_data df
  = negb (too_many_critical
            (count_where name_blank (df_rows df) + duplicate_count (df_rows df))
            (length (df_rows df))).
Proof.
  intros Hne Hcols. unfold validate_processed_data. rewrite Hne, Hcols.
  set (b := count_where name_blank (df_rows df)).
  set (d := duplicate_count (df_rows df)).
  destruct (report b EmptyRecipientNames ++ _) eqn:Hissues.
  - apply app_eq_nil in Hissues as [Hb Hrest].
    do 3 apply app_eq_nil in Hrest as [_ Hrest].
    apply report_nil in Hb, Hrest. rewrite Hb, Hrest.
    symmetry. apply negb_true_iff.
    destruct (too_many_critical (0 + 0) (length (df_rows df))) eqn:E;
      [|reflexivity].
    apply too_many_critical_iff in E. lia.
  - destruct (too_many_critical (b + d) (length (df_rows df))); reflexivity.
Qed.

End GateFacts.




(** ** Persistence writer *)

Section WriterFacts.

Variable data_dir : string.
Variable timestamp : string.
Variable os_write : string -> content -> filesystem -> Py.result filesystem.
Variable os_remove : string -> filesystem -> Py.result filesystem.
Variable os_makedirs : string -> filesystem -> Py.result filesystem.
Variable create_backup_effect : filesystem -> filesystem.

Ltac failed_block :=
  simpl; split; [reflexivity|intuition discriminate].

Lemma save_format_block_outcome (file_path latest_path : string)
    (prepare : io content) (saved_files : list string) (fs : filesystem) :
  (exists r, prepare fs = (r, fs, []) /\ forall b, r <> Return b) ->
  block_outcome file_path latest_path
    (save_format_block os_write file_path latest_path prepare saved_files fs).
Proof.
  intros (r & Hprep & Hr).
  cbv beta iota zeta delta
    [save_format_block io_try io_bind save_file os_call run_integrity_check
     emit io_return io_ret block_outcome no_backup].
  rewrite Hprep.
  destruct r as [c|b|e]; [|destruct (Hr b); reflexivity|failed_block].
  destruct (os_write file_path c fs) as [fs1|e1]; [|failed_block].
  destruct (check_file_integrity fs1 file_path); [|failed_block].
  simpl.
  destruct (os_write latest_path c fs1) as [fs2|e2]; [|failed_block].
  destruct (check_file_integrity fs2 latest_path);
    [reflexivity|failed_block].
Qed.

Lemma validate_storage_environment_quiet (fs : filesystem) :
  exists ok fs',
    validate_storage_environment data_dir os_write os_remove os_makedirs fs
    = (Normal ok, fs', []).
Proof.
  cbv beta iota zeta delta
    [validate_storage_environment io_try io_bind os_call io_ret].
  destruct (fs !! data_dir).
  - destruct (os_write _ TestText fs) as [fs1|e1]; [|simpl; eauto].
    destruct (os_remove _ fs1) as [fs2|e2]; simpl; eauto.
  - destruct (os_makedirs data_dir fs) as [fs0|e0]; [|simpl; eauto].
    destruct (os_write _ TestText fs0) as [fs1|e1]; [|simpl; eauto].
    destruct (os_remove _ fs1) as [fs2|e2]; simpl; eauto.
Qed.

Lemma append_log_quiet (log_file_path : string) (fs : filesystem) :
  exists fs', append_log os_write log_file_path fs = (Normal tt, fs', []).
Proof.
  cbv beta iota zeta delta [append_log io_try os_call io_ret].
  destruct (os_write log_file_path LogEntry fs); simpl; eauto.
Qed.

Lemma csv_prepare_quiet (df : DataFrame) (fs : filesystem) :
  exists r, io_ret (CsvOf df) fs = (r, fs, []) /\ forall b, r <> Return b.
Proof. exists (Normal (CsvOf df)). split; [reflexivity|discriminate]. Qed.

Lemma json_prepare_quiet (df : DataFrame) (fs : filesystem) :
  exists r, build_json_data df fs = (r, fs, []) /\ forall b, r <> Return b.
Proof.
  unfold build_json_data. destruct (forallb _ _); eexists; split;
    try reflexivity; discriminate.
Qed.

Lemma format_step_outcome (wanted : bool) (file_path latest_path : string)
    (prepare : io content) (saved_files : list string) (fs : filesystem) :
  (exists r, prepare fs = (r, fs, []) /\ forall b, r <> Return b) ->
  step_outcome
    ((if wanted
      then save_format_block os_write file_path latest_path prepare saved_files
      else io_ret saved_files) fs).
Proof.
  intros Hprep. destruct wanted.
  - pose proof (save_format_block_outcome file_path latest_path prepare
                  saved_files fs Hprep) as H.
    destruct (save_format_block _ _ _ _ _ _) as [[[sf|b|e] fs1] evs];
      simpl in *; [subst evs|exact H|exact H].
    split; [|split].
    + intros p Hin. simpl in Hin. intuition discriminate.
    + intros p Hin. simpl in Hin.
      destruct Hin as [H|[H|[H|[H|[]]]]]; try discriminate;
        injection H as <-; simpl; tauto.
    + intros Hin. simpl in Hin. intuition discriminate.
  - simpl. unfold no_backup. simpl. tauto.
Qed.

Lemma validate_saved_files_outcome (file_paths : list string) (fs : filesystem) :
  exists all_valid fs',
    validate_saved_files data_dir os_write file_paths fs
    = (Normal all_valid, fs', [SavedFilesValidated file_paths all_valid]).
Proof.
  unfold validate_saved_files.
  destruct (append_log_quiet (path_join data_dir "file_validation.log") fs)
    as (fs' & ->).
  simpl. eauto.
Qed.

Lemma log_successful_save_outcome (fs : filesystem) :
  exists fs',
    log_successful_save data_dir os_write fs = (Normal tt, fs', [SaveLogged]).
Proof.
  cbv beta iota zeta delta [log_successful_save io_bind emit].
  destruct (append_log_quiet (path_join data_dir "save_operations.log") fs)
    as (fs' & ->).
  simpl. eauto.
Qed.

Lemma save_data_trace_facts (df : DataFrame) (save_format : string) (fs : filesystem) :
  let '(ok, _, evs) :=
    save_data data_dir timestamp os_write os_remove os_makedirs
      create_backup_effect df save_format fs in
  ((exists p, In (IntegrityChecked p false) evs) -> ok = false /\ no_backup evs) /\
  (ok = true -> forall p, In (Saved p) evs -> In (IntegrityChecked p true) evs).
Proof.
  unfold save_data. destruct (df_empty df).
  { split; [intros [p []]|discriminate]. }
  cbv beta iota zeta delta
    [io_call save_data_body io_bind io_try create_backup_versions io_return].
  destruct (validate_storage_environment_quiet fs) as (ok & fs0 & ->).
  destruct ok; cbn [negb].
  2:{ split; [intros [p []]|discriminate]. }
  match goal with
  | |- context [(if ?c then save_format_block _ ?f ?l ?p ?s else _) ?fs1] =>
      pose proof (format_step_outcome c f l p s fs1 (csv_prepare_quiet df fs1))
        as Hcsv;
      destruct ((if c then save_format_block os_write f l p s else io_ret s) fs1)
        as [[[sf1|b1|e1] fs1'] evs1]
  end; simpl in Hcsv; [|destruct Hcsv as [-> Hnb]|contradiction].
  2:{ split; [auto|discriminate]. }
  destruct Hcsv as (Hf1 & Hs1 & Hb1).
  match goal with
  | |- context [(if ?c then save_format_block _ ?f ?l ?p ?s else _) ?fs1] =>
      pose proof (format_step_outcome c f l p s fs1 (json_prepare_quiet df fs1))
        as Hjson;
      destruct ((if c then save_format_block os_write f l p s else io_ret s) fs1)
        as [[[sf2|b2|e2] fs2'] evs2]
  end; simpl in Hjson; [|destruct Hjson as [-> Hnb]|contradiction].
  2:{ split; [|discriminate]. intros _. split; [reflexivity|].
      unfold no_backup in *. simpl. rewrite List.in_app_iff. tauto. }
  destruct Hjson as (Hf2 & Hs2 & Hb2).
  destruct (validate_saved_files_outcome sf2 (create_backup_effect fs2'))
    as (all_valid & fs3 & ->).
  assert (Hnone : forall p tail,
             (forall e, In e tail -> forall q b, e <> IntegrityChecked q b) ->
             ~ In (IntegrityChecked p false) ([] ++ evs1 ++ evs2 ++ tail)).
  { intros p tail Htail Hin. simpl in Hin.
    rewrite !List.in_app_iff in Hin.
    destruct Hin as [Hin|[Hin|Hin]];
      [exact (Hf1 p Hin)|exact (Hf2 p Hin)|exact (Htail _ Hin p false eq_refl)]. }
  destruct all_valid.
  - destruct (log_successful_save_outcome fs3) as (fs4 & ->). simpl. split.
    + intros [p Hin]. exfalso. revert Hin. apply (Hnone p).
      intros e He. simpl in He. intuition (subst; discriminate).
    + intros _ p Hin. rewrite !List.in_app_iff in *. simpl in Hin.
      destruct Hin as [Hin|[Hin|Hin]];
        [left; auto|right; left; auto|intuition discriminate].
  - simpl. split; [|discriminate].
    intros [p Hin]. exfalso. revert Hin. apply (Hnone p).
    intros e He. simpl in He. intuition (subst; discriminate).
Qed.

End WriterFacts.

(** C7.  In every run of [save_data], if the integrity check of a file
    just written fails, the call returns failure and no backup is made;
    and the call returns success only when every file it wrote passed
    its check. *)
Theorem failed_integrity_check_aborts_save
    (data_dir timestamp : string)
    (os_write : string -> content -> filesystem -> Py.result filesystem)
    (os_remove os_makedirs : string -> filesystem -> Py.result filesystem)
    (create_backup_effect : filesystem -> filesystem)
    (df : DataFrame) (save_format : string) (fs : filesystem)
    (ok : bool) (fs' : filesystem) (evs : list event) :
  save_data data_dir timestamp os_write os_remove os_makedirs
    create_backup_effect df save_format fs = (ok, fs', evs) ->
  ((exists p, In (IntegrityChecked p false) evs) ->
   ok = false /\ no_backup evs) /\
  (ok = true ->
   forall p, In (Saved p) evs -> In (IntegrityChecked p true) evs).
Proof.
  intros Hrun.
  pose proof (save_data_trace_facts data_dir timestamp os_write os_remove
                os_makedirs create_backup_effect df save_format fs) as H.
  rewrite Hrun in H. exact H.
Qed.

Lemma failed_integrity_check_aborts_save_witness :
  false = false /\
  no_backup
    [Saved "data/spending_data_useful_20240101_000000.csv";
     IntegrityChecked "data/spending_data_useful_20240101_000000.csv" true;
     Saved "data/spending_data_useful_latest.csv";
     IntegrityChecked "data/spending_data_useful_latest.csv" true;
     Saved "data/spending_data_useful_20240101_000000.json";
     IntegrityChecked "data/spending_data_useful_20240101_000000.json" false].
Proof.
  apply (failed_integrity_check_aborts_save "data" "20240101_000000"
           truncating_write plain_remove plain_makedirs (fun fs => fs)
           one_row_table "both" ∅ false
           (snd (fst (save_data "data" "20240101_000000" truncating_write
                        plain_remove plain_makedirs (fun fs => fs)
                        one_row_table "both" ∅)))).
  - vm_compute. reflexivity.
  - exists "data/spending_data_useful_20240101_000000.json".
    simpl. tauto.
Defined.

(** C10.  Called on an empty table, [save_data] returns failure at once:
    the file system is the one it was given and nothing was written,
    checked or backed up. *)
Theorem empty_table_is_not_saved
    (data_dir timestamp : string)
    (os_write : string -> content -> filesystem -> Py.result filesystem)
    (os_remove os_makedirs : string -> filesystem -> Py.result filesystem)
    (create_backup_effect : filesystem -> filesystem)
    (df : DataFrame) (save_format : string) (fs : filesystem) :
  df_empty df = true ->
  save_data data_dir timestamp os_write os_remove os_makedirs
    create_backup_effect df save_format fs = (false, fs, []).
Proof. intros Hempty. unfold save_data. rewrite Hempty. reflexivity. Qed.

Lemma empty_table_is_not_saved_witness :
  save_data "data" "20240101_000000" sound_write plain_remove plain_makedirs
    (fun fs => fs) no_rows "both" ∅ = (false, ∅, []).
Proof.
  apply (empty_table_is_not_saved "data" "20240101_000000" sound_write
           plain_remove plain_makedirs (fun fs => fs) no_rows "both" ∅).
  reflexivity.
Defined.

(** ** Further properties of the cleaner and the quality gate *)

Section CleanerMore.

Lemma negative_is_not_zero (r : Row) :
  is_negative r = true -> zero_and_unknown r = false.
Proof.
  unfold is_negative, zero_and_unknown, amount_eq. intros H.
  apply amount_lt_iff in H.
  destruct (Qeq_bool (award_amount r) 0) eqn:E; [|reflexivity].
  apply Qeq_bool_iff in E. rewrite E in H.
  exfalso. revert H. apply Qlt_irrefl.
Qed.

Lemma handle_negative_amounts_keeps (l : list Row) (r : Row) :
  In r l -> zero_and_unknown r = false -> In r (handle_negative_amounts l).
Proof.
  intros Hr Hz. unfold handle_negative_amounts.
  destruct (0 <? count_where is_negative l)%nat; [|exact Hr].
  apply List.filter_In. rewrite Hz. auto.
Qed.

Lemma before_dedup_keeps (df : list Row) (r : Row) :
  In r df -> name_not_blank r = true -> zero_and_unknown r = false ->
  In r (before_dedup df).
Proof.
  intros Hr Hn Hz. apply handle_negative_amounts_keeps; [|exact Hz].
  apply List.filter_In. auto.
Qed.

Lemma before_dedup_In (df : list Row) (r : Row) :
  In r (before_dedup df) -> In r df /\ name_not_blank r = true.
Proof.
  intros H. apply handle_negative_amounts_In in H.
  apply List.filter_In in H. exact H.
Qed.

Lemma drop_duplicates_from_length (rows : list Row) :
  forall seen, (length (drop_duplicates_from seen rows) <= length rows)%nat.
Proof.
  induction rows as [|r rows IH]; intros seen; simpl; [lia|].
  destruct (bool_decide (award_id r ∈ seen)).
  - specialize (IH seen). lia.
  - simpl. specialize (IH (award_id r :: seen)). lia.
Qed.

Lemma sort_values_length (l : list Row) : length (sort_values l) = length l.
Proof. apply Permutation_length, sort_values_perm. Qed.

Lemma before_dedup_nil (df : list Row) :
  before_dedup df = [] <-> forall r, In r df -> name_not_blank r = false.
Proof.
  split.
  - intros Hnil r Hr. destruct (name_not_blank r) eqn:Hn; [|reflexivity].
    exfalso.
    assert (H1 : In r (remove_empty_recipients df))
      by (apply List.filter_In; auto).
    unfold before_dedup, handle_negative_amounts in Hnil.
    destruct (0 <? count_where is_negative (remove_empty_recipients df))%nat
      eqn:E.
    + apply count_where_pos in E as (n & Hn1 & Hn2).
      assert (Hin : In n (List.filter (fun r => negb (zero_and_unknown r))
                            (remove_empty_recipients df))).
      { apply List.filter_In. split; [exact Hn1|].
        rewrite negative_is_not_zero by exact Hn2. reflexivity. }
      rewrite Hnil in Hin. destruct Hin.
    + rewrite Hnil in H1. destruct H1.
  - intros Hall. destruct (before_dedup df) as [|r l] eqn:E; [reflexivity|].
    assert (Hr : In r (before_dedup df)) by (rewrite E; left; reflexivity).
    apply before_dedup_In in Hr as [Hr Hn]. rewrite (Hall r Hr) in Hn.
    discriminate.
Qed.

End CleanerMore.

(** X1.  What the cleaner returns is ordered by descending amount, is
    made of rows of its input, carries no blank recipient name and is no
    longer than its input. *)
Theorem clean_dataframe_output (df : list Row) :
  sorted_desc (clean_dataframe df) /\
  (forall r, In r (clean_dataframe df) ->
             In r df /\ name_not_blank r = true) /\
  (length (clean_dataframe df) <= length df)%nat.
Proof.
  split; [apply clean_dataframe_sorted|]. split.
  - intros r Hr. apply before_dedup_In. apply clean_dataframe_In. exact Hr.
  - rewrite clean_dataframe_stages, sort_values_length.
    transitivity (length (before_dedup df)).
    + unfold handle_duplicates, handle_duplicates_with, drop_duplicates.
      destruct (0 <? duplicate_count (before_dedup df))%nat; [|lia].
      etransitivity; [apply drop_duplicates_from_length|].
      rewrite sort_values_length. lia.
    + unfold before_dedup, handle_negative_amounts, remove_empty_recipients.
      destruct (0 <? _)%nat.
      * etransitivity; [apply List.filter_length_le|apply List.filter_length_le].
      * apply List.filter_length_le.
Qed.

(** X2.  The cleaner returns the empty table exactly when every row of
    its input has a blank recipient name. *)
Theorem clean_dataframe_empty_iff (df : list Row) :
  clean_dataframe df = [] <-> forall r, In r df -> name_not_blank r = false.
Proof.
  rewrite <- before_dedup_nil. split.
  - intros Hnil. destruct (before_dedup df) as [|r l] eqn:E; [reflexivity|].
    destruct (handle_duplicates_covers (before_dedup df) r) as (w & Hw & _).
    { rewrite E. left. reflexivity. }
    rewrite E in Hw.
    assert (Hin : In w (clean_dataframe df)).
    { rewrite clean_dataframe_stages, E. apply <- sort_values_In. exact Hw. }
    rewrite Hnil in Hin. destruct Hin.
  - intros Hnil. rewrite clean_dataframe_stages, Hnil. reflexivity.
Qed.

(** X3.  A row with a non-blank name that is not a zero-amount "Unknown"
    row never loses its award: the cleaned table holds a row with its
    identifier and an amount at least as large.  This covers rows with a
    negative amount and zero-amount rows with a real name. *)
Theorem kept_rows_are_represented (df : list Row) (r : Row) :
  In r df ->
  name_not_blank r = true ->
  zero_and_unknown r = false ->
  exists w,
    In w (clean_dataframe df) /\ award_id w = award_id r /\
    (award_amount r <= award_amount w)%Q.
Proof.
  intros Hr Hn Hz.
  pose proof (before_dedup_keeps df r Hr Hn Hz) as Hb.
  assert (Hcov : exists w, In w (clean_dataframe df) /\ award_id w = award_id r).
  { apply handle_duplicates_covers in Hb as (w & Hw & Hid).
    exists w. split; [|exact Hid].
    rewrite clean_dataframe_stages. apply <- sort_values_In. exact Hw. }
  destruct Hcov as (w & Hw & Hid).
  exists w. split; [exact Hw|]. split; [exact Hid|].
  assert (Hwin : is_group_winner (before_dedup df) w).
  { rewrite clean_dataframe_stages in Hw. apply -> sort_values_In in Hw.
    apply handle_duplicates_winner. exact Hw. }
  destruct Hwin as (b & a & Hsplit & Hbefore & Hafter).
  rewrite Hsplit in Hb. apply List.in_app_or in Hb.
  destruct Hb as [Hb|[<-|Hb]].
  - apply Qlt_le_weak. apply Hbefore; [exact Hb|]. symmetry. exact Hid.
  - apply Qle_refl.
  - apply Hafter; [exact Hb|]. symmetry. exact Hid.
Qed.

Lemma kept_rows_are_represented_witness :
  exists w,
    In w (clean_dataframe unknown_max_table) /\ award_id w = "X1" /\
    (-5 <= award_amount w)%Q.
Proof.
  apply (kept_rows_are_represented unknown_max_table (row "X1" "Acme" (-5))).
  - right. left. reflexivity.
  - reflexivity.
  - reflexivity.
Defined.

Section AnySortFacts.

Variable sort : list Row -> list Row.
Hypothesis Hsort : descending_sort sort.

Lemma sort_perm (l : list Row) : Permutation (sort l) l.
Proof. apply Hsort. Qed.

Lemma sort_sorted (l : list Row) : sorted_desc (sort l).
Proof. apply Hsort. Qed.

Lemma sort_In (l : list Row) (r : Row) : In r (sort l) <-> In r l.
Proof.
  split; apply Permutation_in; [apply sort_perm|symmetry; apply sort_perm].
Qed.

(** The first row of a selection of a descending table is a largest one
    of the selection. *)
Lemma sorted_head_is_largest (p : Row -> bool) (l : list Row) (w : Row) :
  sorted_desc l ->
  head (List.filter p l) = Some w ->
  forall r, In r l -> p r = true -> (award_amount r <= award_amount w)%Q.
Proof.
  unfold sorted_desc. induction 1 as [|x l Hl IH Hx]; simpl; [discriminate|].
  destruct (p x) eqn:Hp.
  - simpl. intros [= <-] r [<-|Hr] Hpr; [apply Qle_refl|].
    rewrite List.Forall_forall in Hx. apply Hx. exact Hr.
  - intros Hw r [<-|Hr] Hpr; [congruence|]. apply IH; assumption.
Qed.

Lemma lone_row_has_maximum (l : list Row) (w : Row) :
  List.NoDup (map award_id l) -> In w l -> has_group_maximum l w.
Proof.
  intros Hnd Hw. split; [exact Hw|]. intros r Hr Hid.
  apply List.in_split in Hw as (b & a & ->).
  rewrite map_app in Hnd. simpl in Hnd. apply List.NoDup_remove_2 in Hnd.
  apply List.in_app_or in Hr. destruct Hr as [Hr|[<-|Hr]].
  - exfalso. apply Hnd. rewrite <- Hid. apply List.in_or_app. left.
    apply List.in_map. exact Hr.
  - apply Qle_refl.
  - exfalso. apply Hnd. rewrite <- Hid. apply List.in_or_app. right.
    apply List.in_map. exact Hr.
Qed.

Lemma handle_duplicates_with_In (l : list Row) (r : Row) :
  In r (handle_duplicates_with sort l) -> In r l.
Proof.
  unfold handle_duplicates_with, drop_duplicates.
  destruct (0 <? duplicate_count l)%nat; [|tauto].
  intros H. apply drop_duplicates_from_In in H as [H _].
  apply sort_In. exact H.
Qed.

Lemma handle_duplicates_with_NoDup (l : list Row) :
  List.NoDup (map award_id (handle_duplicates_with sort l)).
Proof.
  unfold handle_duplicates_with, drop_duplicates.
  destruct (0 <? duplicate_count l)%nat eqn:E.
  - apply drop_duplicates_from_NoDup.
  - apply duplicate_count_zero. exact E.
Qed.

Lemma handle_duplicates_with_covers (l : list Row) (r : Row) :
  In r l ->
  exists w, In w (handle_duplicates_with sort l) /\ award_id w = award_id r.
Proof.
  intros Hr. unfold handle_duplicates_with, drop_duplicates.
  destruct (0 <? duplicate_count l)%nat; [|eauto].
  apply drop_duplicates_from_covers; [|apply not_elem_of_nil].
  apply sort_In. exact Hr.
Qed.

Lemma handle_duplicates_with_maximum (l : list Row) (w : Row) :
  In w (handle_duplicates_with sort l) -> has_group_maximum l w.
Proof.
  intros Hw. pose proof (handle_duplicates_with_In l w Hw) as Hin.
  revert Hw. unfold handle_duplicates_with, drop_duplicates.
  destruct (0 <? duplicate_count l)%nat eqn:E.
  - intros Hw. apply drop_duplicates_from_first in Hw.
    split; [exact Hin|]. intros r Hr Hid.
    apply (sorted_head_is_largest (same_id w) (sort l) w (sort_sorted l) Hw).
    + apply sort_In. exact Hr.
    + apply same_id_iff. exact Hid.
  - intros Hw. apply lone_row_has_maximum; [|exact Hw].
    apply duplicate_count_zero. exact E.
Qed.

Lemma clean_dataframe_with_stages (df : list Row) :
  clean_dataframe_with sort df
  = sort (handle_duplicates_with sort (before_dedup df)).
Proof.
  destruct df; [|reflexivity]. simpl.
  symmetry. apply Permutation_nil. symmetry. apply sort_perm.
Qed.


Lemma clean_dataframe_with_NoDup (df : list Row) :
  List.NoDup (map award_id (clean_dataframe_with sort df)).
Proof.
  rewrite clean_dataframe_with_stages.
  eapply Permutation_NoDup; [|apply handle_duplicates_with_NoDup].
  apply Permutation_map. symmetry. apply sort_perm.
Qed.






End AnySortFacts.

Section SortingAlgorithms.


Lemma sort_values_descending : descending_sort sort_values.
Proof.
  intros rows. split; [apply sort_values_perm|apply sort_values_sorted].
Qed.

Lemma insert_desc_strict_perm (x : Row) (l : list Row) :
  Permutation (insert_desc_strict x l) (x :: l).
Proof.
  induction l as [|y l IH]; simpl; [reflexivity|].
  destruct (amount_lt (award_amount y) (award_amount x)); [reflexivity|].
  rewrite IH. apply perm_swap.
Qed.

Lemma insert_desc_strict_sorted (x : Row) (l : list Row) :
  sorted_desc l -> sorted_desc (insert_desc_strict x l).
Proof.
  unfold sorted_desc. induction 1 as [|y l Hl IH Hy]; simpl.
  - repeat constructor.
  - destruct (amount_lt (award_amount y) (award_amount x)) eqn:E.
    + apply amount_lt_iff in E. constructor; [constructor; assumption|].
      constructor; [apply Qlt_le_weak; exact E|].
      eapply List.Forall_impl; [|exact Hy].
      intros z Hz. simpl in Hz. eapply Qle_trans; [exact Hz|].
      apply Qlt_le_weak. exact E.
    + assert (Hle : (award_amount x <= award_amount y)%Q).
      { destruct (Qlt_le_dec (award_amount y) (award_amount x)) as [H|H];
          [|exact H].
        apply amount_lt_iff in H. congruence. }
      constructor; [exact IH|].
      eapply Permutation_Forall; [symmetry; apply insert_desc_strict_perm|].
      constructor; assumption.
Qed.

Lemma sort_values_reversing_ties_descending :
  descending_sort sort_values_reversing_ties.
Proof.
  intros rows. split.
  - induction rows as [|x l IH]; simpl; [reflexivity|].
    rewrite insert_desc_strict_perm. apply perm_skip. exact IH.
  - induction rows as [|x l IH]; simpl; [constructor|].
    apply insert_desc_strict_sorted. exact IH.
Qed.

(** Which row of a group of equal amounts survives is the sort's
    choice. *)
Lemma tied_rows_follow_the_sort :
  clean_dataframe_with sort_values tied_group = [row "X1" "first" 2] /\
  clean_dataframe_with sort_values_reversing_ties tied_group
  = [row "X1" "second" 2].
Proof. split; reflexivity. Qed.

End SortingAlgorithms.

(** C2, amended.  Whatever the sort does with rows of equal amount: after
    cleaning, award identifiers are unique; every surviving row carries
    the largest amount of its identifier group among the rows left by the
    blank-name and zero-amount rules; and every such group keeps a row.
    Which of several rows with that largest amount survives is the sort's
    choice. *)
Theorem clean_dataframe_keeps_group_maximum
    (sort : list Row -> list Row) (df : list Row) :
  descending_sort sort ->
  List.NoDup (map award_id (clean_dataframe_with sort df)) /\
  (forall w, In w (clean_dataframe_with sort df) ->
             has_group_maximum (before_dedup df) w) /\
  (forall r, In r (before_dedup df) ->
             exists w, In w (clean_dataframe_with sort df) /\
                       award_id w = award_id r).
Proof.
  intros Hsort.
  split; [apply clean_dataframe_with_NoDup; exact Hsort|]. split.
  - intros w Hw. rewrite (clean_dataframe_with_stages sort Hsort) in Hw.
    apply (proj1 (sort_In sort Hsort _ _)) in Hw.
    apply (handle_duplicates_with_maximum sort Hsort). exact Hw.
  - intros r Hr.
    apply (handle_duplicates_with_covers sort Hsort) in Hr as (w & Hw & Hid).
    exists w. split; [|exact Hid].
    rewrite (clean_dataframe_with_stages sort Hsort).
    apply (proj2 (sort_In sort Hsort _ _)). exact Hw.
Qed.

Lemma clean_dataframe_keeps_group_maximum_witness :
  List.NoDup
    (map award_id (clean_dataframe_with sort_values_reversing_ties tied_group)) /\
  (forall w, In w (clean_dataframe_with sort_values_reversing_ties tied_group) ->
             has_group_maximum (before_dedup tied_group) w) /\
  (forall r, In r (before_dedup tied_group) ->
             exists w,
               In w (clean_dataframe_with sort_values_reversing_ties tied_group) /\
               award_id w = award_id r).
Proof.
  apply (clean_dataframe_keeps_group_maximum sort_values_reversing_ties
           tied_group).
  apply sort_values_reversing_ties_descending.
Defined.






Section GateMore.

Lemma count_where_zero (p : Row -> bool) (l : list Row) :
  (forall r, In r l -> p r = false) -> count_where p l = 0%nat.
Proof.
  intros H. unfold count_where.
  destruct (List.filter p l) as [|r m] eqn:E; [reflexivity|].
  assert (Hr : In r (List.filter p l)) by (rewrite E; left; reflexivity).
  apply List.filter_In in Hr as [Hr Hp]. rewrite (H r Hr) in Hp. discriminate.
Qed.

Lemma duplicate_count_nodup (l : list Row) :
  List.NoDup (map award_id l) -> duplicate_count l = 0%nat.
Proof.
  intros H. apply duplicate_count_zero in H. apply Nat.ltb_ge in H. lia.
Qed.

Lemma missing_columns_nil (df : DataFrame) :
  missing_columns df = [] <->
  forall col, In col required_columns -> col ∈ df_columns df.
Proof.
  unfold missing_columns. split.
  - intros Hnil col Hcol.
    destruct (decide (col ∈ df_columns df)) as [Hin|Hout]; [exact Hin|].
    assert (Hf : In col (List.filter
                           (fun c => negb (bool_decide (c ∈ df_columns df)))
                           required_columns)).
    { apply List.filter_In. split; [exact Hcol|].
      rewrite bool_decide_eq_false_2 by exact Hout. reflexivity. }
    rewrite Hnil in Hf. destruct Hf.
  - intros Hall.
    destruct (List.filter _ required_columns) as [|c l] eqn:E; [reflexivity|].
    assert (Hc : In c (List.filter
                         (fun c => negb (bool_decide (c ∈ df_columns df)))
                         required_columns))
      by (rewrite E; left; reflexivity).
    apply List.filter_In in Hc as [Hc Hneg].
    rewrite bool_decide_eq_true_2 in Hneg by (apply Hall; exact Hc).
    discriminate.
Qed.

End GateMore.

(** X5.  The quality gate accepts every non-empty table the cleaner
    returns, whatever was cleaned, as long as the required columns are
    there: a cleaned table has neither blank names nor duplicate
    identifiers, the only issues that can reject. *)
Theorem gate_accepts_cleaned_tables (columns : list string) (rows : list Row) :
  (forall col, In col required_columns -> col ∈ columns) ->
  clean_dataframe rows <> [] ->
  validate_processed_data (mkDataFrame columns (clean_dataframe rows)) = true.
Proof.
  intros Hcols Hne.
  set (df := mkDataFrame columns (clean_dataframe rows)).
  assert (Hmiss : missing_columns df = []) by (apply missing_columns_nil, Hcols).
  assert (Hempty : df_empty df = false).
  { unfold df_empty, df. simpl.
    destruct columns as [|c cs].
    - specialize (Hcols "award_id"). simpl in Hcols.
      apply elem_of_nil in Hcols; [destruct Hcols|auto].
    - destruct (clean_dataframe rows); [contradiction|reflexivity]. }
  rewrite (validate_verdict df Hempty Hmiss). apply negb_true_iff.
  unfold df. simpl.
  rewrite count_where_zero, duplicate_count_nodup.
  - destruct (too_many_critical (0 + 0) _) eqn:E; [|reflexivity].
    apply too_many_critical_iff in E. lia.
  - apply clean_dataframe_NoDup.
  - intros r Hr. apply clean_dataframe_In, before_dedup_In in Hr as [_ Hr].
    unfold name_blank. unfold name_not_blank in Hr.
    apply negb_true_iff in Hr. exact Hr.
Qed.

Lemma gate_accepts_cleaned_tables_witness :
  validate_processed_data
    (mkDataFrame required_columns (clean_dataframe unknown_zero_table)) = true.
Proof.
  apply gate_accepts_cleaned_tables.
  - intros col Hcol. apply list_elem_of_In. exact Hcol.
  - discriminate.
Defined.

(** X6.  A table that lacks one of the required columns is rejected,
    whatever its rows are. *)
Theorem gate_rejects_missing_column (df : DataFrame) (col : string) :
  In col required_columns ->
  col ∉ df_columns df ->
  validate_processed_data df = false.
Proof.
  intros Hcol Hout. unfold validate_processed_data.
  destruct (df_empty df); [reflexivity|].
  destruct (missing_columns df) as [|c l] eqn:E; [|reflexivity].
  exfalso. apply Hout. apply (proj1 (missing_columns_nil df) E). exact Hcol.
Qed.

Lemma gate_rejects_missing_column_witness :
  validate_processed_data
    (mkDataFrame ["award_id"; "recipient_name"; "award_amount"; "fetched_at"]
       [row "X1" "Acme" 10]) = false.
Proof.
  apply (gate_rejects_missing_column _ "awarding_agency").
  - simpl. tauto.
  - simpl. rewrite !not_elem_of_cons. repeat split; try discriminate.
    apply not_elem_of_nil.
Defined.

(** ** Further properties of the fetcher *)

Section FetcherMore.

Local Open Scope Z_scope.

Variable post : payload -> http_outcome.
Variable total_limit : Z.
Variable award_group : string.

Lemma debug_first_record_dict (d : gmap string Py.value)
    (first_record : Py.value) (rest : list Py.value) :
  d !! "results" = Some (Py.List (first_record :: rest)) ->
  debug_first_record d = Py.Ret tt ->
  exists item, first_record = Py.Dict item.
Proof.
  unfold debug_first_record. intros ->. simpl.
  destruct (Py.len first_record) as [n|e]; [|discriminate]. simpl.
  destruct first_record; try discriminate. eauto.
Qed.

Lemma fetched_page_first_record (lim pg : Z) (v : Py.value) :
  fetch_spending_data_with_page post lim award_group pg = Some v ->
  exists (d : gmap string Py.value) rs,
    v = Py.Dict d /\ d !! "results" = Some (Py.List rs) /\
    valid_first_record rs.
Proof.
  intros Hfetch.
  destruct (fetched_page_shape post award_group lim pg v Hfetch)
    as (d & rs & -> & Hres).
  exists d, rs. split; [reflexivity|]. split; [exact Hres|].
  destruct rs as [|first_record rest]; [exact I|].
  revert Hfetch. unfold fetch_spending_data_with_page.
  destruct (lookup_group award_group) as [codes|]; [|discriminate].
  destruct (post _) as [e|status json]; [discriminate|].
  destruct (status =? 200); [|discriminate].
  destruct json as [response_data|e]; [|discriminate]. simpl.
  destruct (Py.as_dict response_data) as [d'|e] eqn:Hd; [|discriminate]. simpl.
  destruct (debug_first_record d') as [[]|e] eqn:Hdebug; [|discriminate]. simpl.
  destruct (validate_api_response response_data) as [[|]|e] eqn:Hv;
    try discriminate.
  simpl. intros [= ->]. simpl in Hd. injection Hd as <-.
  destruct (debug_first_record_dict d first_record rest Hres Hdebug)
    as [item ->].
  apply (validate_nonempty_results d (Py.Dict item) rest Hres) in Hv.
  destruct Hv as (field & Hin & Hc). simpl in Hc.
  exists item, field. split; [reflexivity|]. split; [exact Hin|].
  injection Hc as Hc. apply bool_decide_eq_true in Hc. exact Hc.
Qed.

(** What one iteration does to the state. *)
Lemma loop_body_cases (num : Z) (st : fetch_state) :
  let cur := Z.min api_max_limit
               (total_limit - Z.of_nat (length (all_results st))) in
  (cur <= 0 /\
   loop_body post total_limit award_group num st
   = (Break, FetchState (all_results st) (requests st) num)) \/
  (0 < cur /\
   exists ctl rs,
     loop_body post total_limit award_group num st
     = (ctl, FetchState (all_results st ++ rs)
               (requests st ++ [(num + 1, cur)]) num) /\
     (rs = [] \/
      exists v,
        fetch_spending_data_with_page post cur award_group (num + 1) = Some v /\
        batch_results_of (Some v) = Some rs) /\
     (ctl = Break -> Z.of_nat (length rs) < cur)).
Proof.
  cbv zeta. unfold loop_body.
  destruct (Z.min _ _ <=? 0) eqn:Hle; [left; split; [lia|reflexivity]|].
  right. split; [lia|].
  destruct (fetch_spending_data_with_page _ _ _ _) as [v|] eqn:Hfetch.
  - destruct (batch_results_of (Some v)) as [rs|] eqn:Hrs.
    + destruct (Z.of_nat (length rs) <? _) eqn:Hshort.
      * exists Break, rs. split; [reflexivity|]. split; [eauto|]. intros _. lia.
      * exists NextIteration, rs. split; [reflexivity|]. split; [eauto|].
        discriminate.
    + exists NextIteration, []. rewrite app_nil_r.
      split; [reflexivity|]. split; [auto|discriminate].
  - exists NextIteration, []. simpl. rewrite app_nil_r.
    split; [reflexivity|]. split; [auto|discriminate].
Qed.

Lemma page_numbers_from (num : Z) (n : nat) :
  map (fun i => num + 1 + Z.of_nat i) (seq 0 (S n))
  = (num + 1) :: map (fun i => (num + 1) + 1 + Z.of_nat i) (seq 0 n).
Proof.
  simpl. f_equal; [lia|].
  rewrite <- seq_shift, map_map. apply map_ext. intros i. lia.
Qed.

Lemma pagination_loop_pages (count : nat) :
  forall num st,
    exists new,
      requests (pagination_loop post total_limit award_group count num st)
      = requests st ++ new /\
      map fst new = map (fun i => num + 1 + Z.of_nat i) (seq 0 (length new)) /\
      Forall (fun r => 1 <= snd r <= 100) new.
Proof.
  induction count as [|count IH]; intros num st; simpl.
  - exists []. rewrite app_nil_r. repeat split. constructor.
  - destruct (loop_body_cases num st) as [[Hle ->]|(Hpos & ctl & rs & -> & _ & _)].
    + exists []. simpl. rewrite app_nil_r. repeat split. constructor.
    + set (cur := Z.min api_max_limit
                    (total_limit - Z.of_nat (length (all_results st)))) in *.
      assert (Hcur : 1 <= cur <= 100) by (unfold cur, api_max_limit in *; lia).
      destruct ctl.
      * exists [(num + 1, cur)]. simpl. split; [reflexivity|].
        split; [f_equal; lia|]. repeat constructor; simpl; lia.
      * destruct (IH (num + 1)
                    (FetchState (all_results st ++ rs)
                       (requests st ++ [(num + 1, cur)]) num))
          as (new & Hreq & Hpages & Hsizes).
        exists ((num + 1, cur) :: new). simpl in Hreq. rewrite Hreq.
        rewrite <- app_assoc. split; [reflexivity|]. split.
        -- cbn [length]. rewrite page_numbers_from. simpl. f_equal. exact Hpages.
        -- constructor; [simpl; lia|exact Hsizes].
Qed.

Lemma pagination_loop_valid_head (count : nat) :
  forall num st,
    valid_first_record (all_results st) ->
    valid_first_record
      (all_results (pagination_loop post total_limit award_group count num st)).
Proof.
  induction count as [|count IH]; intros num st Hhead; simpl; [exact Hhead|].
  destruct (loop_body_cases num st)
    as [[Hle ->]|(Hpos & ctl & rs & -> & Hrs & _)]; [exact Hhead|].
  assert (Hhead' : valid_first_record (all_results st ++ rs)).
  { destruct (all_results st) as [|x acc]; [|exact Hhead]. simpl.
    destruct Hrs as [->|(v & Hfetch & Hbatch)]; [exact I|].
    destruct (fetched_page_first_record _ _ _ Hfetch) as (d & rs' & -> & Hd & Hv).
    simpl in Hbatch. rewrite Hd in Hbatch.
    destruct rs' as [|r rs']; [discriminate|]. injection Hbatch as <-.
    exact Hv. }
  destruct ctl; [exact Hhead'|]. apply IH. exact Hhead'.
Qed.

Lemma pagination_loop_bound (count : nat) :
  honours_limit post award_group ->
  forall num st,
    Z.of_nat (length (all_results st)) <= total_limit ->
    Z.of_nat
      (length (all_results
                 (pagination_loop post total_limit award_group count num st)))
    <= total_limit.
Proof.
  intros Hhon. induction count as [|count IH]; intros num st Hacc; simpl;
    [exact Hacc|].
  destruct (loop_body_cases num st)
    as [[Hle ->]|(Hpos & ctl & rs & -> & Hrs & _)]; [exact Hacc|].
  assert (Hacc' : Z.of_nat (length (all_results st ++ rs)) <= total_limit).
  { rewrite length_app.
    destruct Hrs as [->|(v & Hfetch & Hbatch)]; [simpl; lia|].
    pose proof (Hhon _ _ _ _ Hfetch Hbatch). lia. }
  destruct ctl; [exact Hacc'|]. apply IH. exact Hacc'.
Qed.

End FetcherMore.

(** X7.  A page that [fetch_spending_data_with_page] hands back is a dict
    whose "results" entry is a list, and when that list is not empty its
    first element is a dict that has one of the basic fields. *)
Theorem fetched_page_is_well_formed (post : payload -> http_outcome)
    (lim : Z) (award_group : string) (pg : Z) (v : Py.value) :
  fetch_spending_data_with_page post lim award_group pg = Some v ->
  exists (d : gmap string Py.value) rs,
    v = Py.Dict d /\ d !! "results" = Some (Py.List rs) /\
    valid_first_record rs.
Proof. apply fetched_page_first_record. Qed.

Lemma fetched_page_is_well_formed_witness :
  exists (d : gmap string Py.value) rs,
    Py.Dict {[ "results" := Py.List [Py.Dict sample_record] ]} = Py.Dict d /\
    d !! "results" = Some (Py.List rs) /\ valid_first_record rs.
Proof.
  apply (fetched_page_is_well_formed (fixed_page_api 1) 100 "grants" 1).
  reflexivity.
Defined.

(** X8.  The page requests of a run are numbered 1, 2, 3, ... without
    gap or repetition, and each asks for between 1 and 100 records. *)
Theorem page_requests_are_sequential (post : payload -> http_outcome)
    (total_limit : Z) (award_group : string) :
  let made := requests (run_pagination post total_limit award_group) in
  map fst made = page_numbers (length made) /\
  Forall (fun r => (1 <= snd r <= 100)%Z) made.
Proof.
  cbv zeta. unfold run_pagination.
  destruct (pagination_loop_pages post total_limit award_group
              (Z.to_nat (total_requests total_limit)) 0%Z (FetchState [] [] 0%Z))
    as (new & -> & Hpages & Hsizes).
  simpl. split; [|exact Hsizes].
  rewrite Hpages. unfold page_numbers. apply map_ext. intros i. lia.
Qed.

(** X9.  When the API never hands back more records than asked for, a
    run never collects more than the target. *)
Theorem collected_records_within_target (post : payload -> http_outcome)
    (total_limit : Z) (award_group : string) :
  honours_limit post award_group ->
  (0 <= total_limit)%Z ->
  (Z.of_nat (length (all_results (run_pagination post total_limit award_group)))
   <= total_limit)%Z.
Proof.
  intros Hhon Hpos. unfold run_pagination.
  apply pagination_loop_bound; [exact Hhon|simpl; lia].
Qed.

Lemma fixed_page_api_fetch (n : nat) (lim pg : Z) :
  fetch_spending_data_with_page (fixed_page_api n) lim "contracts" pg
  = Some (Py.Dict
            {[ "results" := Py.List (replicate n (Py.Dict sample_record)) ]}).
Proof. destruct n; reflexivity. Qed.

Lemma generous_api_honours_limit : honours_limit generous_api "contracts".
Proof.
  intros lim pg v rs Hfetch Hbatch.
  destruct (Z_lt_le_dec 0 lim) as [Hpos|Hle].
  - destruct (generous_api_full lim pg Hpos) as (d & rs' & Hf & Hd & Hlen).
    rewrite Hf in Hfetch. injection Hfetch as <-.
    simpl in Hbatch. rewrite Hd in Hbatch.
    destruct rs'; [discriminate|]. injection Hbatch as <-. lia.
  - assert (Hn : Z.to_nat lim = 0%nat) by lia.
    unfold fetch_spending_data_with_page, generous_api in Hfetch.
    simpl in Hfetch. rewrite Hn in Hfetch. simpl in Hfetch.
    injection Hfetch as <-. discriminate.
Qed.

Lemma collected_records_within_target_witness :
  (Z.of_nat (length (all_results (run_pagination generous_api 250 "contracts")))
   <= 250)%Z.
Proof.
  apply collected_records_within_target.
  - exact generous_api_honours_limit.
  - lia.
Defined.

Section EndOfData.

Local Open Scope Z_scope.

Variable post : payload -> http_outcome.
Variable total_limit : Z.
Variable award_group : string.

Abbreviation limit_at st :=
  (Z.min api_max_limit (total_limit - Z.of_nat (length (all_results st)))).

Lemma loop_body_no_records (num : Z) (st : fetch_state) :
  0 < limit_at st ->
  batch_results_of
    (fetch_spending_data_with_page post (limit_at st) award_group (num + 1))
  = None ->
  loop_body post total_limit award_group num st
  = (NextIteration,
     FetchState (all_results st)
       (requests st ++ [(num + 1, limit_at st)]) num).
Proof.
  intros Hpos Hnone. unfold loop_body.
  destruct (limit_at st <=? 0) eqn:Hle; [lia|].
  rewrite Hnone. reflexivity.
Qed.

Hypothesis Hnone :
  forall lim pg,
    batch_results_of (fetch_spending_data_with_page post lim award_group pg)
    = None.

Lemma recordless_loop (count : nat) :
  forall num st,
    0 < total_limit ->
    all_results st = [] ->
    let st' := pagination_loop post total_limit award_group count num st in
    all_results st' = [] /\
    length (requests st') = (length (requests st) + count)%nat.
Proof.
  induction count as [|count IH]; intros num st Hpos Hnil; simpl;
    [split; [exact Hnil|lia]|].
  assert (Hcur : 0 < limit_at st).
  { rewrite Hnil. unfold api_max_limit. simpl. lia. }
  rewrite (loop_body_no_records num st Hcur) by apply Hnone.
  destruct (IH (num + 1)
              (FetchState (all_results st)
                 (requests st ++ [(num + 1, limit_at st)]) num) Hpos Hnil)
    as [H1 H2].
  split; [exact H1|]. rewrite H2. simpl. rewrite length_app. simpl. lia.
Qed.

End EndOfData.

(** X10.  A page that comes back with fewer records than were asked for
    ends the run at once: its records are kept and no later page is
    requested, however many were planned. *)
Theorem short_page_ends_the_run (post : payload -> http_outcome)
    (total_limit : Z) (award_group : string)
    (count : nat) (num : Z) (st : fetch_state) (v : Py.value)
    (rs : list Py.value) :
  let current_limit :=
    Z.min api_max_limit (total_limit - Z.of_nat (length (all_results st))) in
  (0 < current_limit)%Z ->
  fetch_spending_data_with_page post current_limit award_group (num + 1)%Z
  = Some v ->
  batch_results_of (Some v) = Some rs ->
  (Z.of_nat (length rs) < current_limit)%Z ->
  pagination_loop post total_limit award_group (S count) num st
  = FetchState (all_results st ++ rs)
      (requests st ++ [((num + 1)%Z, current_limit)]) num.
Proof.
  cbv zeta. intros Hpos Hfetch Hbatch Hshort. simpl. unfold loop_body.
  destruct (Z.min _ _ <=? 0)%Z eqn:Hle; [lia|].
  rewrite Hfetch, Hbatch.
  destruct (Z.of_nat (length rs) <? _)%Z eqn:E; [reflexivity|lia].
Qed.

Lemma short_page_ends_the_run_witness :
  pagination_loop (fixed_page_api 30) 1000 "contracts" 10 0
    (FetchState [] [] 0)
  = FetchState (replicate 30 (Py.Dict sample_record)) [(1, 100)%Z] 0.
Proof.
  apply (short_page_ends_the_run (fixed_page_api 30) 1000 "contracts" 9 0
           (FetchState [] [] 0)
           (Py.Dict {[ "results" :=
                         Py.List (replicate 30 (Py.Dict sample_record)) ]})
           (replicate 30 (Py.Dict sample_record)));
    reflexivity.
Defined.

(** X11.  A page that comes back valid but empty does not end the run:
    the iteration goes on to the next page like after a failure; when
    every page is empty or failing, every planned page is requested and
    the fetcher returns [None]. *)
Theorem empty_page_does_not_end_the_run (post : payload -> http_outcome)
    (total_limit : Z) (award_group : string) :
  (forall (num : Z) (st : fetch_state) (d : gmap string Py.value),
      let current_limit :=
        Z.min api_max_limit (total_limit - Z.of_nat (length (all_results st))) in
      (0 < current_limit)%Z ->
      fetch_spending_data_with_page post current_limit award_group (num + 1)%Z
      = Some (Py.Dict d) ->
      d !! "results" = Some (Py.List []) ->
      loop_body post total_limit award_group num st
      = (NextIteration,
         FetchState (all_results st)
           (requests st ++ [((num + 1)%Z, current_limit)]) num)) /\
  ((forall lim pg,
       batch_results_of (fetch_spending_data_with_page post lim award_group pg)
       = None) ->
   (0 < total_limit)%Z ->
   length (requests (run_pagination post total_limit award_group))
   = Z.to_nat (total_requests total_limit) /\
   fetch_spending_data_with_pagination post total_limit award_group = None).
Proof.
  split.
  - cbv zeta. intros num st d Hpos Hfetch Hd.
    apply loop_body_no_records; [exact Hpos|].
    rewrite Hfetch. simpl. rewrite Hd. reflexivity.
  - intros Hnone Hpos.
    destruct (recordless_loop post total_limit award_group Hnone
                (Z.to_nat (total_requests total_limit)) 0%Z
                (FetchState [] [] 0%Z) Hpos eq_refl) as [Hacc Hreq].
    split; [exact Hreq|].
    unfold fetch_spending_data_with_pagination, run_pagination.
    rewrite Hacc. reflexivity.
Qed.

Lemma empty_page_does_not_end_the_run_witness :
  length (requests (run_pagination (fixed_page_api 0) 250 "contracts")) = 3%nat /\
  fetch_spending_data_with_pagination (fixed_page_api 0) 250 "contracts" = None.
Proof.
  apply (empty_page_does_not_end_the_run (fixed_page_api 0) 250 "contracts").
  - intros lim pg. rewrite fixed_page_api_fetch. reflexivity.
  - reflexivity.
Defined.

(** X12.  The combined response of a paginated run is itself a response
    the validator accepts. *)
Theorem combined_response_is_valid (post : payload -> http_outcome)
    (total_limit : Z) (award_group : string) (response : Py.value) :
  fetch_spending_data_with_pagination post total_limit award_group
  = Some response ->
  validate_api_response response = Py.Ret true.
Proof.
  unfold fetch_spending_data_with_pagination.
  pose proof (pagination_loop_valid_head post total_limit award_group
                (Z.to_nat (total_requests total_limit)) 0%Z
                (FetchState [] [] 0%Z) I) as Hhead.
  fold (run_pagination post total_limit award_group) in Hhead.
  destruct (all_results (run_pagination post total_limit award_group))
    as [|first_record rest] eqn:Hall; [discriminate|].
  intros [= <-]. unfold final_response. rewrite Hall.
  destruct Hhead as (item & field & -> & Hin & Hsome).
  eapply validate_nonempty_results.
  - apply lookup_insert_eq.
  - exists field. split; [exact Hin|]. simpl.
    rewrite bool_decide_eq_true_2 by exact Hsome. reflexivity.
Qed.

Lemma combined_response_is_valid_witness :
  validate_api_response
    (final_response (run_pagination generous_api 250 "contracts"))
  = Py.Ret true.
Proof.
  apply (combined_response_is_valid generous_api 250 "contracts").
  reflexivity.
Defined.

Section RequestsMade.

Local Open Scope Z_scope.

Variable post : payload -> http_outcome.
Variable total_limit : Z.
Variable award_group : string.

Hypothesis Hhon : honours_limit post award_group.

Lemma pagination_loop_requests_made (count : nat) :
  forall num st,
    Z.of_nat (length (requests st)) = num ->
    Z.of_nat (length (all_results st)) <= 100 * num ->
    num + Z.of_nat (S count) <= total_requests total_limit ->
    let st' := pagination_loop post total_limit award_group (S count) num st in
    request_num st' + 1 = Z.of_nat (length (requests st')).
Proof.
  pose proof (total_requests_ceiling total_limit) as Hceil.
  induction count as [|count IH]; intros num st Hreq Hacc Hnum;
    cbv zeta; cbn [pagination_loop].
  - destruct (loop_body_cases post total_limit award_group num st)
      as [[Hle _]|(Hpos & ctl & rs & -> & _ & _)];
      [unfold api_max_limit in Hle; lia|].
    destruct ctl; simpl; rewrite length_app; simpl; lia.
  - destruct (loop_body_cases post total_limit award_group num st)
      as [[Hle _]|(Hpos & ctl & rs & -> & Hrs & _)];
      [unfold api_max_limit in Hle; lia|].
    destruct ctl; [simpl; rewrite length_app; simpl; lia|].
    apply IH.
    + simpl. rewrite length_app. simpl. lia.
    + simpl. rewrite length_app.
      destruct Hrs as [->|(v & Hfetch & Hbatch)]; [simpl; lia|].
      pose proof (Hhon _ _ _ _ Hfetch Hbatch). unfold api_max_limit in *. lia.
    + lia.
Qed.

End RequestsMade.

(** X13.  When the API never hands back more records than asked for and
    the target is positive, the "requests_made" count that the combined
    response reports, [request_num + 1], is the number of page requests
    the run made. *)
Theorem requests_made_is_accurate (post : payload -> http_outcome)
    (total_limit : Z) (award_group : string) :
  honours_limit post award_group ->
  (0 < total_limit)%Z ->
  let st := run_pagination post total_limit award_group in
  (request_num st + 1)%Z = Z.of_nat (length (requests st)).
Proof.
  intros Hhon Hpos. cbv zeta. unfold run_pagination.
  pose proof (total_requests_ceiling total_limit) as Hceil.
  destruct (Z.to_nat (total_requests total_limit)) as [|count] eqn:Hn; [lia|].
  apply pagination_loop_requests_made; [exact Hhon|reflexivity|simpl; lia|lia].
Qed.

Lemma requests_made_is_accurate_witness :
  (request_num (run_pagination generous_api 250 "contracts") + 1)%Z
  = Z.of_nat (length (requests (run_pagination generous_api 250 "contracts"))).
Proof.
  apply (requests_made_is_accurate generous_api 250 "contracts").
  - exact generous_api_honours_limit.
  - reflexivity.
Defined.

(** ** Further properties of the persistence writer *)

Section BlockResult.

Variable os_write : string -> content -> filesystem -> Py.result filesystem.

(** Everything a format block can do, with the file system it leaves. *)
Lemma save_format_block_result (file_path latest_path : string)
    (prepare : io content) (saved_files : list string) (fs : filesystem) :
  (exists r, prepare fs = (r, fs, []) /\ forall b, r <> Return b) ->
  let out :=
    save_format_block os_write file_path latest_path prepare saved_files fs in
  (forall p, In (Saved p) (snd out) -> p = file_path \/ p = latest_path) /\
  match out with
  | (Normal sf, fs2, evs) =>
      sf = saved_files ++ [file_path] /\
      evs = [Saved file_path; IntegrityChecked file_path true;
             Saved latest_path; IntegrityChecked latest_path true] /\
      exists c fs1,
        prepare fs = (Normal c, fs, []) /\
        os_write file_path c fs = Py.Ret fs1 /\
        check_file_integrity fs1 file_path = true /\
        os_write latest_path c fs1 = Py.Ret fs2 /\
        check_file_integrity fs2 latest_path = true
  | (Return b, _, evs) => b = false /\ no_backup evs
  | (Raised _, _, _) => False
  end.
Proof.
  intros (r & Hprep & Hr).
  cbv beta iota zeta delta
    [save_format_block io_try io_bind save_file os_call run_integrity_check
     emit io_return io_ret no_backup].
  rewrite Hprep.
  destruct r as [c|b|e]; [|destruct (Hr b); reflexivity|].
  2:{ simpl. split; [tauto|]. split; [reflexivity|tauto]. }
  destruct (os_write file_path c fs) as [fs1|e1] eqn:Hw1.
  2:{ simpl. split; [tauto|]. split; [reflexivity|tauto]. }
  destruct (check_file_integrity fs1 file_path) eqn:Hc1.
  2:{ simpl. split; [intuition congruence|].
      split; [reflexivity|intuition discriminate]. }
  simpl.
  destruct (os_write latest_path c fs1) as [fs2|e2] eqn:Hw2.
  2:{ simpl. split; [intuition congruence|].
      split; [reflexivity|intuition discriminate]. }
  destruct (check_file_integrity fs2 latest_path) eqn:Hc2.
  - simpl. split; [intuition congruence|].
    split; [reflexivity|]. split; [reflexivity|].
    exists c, fs1. auto.
  - simpl. split; [intuition congruence|].
    split; [reflexivity|intuition discriminate].
Qed.

End BlockResult.

Section WriterMore.

Variable data_dir : string.
Variable timestamp : string.
Variable os_write : string -> content -> filesystem -> Py.result filesystem.
Variable os_remove : string -> filesystem -> Py.result filesystem.
Variable os_makedirs : string -> filesystem -> Py.result filesystem.
Variable create_backup_effect : filesystem -> filesystem.

Abbreviation run_save df fmt fs :=
  (save_data data_dir timestamp os_write os_remove os_makedirs
     create_backup_effect df fmt fs).

Abbreviation storage_check fs :=
  (validate_storage_environment data_dir os_write os_remove os_makedirs fs).

Abbreviation main_part df fmt :=
  (save_data_main data_dir timestamp os_write create_backup_effect df fmt).

Lemma save_data_after_storage (df : DataFrame) (save_format : string)
    (fs fs0 : filesystem) :
  df_empty df = false ->
  storage_check fs = (Normal true, fs0, []) ->
  run_save df save_format fs = io_call (main_part df save_format) fs0.
Proof.
  intros Hne Hstorage. unfold save_data. rewrite Hne.
  change (save_data_body data_dir timestamp os_write os_remove os_makedirs
            create_backup_effect df save_format)
    with (io_bind (validate_storage_environment data_dir os_write os_remove
                     os_makedirs)
            (fun storage_ok : bool =>
               if negb storage_ok then io_return false
               else main_part df save_format)).
  unfold io_call, io_bind. rewrite Hstorage. cbn [negb].
  destruct (main_part df save_format fs0) as [[r fs1] evs1].
  destruct r; reflexivity.
Qed.

Lemma save_data_storage_failure (df : DataFrame) (save_format : string)
    (fs fs0 : filesystem) :
  df_empty df = false ->
  storage_check fs = (Normal false, fs0, []) ->
  run_save df save_format fs = (false, fs0, []).
Proof.
  intros Hne Hstorage. unfold save_data. rewrite Hne.
  unfold io_call, save_data_body, io_bind. rewrite Hstorage. reflexivity.
Qed.

Lemma finish_save_outcome (saved_files : list string) (fs : filesystem) :
  exists fs',
    finish_save data_dir os_write create_backup_effect saved_files fs
    = (Return (forallb (saved_file_valid (create_backup_effect fs)) saved_files),
       fs',
       BackupVersionsCreated
         :: SavedFilesValidated saved_files
              (forallb (saved_file_valid (create_backup_effect fs)) saved_files)
         :: (if forallb (saved_file_valid (create_backup_effect fs)) saved_files
             then [SaveLogged] else [])).
Proof.
  cbv beta iota zeta delta [finish_save io_bind create_backup_versions io_return].
  unfold validate_saved_files.
  destruct (append_log_quiet os_write (path_join data_dir "file_validation.log")
              (create_backup_effect fs)) as (fs1 & ->).
  destruct (forallb (saved_file_valid (create_backup_effect fs)) saved_files).
  - destruct (log_successful_save_outcome data_dir os_write fs1) as (fs2 & ->).
    simpl. eauto.
  - simpl. eauto.
Qed.

Lemma storage_check_unwritable (fs : filesystem) :
  (forall fs0, exists e,
      os_write (path_join data_dir "temp_write_test.txt") TestText fs0
      = Py.Raise e) ->
  exists fs0, storage_check fs = (Normal false, fs0, []).
Proof.
  intros Hraise.
  cbv beta iota zeta delta
    [validate_storage_environment io_try io_bind os_call io_ret].
  destruct (fs !! data_dir).
  - destruct (Hraise fs) as [e ->]. simpl. eauto.
  - destruct (os_makedirs data_dir fs) as [fs0|e0]; [|simpl; eauto].
    destruct (Hraise fs0) as [e ->]. simpl. eauto.
Qed.

End WriterMore.

(** X14.  A save format other than "csv", "json" and "both" is not
    refused: when the storage check passes, [save_data] writes no data
    file at all, still runs the backup step and reports success. *)
Theorem unknown_format_saves_nothing
    (data_dir timestamp : string)
    (os_write : string -> content -> filesystem -> Py.result filesystem)
    (os_remove os_makedirs : string -> filesystem -> Py.result filesystem)
    (create_backup_effect : filesystem -> filesystem)
    (df : DataFrame) (save_format : string) (fs fs0 : filesystem) :
  df_empty df = false ->
  format_in save_format ["csv"; "json"; "both"] = false ->
  validate_storage_environment data_dir os_write os_remove os_makedirs fs
  = (Normal true, fs0, []) ->
  exists fs',
    save_data data_dir timestamp os_write os_remove os_makedirs
      create_backup_effect df save_format fs
    = (true, fs',
       [BackupVersionsCreated; SavedFilesValidated [] true; SaveLogged]).
Proof.
  intros Hne Hfmt Hstorage.
  rewrite (save_data_after_storage _ _ _ _ _ _ df save_format fs fs0 Hne Hstorage).
  unfold format_in in Hfmt. simpl in Hfmt.
  apply orb_false_iff in Hfmt as [Hcsv Hfmt].
  apply orb_false_iff in Hfmt as [Hjson Hfmt].
  apply orb_false_iff in Hfmt as [Hboth _].
  unfold save_data_main, format_in. simpl. rewrite Hcsv, Hjson, Hboth. simpl.
  unfold io_call, io_try, io_bind, io_ret.
  destruct (finish_save_outcome data_dir os_write create_backup_effect [] fs0)
    as (fs' & ->).
  simpl. eauto.
Qed.

Lemma unknown_format_saves_nothing_witness :
  exists fs',
    save_data "data" "20240101_000000" sound_write plain_remove plain_makedirs
      (fun fs => fs) one_row_table "xml" ∅
    = (true, fs',
       [BackupVersionsCreated; SavedFilesValidated [] true; SaveLogged]).
Proof.
  eapply (unknown_format_saves_nothing "data" "20240101_000000" sound_write
            plain_remove plain_makedirs (fun fs => fs) one_row_table "xml" ∅).
  - reflexivity.
  - reflexivity.
  - vm_compute. reflexivity.
Defined.

(** X15.  When the test file of the storage check cannot be written,
    [save_data] gives up before it writes, checks or backs up any data
    file. *)
Theorem unwritable_directory_aborts_save
    (data_dir timestamp : string)
    (os_write : string -> content -> filesystem -> Py.result filesystem)
    (os_remove os_makedirs : string -> filesystem -> Py.result filesystem)
    (create_backup_effect : filesystem -> filesystem)
    (df : DataFrame) (save_format : string) (fs : filesystem) :
  (forall fs0, exists e,
      os_write (path_join data_dir "temp_write_test.txt") TestText fs0
      = Py.Raise e) ->
  exists fs',
    save_data data_dir timestamp os_write os_remove os_makedirs
      create_backup_effect df save_format fs = (false, fs', []).
Proof.
  intros Hraise. destruct (df_empty df) eqn:Hne.
  - exists fs. unfold save_data. rewrite Hne. reflexivity.
  - destruct (storage_check_unwritable data_dir os_write os_remove os_makedirs
                fs Hraise) as (fs0 & Hstorage).
    exists fs0. apply save_data_storage_failure; assumption.
Qed.

Lemma unwritable_directory_aborts_save_witness :
  exists fs',
    save_data "data" "20240101_000000" (fun _ _ _ => Py.Raise Py.OSError)
      plain_remove plain_makedirs (fun fs => fs) one_row_table "both" ∅
    = (false, fs', []).
Proof.
  apply unwritable_directory_aborts_save.
  intros fs0. exists Py.OSError. reflexivity.
Defined.

Section WriterTraces.

Variable data_dir : string.
Variable timestamp : string.
Variable os_write : string -> content -> filesystem -> Py.result filesystem.
Variable os_remove : string -> filesystem -> Py.result filesystem.
Variable os_makedirs : string -> filesystem -> Py.result filesystem.
Variable create_backup_effect : filesystem -> filesystem.

Abbreviation run_save' df fmt fs :=
  (save_data data_dir timestamp os_write os_remove os_makedirs
     create_backup_effect df fmt fs).

Abbreviation the_csv_path := (csv_path data_dir timestamp).
Abbreviation the_json_path := (json_path data_dir timestamp).
Abbreviation the_latest_csv := (latest_csv_path data_dir).
Abbreviation the_latest_json := (latest_json_path data_dir).

(** A run either stops at the storage check or is the run of the main
    part. *)
Lemma save_data_cases (df : DataFrame) (save_format : string) (fs : filesystem) :
  df_empty df = false ->
  (exists fs0, run_save' df save_format fs = (false, fs0, [])) \/
  (exists fs0,
      run_save' df save_format fs
      = io_call (save_data_main data_dir timestamp os_write create_backup_effect
                   df save_format) fs0).
Proof.
  intros Hne.
  destruct (validate_storage_environment_quiet data_dir os_write os_remove
              os_makedirs fs) as (ok & fs0 & Hstorage).
  destruct ok.
  - right. exists fs0. apply save_data_after_storage; assumption.
  - left. exists fs0. apply save_data_storage_failure; assumption.
Qed.

Lemma successful_both_trace (df : DataFrame) (fs0 fs' : filesystem)
    (evs : list event) :
  io_call (save_data_main data_dir timestamp os_write create_backup_effect
             df "both") fs0 = (true, fs', evs) ->
  evs = [Saved the_csv_path; IntegrityChecked the_csv_path true;
         Saved the_latest_csv; IntegrityChecked the_latest_csv true;
         Saved the_json_path; IntegrityChecked the_json_path true;
         Saved the_latest_json; IntegrityChecked the_latest_json true;
         BackupVersionsCreated;
         SavedFilesValidated [the_csv_path; the_json_path] true;
         SaveLogged].
Proof.
  unfold save_data_main.
  change (format_in "both" ["csv"; "both"]) with true.
  change (format_in "both" ["json"; "both"]) with true.
  cbv beta iota zeta delta [io_call io_try io_bind io_return].
  pose proof (save_format_block_result os_write the_csv_path the_latest_csv
                (io_ret (CsvOf df)) [] fs0 (csv_prepare_quiet df fs0)) as [_ Hcsv].
  destruct (save_format_block os_write the_csv_path the_latest_csv
              (io_ret (CsvOf df)) [] fs0) as [[[sf1|b1|e1] fs1] evs1];
    [|destruct Hcsv as [-> _]; discriminate|contradiction].
  destruct Hcsv as (-> & -> & _).
  pose proof (save_format_block_result os_write the_json_path the_latest_json
                (build_json_data df) ([] ++ [the_csv_path]) fs1
                (json_prepare_quiet df fs1)) as [_ Hjson].
  destruct (save_format_block os_write the_json_path the_latest_json
              (build_json_data df) ([] ++ [the_csv_path]) fs1)
    as [[[sf2|b2|e2] fs2] evs2];
    [|destruct Hjson as [-> _]; discriminate|contradiction].
  destruct Hjson as (-> & -> & _).
  destruct (finish_save_outcome data_dir os_write create_backup_effect
              (([] ++ [the_csv_path]) ++ [the_json_path]) fs2) as (fs3 & ->).
  destruct (forallb _ _); [|discriminate].
  intros [= <- <-]. reflexivity.
Qed.

Lemma missing_column_main (df : DataFrame) (save_format : string)
    (fs0 : filesystem) :
  format_in save_format ["json"; "both"] = true ->
  forallb (fun col => bool_decide (col ∈ df_columns df)) json_metadata_columns
  = false ->
  let '(ok, _, evs) :=
    io_call (save_data_main data_dir timestamp os_write create_backup_effect
               df save_format) fs0 in
  ok = false /\ no_backup evs /\
  forall p, In (Saved p) evs -> p = the_csv_path \/ p = the_latest_csv.
Proof.
  clear os_remove os_makedirs.
  intros Hfmt Hcols. unfold save_data_main. rewrite Hfmt.
  cbv beta iota zeta delta [io_call io_try io_bind io_return].
  assert (Hjson : forall sf fs,
             save_format_block os_write the_json_path the_latest_json
               (build_json_data df) sf fs = (Return false, fs, [])).
  { intros sf fs.
    cbv beta iota zeta delta [save_format_block io_try io_bind io_return].
    unfold build_json_data. rewrite Hcols. reflexivity. }
  destruct (format_in save_format ["csv"; "both"]).
  - pose proof (save_format_block_result os_write the_csv_path the_latest_csv
                  (io_ret (CsvOf df)) [] fs0 (csv_prepare_quiet df fs0))
      as [Hsaved Hcsv].
    destruct (save_format_block os_write the_csv_path the_latest_csv
                (io_ret (CsvOf df)) [] fs0) as [[[sf1|b1|e1] fs1] evs1];
      simpl in Hsaved; [|destruct Hcsv as [-> Hnb]; auto|contradiction].
    destruct Hcsv as (_ & Hevs & _). rewrite Hjson. simpl.
    rewrite app_nil_r. split; [reflexivity|]. split; [|exact Hsaved].
    subst evs1. unfold no_backup. simpl. intuition discriminate.
  - unfold io_ret. rewrite Hjson. simpl.
    split; [reflexivity|]. split; [unfold no_backup; simpl; tauto|tauto].
Qed.

End WriterTraces.

(** X16.  A successful [save_data] with format "both" has done exactly
    this, in this order: written and checked the timestamped CSV, the
    latest CSV, the timestamped JSON and the latest JSON, made the
    backup, validated the two timestamped files and logged the save. *)
Theorem successful_save_trace
    (data_dir timestamp : string)
    (os_write : string -> content -> filesystem -> Py.result filesystem)
    (os_remove os_makedirs : string -> filesystem -> Py.result filesystem)
    (create_backup_effect : filesystem -> filesystem)
    (df : DataFrame) (fs fs' : filesystem) (evs : list event) :
  save_data data_dir timestamp os_write os_remove os_makedirs
    create_backup_effect df "both" fs = (true, fs', evs) ->
  evs = [Saved (csv_path data_dir timestamp);
         IntegrityChecked (csv_path data_dir timestamp) true;
         Saved (latest_csv_path data_dir);
         IntegrityChecked (latest_csv_path data_dir) true;
         Saved (json_path data_dir timestamp);
         IntegrityChecked (json_path data_dir timestamp) true;
         Saved (latest_json_path data_dir);
         IntegrityChecked (latest_json_path data_dir) true;
         BackupVersionsCreated;
         SavedFilesValidated
           [csv_path data_dir timestamp; json_path data_dir timestamp] true;
         SaveLogged].
Proof.
  intros Hrun. destruct (df_empty df) eqn:Hne.
  - unfold save_data in Hrun. rewrite Hne in Hrun. discriminate.
  - destruct (save_data_cases data_dir timestamp os_write os_remove os_makedirs
                create_backup_effect df "both" fs Hne) as [[fs0 H]|[fs0 H]];
      rewrite H in Hrun; [discriminate|].
    eapply successful_both_trace. exact Hrun.
Qed.

Lemma successful_save_trace_witness :
  snd (save_data "data" "20240101_000000" sound_write plain_remove
         plain_makedirs (fun fs => fs) one_row_table "both" ∅)
  = [Saved (csv_path "data" "20240101_000000");
     IntegrityChecked (csv_path "data" "20240101_000000") true;
     Saved (latest_csv_path "data");
     IntegrityChecked (latest_csv_path "data") true;
     Saved (json_path "data" "20240101_000000");
     IntegrityChecked (json_path "data" "20240101_000000") true;
     Saved (latest_json_path "data");
     IntegrityChecked (latest_json_path "data") true;
     BackupVersionsCreated;
     SavedFilesValidated
       [csv_path "data" "20240101_000000"; json_path "data" "20240101_000000"]
       true;
     SaveLogged].
Proof.
  apply (successful_save_trace "data" "20240101_000000" sound_write
           plain_remove plain_makedirs (fun fs => fs) one_row_table ∅
           (snd (fst (save_data "data" "20240101_000000" sound_write
                        plain_remove plain_makedirs (fun fs => fs)
                        one_row_table "both" ∅)))).
  vm_compute. reflexivity.
Defined.

(** X17.  A table that lacks one of the columns the JSON metadata block
    aggregates cannot be saved as JSON: [save_data] returns failure, makes
    no backup and writes no JSON file, while the CSV files of the same
    call, written first, stay written. *)
Theorem missing_metadata_column_fails_save
    (data_dir timestamp : string)
    (os_write : string -> content -> filesystem -> Py.result filesystem)
    (os_remove os_makedirs : string -> filesystem -> Py.result filesystem)
    (create_backup_effect : filesystem -> filesystem)
    (df : DataFrame) (save_format : string) (col : string)
    (fs fs' : filesystem) (ok : bool) (evs : list event) :
  format_in save_format ["json"; "both"] = true ->
  In col json_metadata_columns ->
  col ∉ df_columns df ->
  save_data data_dir timestamp os_write os_remove os_makedirs
    create_backup_effect df save_format fs = (ok, fs', evs) ->
  ok = false /\ no_backup evs /\
  forall p, In (Saved p) evs ->
            p = csv_path data_dir timestamp \/ p = latest_csv_path data_dir.
Proof.
  intros Hfmt Hcol Hout Hrun.
  assert (Hcols : forallb (fun c => bool_decide (c ∈ df_columns df))
                    json_metadata_columns = false).
  { destruct (forallb _ json_metadata_columns) eqn:E; [|reflexivity].
    rewrite List.forallb_forall in E. specialize (E col Hcol).
    apply bool_decide_eq_true in E. contradiction. }
  destruct (df_empty df) eqn:Hne.
  - unfold save_data in Hrun. rewrite Hne in Hrun. injection Hrun as <- <- <-.
    split; [reflexivity|]. split; [intros []|intros p []].
  - destruct (save_data_cases data_dir timestamp os_write os_remove os_makedirs
                create_backup_effect df save_format fs Hne)
      as [[fs0 H]|[fs0 H]]; rewrite H in Hrun.
    + injection Hrun as <- <- <-.
      split; [reflexivity|]. split; [intros []|intros p []].
    + pose proof (missing_column_main data_dir timestamp os_write
                    create_backup_effect df save_format fs0 Hfmt Hcols) as Hmain.
      rewrite Hrun in Hmain. exact Hmain.
Qed.

Lemma missing_metadata_column_fails_save_witness :
  fst (fst (save_data "data" "20240101_000000" sound_write plain_remove
              plain_makedirs (fun fs => fs)
              (mkDataFrame required_columns [row "X1" "Acme" 10]) "both" ∅))
  = false.
Proof.
  set (run := save_data "data" "20240101_000000" sound_write plain_remove
                plain_makedirs (fun fs => fs)
                (mkDataFrame required_columns [row "X1" "Acme" 10]) "both" ∅).
  apply (missing_metadata_column_fails_save "data" "20240101_000000"
           sound_write plain_remove plain_makedirs (fun fs => fs)
           (mkDataFrame required_columns [row "X1" "Acme" 10]) "both"
           "covid_19_obligations" ∅ (snd (fst run)) (fst (fst run)) (snd run)).
  - reflexivity.
  - simpl. tauto.
  - unfold required_columns. simpl. rewrite !not_elem_of_cons.
    repeat split; try discriminate. apply not_elem_of_nil.
  - vm_compute. reflexivity.
Defined.

(** ** File names and the integrity check *)

Section Suffixes.

Lemma app_cons (c : ascii) (a b : string) :
  String c a +:+ b = String c (a +:+ b).
Proof. reflexivity. Qed.

Lemma app_empty_l (b : string) : EmptyString +:+ b = b.
Proof. reflexivity. Qed.

Lemma endswith_refl (s : string) : Str.endswith s s = true.
Proof. destruct s; simpl; rewrite ?Ascii.eqb_refl, ?String.eqb_refl; reflexivity. Qed.

Lemma endswith_app_r (a b suffix : string) :
  Str.endswith b suffix = true -> Str.endswith (a +:+ b) suffix = true.
Proof.
  intros H. induction a as [|c a IH].
  - rewrite app_empty_l. exact H.
  - rewrite app_cons. simpl. rewrite IH. apply orb_true_r.
Qed.

Lemma app_not_empty (a b : string) : b <> EmptyString -> a +:+ b <> EmptyString.
Proof. destruct a; [rewrite app_empty_l; auto|rewrite app_cons; discriminate]. Qed.

Lemma last_char_app (a b : string) :
  b <> EmptyString -> Str.last_char (a +:+ b) = Str.last_char b.
Proof.
  intros Hb. induction a as [|c a IH].
  - rewrite app_empty_l. reflexivity.
  - rewrite app_cons. simpl.
    destruct (a +:+ b) eqn:E; [|exact IH].
    exfalso. revert E. apply app_not_empty. exact Hb.
Qed.

Lemma endswith_last_char (hay suffix : string) :
  suffix <> EmptyString ->
  Str.endswith hay suffix = true ->
  Str.last_char hay = Str.last_char suffix.
Proof.
  intros Hs. induction hay as [|c hay IH]; cbn [Str.endswith].
  - destruct suffix; [contradiction|discriminate].
  - intros H. apply orb_true_iff in H as [H|H].
    + apply String.eqb_eq in H. rewrite <- H. reflexivity.
    + specialize (IH H). destruct hay as [|c' hay']; [|exact IH].
      cbn [Str.endswith] in H. destruct suffix; [contradiction|discriminate].
Qed.

Variable data_dir : string.
Variable timestamp : string.

Lemma path_last_char (name : string) :
  name <> EmptyString ->
  Str.last_char (path_join data_dir name) = Str.last_char name.
Proof.
  intros Hn. unfold path_join.
  rewrite last_char_app, last_char_app; auto using app_not_empty.
Qed.

Lemma path_endswith (name suffix : string) :
  Str.endswith name suffix = true ->
  Str.endswith (path_join data_dir name) suffix = true.
Proof. intros H. unfold path_join. do 2 apply endswith_app_r. exact H. Qed.

Lemma path_not_endswith (name suffix : string) :
  name <> EmptyString -> suffix <> EmptyString ->
  Str.last_char name <> Str.last_char suffix ->
  Str.endswith (path_join data_dir name) suffix = false.
Proof.
  intros Hn Hs Hne.
  destruct (Str.endswith _ suffix) eqn:E; [|reflexivity].
  apply endswith_last_char in E; [|exact Hs].
  rewrite path_last_char in E by exact Hn. contradiction.
Qed.

Lemma stamped_last_char (extension : string) :
  extension <> EmptyString ->
  Str.last_char ("spending_data_useful_" +:+ timestamp +:+ extension)
  = Str.last_char extension.
Proof.
  intros He. rewrite last_char_app, last_char_app; auto using app_not_empty.
Qed.

Lemma stamped_not_empty (extension : string) :
  extension <> EmptyString ->
  "spending_data_useful_" +:+ timestamp +:+ extension <> EmptyString.
Proof. intros He. do 2 apply app_not_empty. exact He. Qed.

Lemma csv_path_is_csv : Str.endswith (csv_path data_dir timestamp) ".csv" = true.
Proof.
  unfold csv_path. apply path_endswith. do 2 apply endswith_app_r. reflexivity.
Qed.

Lemma json_path_is_json :
  Str.endswith (json_path data_dir timestamp) ".json" = true /\
  Str.endswith (json_path data_dir timestamp) ".csv" = false.
Proof.
  unfold json_path. split.
  - apply path_endswith. do 2 apply endswith_app_r. reflexivity.
  - apply path_not_endswith; [apply stamped_not_empty|..]; try discriminate.
    rewrite stamped_last_char; discriminate.
Qed.

Lemma latest_csv_path_is_csv :
  Str.endswith (latest_csv_path data_dir) ".csv" = true.
Proof. unfold latest_csv_path. apply path_endswith. reflexivity. Qed.

Lemma latest_json_path_is_json :
  Str.endswith (latest_json_path data_dir) ".json" = true /\
  Str.endswith (latest_json_path data_dir) ".csv" = false.
Proof.
  unfold latest_json_path. split.
  - apply path_endswith. reflexivity.
  - apply path_not_endswith; discriminate.
Qed.

Lemma log_path_is_not_csv (name : string) :
  name = "file_validation.log" \/ name = "save_operations.log" ->
  Str.endswith (path_join data_dir name) ".csv" = false.
Proof. intros [-> | ->]; apply path_not_endswith; discriminate. Qed.

End Suffixes.

Section StoredFiles.

Variable fs : filesystem.
Variable p : string.

Lemma stored_json_value (records : list Row) :
  let d : gmap string Py.value :=
    {[ "metadata" := Py.Dict ∅;
       "records" := Py.List (map (fun _ => Py.Dict ∅) records) ]} in
  Py.truthy (Py.Dict d) = true /\
  d !! "records" = Some (Py.List (map (fun _ => Py.Dict ∅) records)) /\
  d !! "metadata" = Some (Py.Dict ∅).
Proof.
  cbv zeta. split; [|split].
  - simpl. apply negb_true_iff. apply bool_decide_eq_false_2.
    apply insert_non_empty.
  - rewrite lookup_insert_ne by discriminate. apply lookup_singleton_eq.
  - apply lookup_insert_eq.
Qed.

Lemma check_stored_csv (df : DataFrame) :
  Str.endswith p ".csv" = true ->
  df_empty df = false ->
  check_file_integrity (<[p := file_of (CsvOf df)]> fs) p = true /\
  saved_file_valid (<[p := file_of (CsvOf df)]> fs) p = true.
Proof.
  intros Hp Hne. unfold check_file_integrity, saved_file_valid.
  rewrite lookup_insert_eq. simpl. rewrite Hp. simpl. rewrite Hne. auto.
Qed.

Lemma check_stored_json (df : DataFrame) (records : list Row) :
  Str.endswith p ".csv" = false ->
  Str.endswith p ".json" = true ->
  check_file_integrity (<[p := file_of (JsonOf df records)]> fs) p = true /\
  saved_file_valid (<[p := file_of (JsonOf df records)]> fs) p = true.
Proof.
  intros Hcsv Hjson. unfold check_file_integrity, saved_file_valid.
  rewrite lookup_insert_eq.
  destruct (stored_json_value records) as (Ht & Hr & Hm).
  cbn [file_of file_size read_csv json_load Nat.eqb Py.try_except Py.bind].
  rewrite Hcsv, Hjson. cbn [Py.bind]. rewrite Ht. cbn [negb].
  unfold records_length. cbn [Py.as_dict Py.bind]. rewrite Hr, Hm.
  simpl. auto.
Qed.

End StoredFiles.

Section SoundFilesystem.

Variable data_dir : string.
Variable timestamp : string.
Variable create_backup_effect : filesystem -> filesystem.

Abbreviation csv_p := (csv_path data_dir timestamp).
Abbreviation json_p := (json_path data_dir timestamp).
Abbreviation latest_csv_p := (latest_csv_path data_dir).
Abbreviation latest_json_p := (latest_json_path data_dir).

Lemma sound_storage_check (fs : filesystem) :
  exists fs0,
    validate_storage_environment data_dir sound_write plain_remove
      plain_makedirs fs = (Normal true, fs0, []).
Proof.
  cbv beta iota zeta delta
    [validate_storage_environment io_try io_bind os_call io_ret
     sound_write plain_remove plain_makedirs].
  destruct (fs !! data_dir); simpl; eauto.
Qed.

Lemma sound_block (file_path latest_path : string) (prepare : io content)
    (c : content) (saved_files : list string) (fs : filesystem) :
  prepare fs = (Normal c, fs, []) ->
  check_file_integrity (<[file_path := file_of c]> fs) file_path = true ->
  check_file_integrity
    (<[latest_path := file_of c]> (<[file_path := file_of c]> fs)) latest_path
  = true ->
  save_format_block sound_write file_path latest_path prepare saved_files fs
  = (Normal (saved_files ++ [file_path]),
     <[latest_path := file_of c]> (<[file_path := file_of c]> fs),
     [Saved file_path; IntegrityChecked file_path true;
      Saved latest_path; IntegrityChecked latest_path true]).
Proof.
  intros Hprep Hc1 Hc2.
  cbv beta iota zeta delta
    [save_format_block io_try io_bind save_file os_call run_integrity_check
     emit io_return io_ret sound_write].
  rewrite Hprep. cbn [app]. rewrite Hc1. cbn [negb app]. rewrite Hc2.
  reflexivity.
Qed.

Lemma sound_finish (saved_files : list string) (fs : filesystem) :
  forallb (saved_file_valid (create_backup_effect fs)) saved_files = true ->
  finish_save data_dir sound_write create_backup_effect saved_files fs
  = (Return true,
     <[path_join data_dir "save_operations.log" := file_of LogEntry]>
       (<[path_join data_dir "file_validation.log" := file_of LogEntry]>
          (create_backup_effect fs)),
     [BackupVersionsCreated; SavedFilesValidated saved_files true; SaveLogged]).
Proof.
  intros Hvalid.
  cbv beta iota zeta delta
    [finish_save io_bind create_backup_versions io_return validate_saved_files
     log_successful_save append_log io_try os_call io_ret emit sound_write].
  rewrite Hvalid. reflexivity.
Qed.

Variable df : DataFrame.

Hypothesis Hrows : df_empty df = false.
Hypothesis Hcolumns :
  forall col, In col json_metadata_columns -> col ∈ df_columns df.
Hypothesis Hbackup :
  forall fs p,
    In p [csv_p; json_p; latest_csv_p] ->
    create_backup_effect fs !! p = fs !! p.

Lemma sound_build_json (fs : filesystem) :
  build_json_data df fs = (Normal (JsonOf df (df_rows df)), fs, []).
Proof.
  unfold build_json_data.
  assert (H : forallb (fun col => bool_decide (col ∈ df_columns df))
                json_metadata_columns = true).
  { apply List.forallb_forall. intros col Hcol.
    apply bool_decide_eq_true_2. apply Hcolumns. exact Hcol. }
  rewrite H. reflexivity.
Qed.

Abbreviation written fs0 := (stored_data_files data_dir timestamp df fs0).

Lemma csv_is_not_json (p q : string) :
  Str.endswith p ".csv" = true -> Str.endswith q ".csv" = false -> p <> q.
Proof. intros Hp Hq ->. congruence. Qed.

Lemma written_csv (fs0 : filesystem) (p : string) :
  p = csv_p \/ p = latest_csv_p ->
  written fs0 !! p = Some (file_of (CsvOf df)).
Proof.
  intros Hp.
  assert (Hcsv : Str.endswith p ".csv" = true).
  { destruct Hp as [-> | ->];
      [apply csv_path_is_csv|apply latest_csv_path_is_csv]. }
  unfold stored_data_files.
  rewrite lookup_insert_ne
    by (apply not_eq_sym, (csv_is_not_json p _ Hcsv),
          latest_json_path_is_json).
  rewrite lookup_insert_ne
    by (apply not_eq_sym, (csv_is_not_json p _ Hcsv), json_path_is_json).
  destruct (decide (p = latest_csv_p)) as [->|Hne].
  - apply lookup_insert_eq.
  - rewrite lookup_insert_ne by (apply not_eq_sym; exact Hne).
    destruct Hp as [-> | ->]; [apply lookup_insert_eq|contradiction].
Qed.

Lemma written_json (fs0 : filesystem) :
  written fs0 !! json_p = Some (file_of (JsonOf df (df_rows df))).
Proof.
  unfold stored_data_files. destruct (decide (json_p = latest_json_p)) as [Heq|Hne].
  - rewrite Heq. apply lookup_insert_eq.
  - rewrite lookup_insert_ne by (apply not_eq_sym; exact Hne).
    apply lookup_insert_eq.
Qed.

Lemma written_files_valid (fs0 : filesystem) :
  forallb (saved_file_valid (create_backup_effect (written fs0)))
    [csv_p; json_p] = true.
Proof.
  simpl. rewrite andb_true_r. apply andb_true_iff. split.
  - pose proof (check_stored_csv ∅ csv_p df (csv_path_is_csv _ _) Hrows)
      as [_ H].
    unfold saved_file_valid in *. rewrite lookup_insert_eq in H.
    rewrite Hbackup by (simpl; auto).
    rewrite written_csv by auto. exact H.
  - destruct (json_path_is_json data_dir timestamp) as [Hj Hc].
    pose proof (check_stored_json ∅ json_p df (df_rows df) Hc Hj) as [_ H].
    unfold saved_file_valid in *. rewrite lookup_insert_eq in H.
    rewrite Hbackup by (simpl; auto).
    rewrite written_json. exact H.
Qed.

Lemma sound_main (fs0 : filesystem) :
  io_call (save_data_main data_dir timestamp sound_write create_backup_effect
             df "both") fs0
  = (true,
     <[path_join data_dir "save_operations.log" := file_of LogEntry]>
       (<[path_join data_dir "file_validation.log" := file_of LogEntry]>
          (create_backup_effect (written fs0))),
     [Saved csv_p; IntegrityChecked csv_p true;
      Saved latest_csv_p; IntegrityChecked latest_csv_p true;
      Saved json_p; IntegrityChecked json_p true;
      Saved latest_json_p; IntegrityChecked latest_json_p true;
      BackupVersionsCreated; SavedFilesValidated [csv_p; json_p] true;
      SaveLogged]).
Proof.
  unfold save_data_main.
  change (format_in "both" ["csv"; "both"]) with true.
  change (format_in "both" ["json"; "both"]) with true.
  cbv beta iota zeta delta [io_call io_try io_bind].
  rewrite (sound_block csv_p latest_csv_p (io_ret (CsvOf df)) (CsvOf df) [] fs0).
  2:{ reflexivity. }
  2:{ apply check_stored_csv; [apply csv_path_is_csv|exact Hrows]. }
  2:{ apply check_stored_csv; [apply latest_csv_path_is_csv|exact Hrows]. }
  rewrite (sound_block json_p latest_json_p (build_json_data df)
             (JsonOf df (df_rows df))).
  2:{ apply sound_build_json. }
  2:{ apply check_stored_json; apply json_path_is_json. }
  2:{ apply check_stored_json; apply latest_json_path_is_json. }
  fold (stored_data_files data_dir timestamp df fs0).
  rewrite (sound_finish (([] ++ [csv_p]) ++ [json_p]) (written fs0))
    by apply written_files_valid.
  reflexivity.
Qed.

End SoundFilesystem.

Section SoundSave.

Variable data_dir : string.
Variable timestamp : string.
Variable create_backup_effect : filesystem -> filesystem.
Variable df : DataFrame.

Hypothesis Hrows : df_empty df = false.
Hypothesis Hcolumns :
  forall col, In col json_metadata_columns -> col ∈ df_columns df.
Hypothesis Hbackup :
  forall fs p,
    In p [csv_path data_dir timestamp; json_path data_dir timestamp;
          latest_csv_path data_dir] ->
    create_backup_effect fs !! p = fs !! p.

Lemma log_path_is_not_json (name : string) :
  name = "file_validation.log" \/ name = "save_operations.log" ->
  Str.endswith (path_join data_dir name) ".json" = false.
Proof. intros [-> | ->]; apply path_not_endswith; discriminate. Qed.

Lemma sound_save (fs : filesystem) :
  exists fs0,
    save_data data_dir timestamp sound_write plain_remove plain_makedirs
      create_backup_effect df "both" fs
    = (true,
       <[path_join data_dir "save_operations.log" := file_of LogEntry]>
         (<[path_join data_dir "file_validation.log" := file_of LogEntry]>
            (create_backup_effect
               (stored_data_files data_dir timestamp df fs0))),
       [Saved (csv_path data_dir timestamp);
        IntegrityChecked (csv_path data_dir timestamp) true;
        Saved (latest_csv_path data_dir);
        IntegrityChecked (latest_csv_path data_dir) true;
        Saved (json_path data_dir timestamp);
        IntegrityChecked (json_path data_dir timestamp) true;
        Saved (latest_json_path data_dir);
        IntegrityChecked (latest_json_path data_dir) true;
        BackupVersionsCreated;
        SavedFilesValidated
          [csv_path data_dir timestamp; json_path data_dir timestamp] true;
        SaveLogged]).
Proof.
  destruct (sound_storage_check data_dir fs) as (fs0 & Hstorage).
  exists fs0.
  rewrite (save_data_after_storage _ _ _ _ _ _ df "both" fs fs0 Hrows Hstorage).
  apply sound_main; assumption.
Qed.

Lemma after_logs (fs : filesystem) (p : string) :
  Str.endswith p ".csv" = true \/ Str.endswith p ".json" = true ->
  (<[path_join data_dir "save_operations.log" := file_of LogEntry]>
     (<[path_join data_dir "file_validation.log" := file_of LogEntry]> fs))
    !! p = fs !! p.
Proof.
  intros Hp.
  assert (Hne : forall name,
             name = "file_validation.log" \/ name = "save_operations.log" ->
             path_join data_dir name <> p).
  { intros name Hname Heq. rewrite <- Heq in Hp. destruct Hp as [Hp|Hp].
    - rewrite log_path_is_not_csv in Hp by exact Hname. discriminate.
    - rewrite log_path_is_not_json in Hp by exact Hname. discriminate. }
  rewrite !lookup_insert_ne by (apply Hne; auto). reflexivity.
Qed.

End SoundSave.

(** X18.  [check_file_integrity] passes a path exactly when a file is
    stored there, the file is not empty, and: for a name ending in .csv,
    the file reads as a table with at least one row; for a name ending in
    .json, it parses to a non-empty dict whose "records" entry, if there is
    one, has a length.  A file with any other name only has to exist and
    be non-empty. *)
Theorem integrity_check_characterised (fs : filesystem) (file_path : string) :
  check_file_integrity fs file_path = true <->
  exists f,
    fs !! file_path = Some f /\ file_size f <> 0%nat /\
    (Str.endswith file_path ".csv" = true ->
       exists df, read_csv f = Py.Ret df /\ df_empty df = false) /\
    (Str.endswith file_path ".csv" = false ->
     Str.endswith file_path ".json" = true ->
       exists d n,
         json_load f = Py.Ret (Py.Dict d) /\ d <> ∅ /\
         Py.len (default (Py.List []) (d !! "records")) = Py.Ret n).
Proof.
  unfold check_file_integrity. split.
  - destruct (fs !! file_path) as [f|]; [|discriminate].
    destruct (file_size f =? 0)%nat eqn:Hsize; [discriminate|].
    apply Nat.eqb_neq in Hsize. intros H. exists f.
    split; [reflexivity|]. split; [exact Hsize|].
    destruct (Str.endswith file_path ".csv").
    + split; [|discriminate]. intros _.
      destruct (read_csv f) as [df|e]; [|discriminate]. simpl in H.
      exists df. split; [reflexivity|]. apply negb_true_iff. exact H.
    + split; [discriminate|]. intros _ Hjson. rewrite Hjson in H.
      destruct (json_load f) as [data|e]; [|discriminate].
      cbn [Py.bind] in H.
      destruct (Py.truthy data) eqn:Ht; [|discriminate]. cbn [negb] in H.
      unfold records_length in H.
      destruct data; try discriminate.
      cbn [Py.as_dict Py.bind] in H.
      destruct (Py.len _) as [n|e] eqn:Hlen; [|discriminate].
      eexists _, n. split; [reflexivity|]. split; [|exact Hlen].
      simpl in Ht. apply negb_true_iff, bool_decide_eq_false in Ht. exact Ht.
  - intros (f & -> & Hsize & Hcsv & Hjson).
    apply Nat.eqb_neq in Hsize. rewrite Hsize.
    destruct (Str.endswith file_path ".csv").
    + destruct Hcsv as (df & -> & Hne); [reflexivity|]. simpl. rewrite Hne.
      reflexivity.
    + destruct (Str.endswith file_path ".json"); [|reflexivity].
      destruct Hjson as (d & n & -> & Hd & Hlen); try reflexivity.
      cbn [Py.bind Py.truthy].
      rewrite bool_decide_eq_false_2 by exact Hd. cbn [negb].
      unfold records_length. cbn [Py.as_dict Py.bind]. rewrite Hlen.
      reflexivity.
Qed.

(** X19.  On an operating system that stores what it is given, with a
    backup step that leaves the data files alone, saving a non-empty
    table that has all the metadata columns with format "both" succeeds,
    and afterwards the timestamped and the latest CSV name both hold the
    table's CSV file and the timestamped and the latest JSON name both
    hold its JSON document: no later step of the save overwrites them. *)
Theorem save_on_sound_storage
    (data_dir timestamp : string)
    (create_backup_effect : filesystem -> filesystem)
    (df : DataFrame) (fs : filesystem) :
  df_empty df = false ->
  (forall col, In col json_metadata_columns -> col ∈ df_columns df) ->
  (forall fs0 p,
      In p [csv_path data_dir timestamp; json_path data_dir timestamp;
            latest_csv_path data_dir; latest_json_path data_dir] ->
      create_backup_effect fs0 !! p = fs0 !! p) ->
  let '(ok, fs', _) :=
    save_data data_dir timestamp sound_write plain_remove plain_makedirs
      create_backup_effect df "both" fs in
  ok = true /\
  fs' !! csv_path data_dir timestamp = Some (file_of (CsvOf df)) /\
  fs' !! latest_csv_path data_dir = Some (file_of (CsvOf df)) /\
  fs' !! json_path data_dir timestamp
  = Some (file_of (JsonOf df (df_rows df))) /\
  fs' !! latest_json_path data_dir
  = Some (file_of (JsonOf df (df_rows df))).
Proof.
  intros Hrows Hcolumns Hbackup.
  destruct (sound_save data_dir timestamp create_backup_effect df Hrows
              Hcolumns) with (fs := fs) as (fs0 & ->).
  { intros fs1 p Hp. apply Hbackup. simpl in *. tauto. }
  split; [reflexivity|].
  pose proof (json_path_is_json data_dir timestamp) as [Hj _].
  pose proof (latest_json_path_is_json data_dir) as [Hlj Hljc].
  rewrite !after_logs
    by (first [left; apply csv_path_is_csv
              |left; apply latest_csv_path_is_csv
              |right; assumption]).
  rewrite !Hbackup by (simpl; tauto).
  repeat split.
  - apply written_csv. left. reflexivity.
  - apply written_csv. right. reflexivity.
  - apply written_json.
  - unfold stored_data_files. apply lookup_insert_eq.
Qed.

Lemma save_on_sound_storage_witness :
  let '(ok, fs', _) :=
    save_data "data" "20240101_000000" sound_write plain_remove plain_makedirs
      (fun fs => fs) one_row_table "both" ∅ in
  ok = true /\
  fs' !! csv_path "data" "20240101_000000"
  = Some (file_of (CsvOf one_row_table)) /\
  fs' !! latest_csv_path "data" = Some (file_of (CsvOf one_row_table)) /\
  fs' !! json_path "data" "20240101_000000"
  = Some (file_of (JsonOf one_row_table (df_rows one_row_table))) /\
  fs' !! latest_json_path "data"
  = Some (file_of (JsonOf one_row_table (df_rows one_row_table))).
Proof.
  apply (save_on_sound_storage "data" "20240101_000000" (fun fs => fs)
           one_row_table ∅).
  - reflexivity.
  - intros col Hcol.
    change (col ∈ required_columns ++ json_metadata_columns).
    apply elem_of_app. right. apply list_elem_of_In. exact Hcol.
  - intros fs0 p _. reflexivity.
Defined.

(** ** Record extraction *)

Section Placeholders.

Lemma strip_no_whitespace (s : string) :
  no_whitespace s = true -> Str.strip s = s.
Proof.
  intros H. unfold Str.strip.
  assert (Hl : Str.lstrip s = s).
  { destruct s as [|c s]; [reflexivity|]. simpl in *.
    apply andb_true_iff in H as [H _]. apply negb_true_iff in H.
    rewrite H. reflexivity. }
  rewrite Hl. clear Hl. induction s as [|c s IH]; [reflexivity|].
  simpl in *. apply andb_true_iff in H as [Hc Hs]. apply negb_true_iff in Hc.
  rewrite Hc, (IH Hs). reflexivity.
Qed.

Lemma pretty_N_char_no_whitespace (x : N) :
  Str.is_whitespace (pretty_N_char x) = false.
Proof. unfold pretty_N_char. repeat case_match; reflexivity. Qed.

Lemma pretty_N_go_no_whitespace (x : N) (s : string) :
  no_whitespace s = true -> no_whitespace (pretty_N_go x s) = true.
Proof.
  revert s. induction (N.lt_wf_0 x) as [x _ IH]. intros s Hs.
  assert (x = 0 \/ 0 < x)%N as [->|Hpos] by lia.
  - rewrite pretty_N_go_0. exact Hs.
  - rewrite pretty_N_go_step by exact Hpos. apply IH.
    + apply N.div_lt; lia.
    + simpl. rewrite pretty_N_char_no_whitespace, Hs. reflexivity.
Qed.

Lemma unknown_id_shape (i : nat) :
  exists digits,
    unknown_id i = "UNKNOWN_ID_" +:+ digits /\ no_whitespace digits = true.
Proof.
  exists (pretty (i + 1)%nat). split; [reflexivity|].
  unfold pretty, pretty_nat, pretty, pretty_N.
  destruct (decide _); [reflexivity|].
  apply pretty_N_go_no_whitespace. reflexivity.
Qed.

Lemma unknown_id_not_empty (i : nat) : String.eqb (unknown_id i) "" = false.
Proof. destruct (unknown_id_shape i) as (digits & -> & _). reflexivity. Qed.

Lemma unknown_id_strip (i : nat) : Str.strip (unknown_id i) = unknown_id i.
Proof.
  apply strip_no_whitespace.
  destruct (unknown_id_shape i) as (digits & -> & Hd).
  rewrite !app_cons, app_empty_l. simpl. exact Hd.
Qed.

End Placeholders.

Section RecordLoopFacts.

Variable repr : Py.value -> string.
Variable now_isoformat : nat -> Py.result string.

Abbreviation stored_value' := (stored_value repr).
Abbreviation assigned' := (assigned repr).
Abbreviation built_record' := (built_record repr now_isoformat).

Lemma safe_extract_value (item : gmap string Py.value) (errs : tally)
    (field_name : string) (fallback : Py.value) (ty : convert_type) :
  exists errs',
    safe_extract repr item errs field_name fallback ty
    = (Py.Ret (Py.try_except
                 (safe_extract_body repr item field_name fallback ty)
                 (fun _ => fallback)), errs').
Proof.
  unfold safe_extract.
  destruct (safe_extract_body repr item field_name fallback ty); simpl; eauto.
Qed.

Lemma run_assignments_result (item : gmap string Py.value)
    (assignments : list assignment) :
  forall record errs,
  exists errs',
    run_assignments repr item assignments record errs
    = (Py.Ret (assigned' item assignments record), errs').
Proof.
  induction assignments as [|a rest IH]; intros record errs.
  - simpl. eauto.
  - cbn [run_assignments].
    destruct (safe_extract_value item errs (raw_field a) (fallback_value a)
                (convert a)) as [errs' ->].
    apply IH.
Qed.

Lemma assigned_is_Some (item : gmap string Py.value)
    (assignments : list assignment) :
  forall (record : gmap string Py.value) (col : string),
    is_Some (assigned' item assignments record !! col) <->
    is_Some (record !! col) \/ col ∈ map column assignments.
Proof.
  induction assignments as [|a rest IH]; intros record col.
  - simpl. rewrite elem_of_nil. tauto.
  - change (assigned' item (a :: rest) record)
      with (assigned' item rest (<[column a := stored_value' item a]> record)).
    cbn [map].
    rewrite IH, elem_of_cons, lookup_insert_is_Some.
    destruct (decide (column a = col)); intuition congruence.
Qed.

Lemma assigned_lookup (item : gmap string Py.value)
    (assignments : list assignment) (a : assignment) :
  NoDup (map column assignments) ->
  a ∈ assignments ->
  forall record : gmap string Py.value,
    assigned' item assignments record !! column a = Some (stored_value' item a).
Proof.
  induction assignments as [|b rest IH]; intros Hnodup Hin record.
  - apply elem_of_nil in Hin. destruct Hin.
  - cbn [map] in Hnodup. apply NoDup_cons in Hnodup as [Hfresh Hnodup].
    apply elem_of_cons in Hin as [->|Hin].
    + change (assigned' item (b :: rest) record)
        with (assigned' item rest (<[column b := stored_value' item b]> record)).
      clear IH.
      assert (Hkeep : forall l (r : gmap string Py.value),
                 column b ∉ map column l ->
                 r !! column b = Some (stored_value' item b) ->
                 assigned' item l r !! column b = Some (stored_value' item b)).
      { induction l as [|c l IHl]; intros r Hc Hr; [exact Hr|].
        cbn [map] in Hc. apply not_elem_of_cons in Hc as [Hne Hc].
        change (assigned' item (c :: l) r)
          with (assigned' item l (<[column c := stored_value' item c]> r)).
        apply IHl; [exact Hc|].
        rewrite lookup_insert_ne by congruence. exact Hr. }
      apply Hkeep; [exact Hfresh|apply lookup_insert_eq].
    + change (assigned' item (b :: rest) record)
        with (assigned' item rest (<[column b := stored_value' item b]> record)).
      apply IH; assumption.
Qed.

Lemma useful_columns_names (i : nat) :
  map column (useful_columns i) = map column (useful_columns 0).
Proof. reflexivity. Qed.

Lemma useful_columns_NoDup (i : nat) : NoDup (map column (useful_columns i)).
Proof.
  rewrite useful_columns_names.
  apply (bool_decide_unpack _). vm_compute. exact I.
Qed.

Lemma built_record_columns (i : nat) (item : gmap string Py.value)
    (col : string) :
  is_Some (built_record' i item !! col) <-> col ∈ record_columns.
Proof.
  unfold built_record.
  rewrite lookup_insert_is_Some, assigned_is_Some.
  unfold record_columns.
  rewrite elem_of_app, list_elem_of_singleton, lookup_empty, is_Some_alt.
  rewrite useful_columns_names.
  destruct (decide ("fetched_at" = col)); intuition congruence.
Qed.

Lemma built_record_lookup (i : nat) (item : gmap string Py.value)
    (a : assignment) :
  a ∈ useful_columns i ->
  built_record' i item !! column a = Some (stored_value' item a).
Proof.
  intros Hin.
  assert (Hne : "fetched_at" <> column a).
  { intros Heq.
    assert (Hc : column a ∈ map column (useful_columns i))
      by (apply list_elem_of_In, List.in_map, list_elem_of_In; exact Hin).
    rewrite useful_columns_names, <- Heq in Hc.
    revert Hc. apply (bool_decide_eq_false_1 _). vm_compute. reflexivity. }
  unfold built_record. rewrite lookup_insert_ne by exact Hne.
  apply assigned_lookup; [apply useful_columns_NoDup|exact Hin].
Qed.

(** What one iteration does. *)
Lemma process_item_cases (i : nat) (item : Py.value) (st : extraction_state) :
  (exists d errs,
      item = Py.Dict d /\
      has_essential i (built_record' i d) = true /\
      process_item repr now_isoformat i item st
      = ExtractionState (records st ++ [built_record' i d])
          (S (processed_count st)) (error_count st) errs) \/
  (exists errs,
      (forall d, item = Py.Dict d ->
                 has_essential i (built_record' i d) = false) /\
      process_item repr now_isoformat i item st = count_error st errs).
Proof.
  destruct item as [| | | | | |d];
    try (right; exists (field_errors_of st); split;
         [intros d' Hd; discriminate|reflexivity]).
  unfold process_item.
  destruct (run_assignments_result d (useful_columns i) ∅ (field_errors_of st))
    as [errs ->].
  change (<["fetched_at" := fetched_at_value now_isoformat i]>
            (assigned' d (useful_columns i) ∅))
    with (built_record' i d).
  destruct (has_essential i (built_record' i d)) eqn:He.
  - left. exists d, errs. split; [reflexivity|]. split; [exact He|reflexivity].
  - right. exists errs. split; [|reflexivity].
    intros d' [= <-]. exact He.
Qed.

(** What the loop does from any state. *)
Lemma process_items_spec (results : list Py.value) :
  forall i st,
    let st' := process_items repr now_isoformat i results st in
    (processed_count st' + error_count st'
     = processed_count st + error_count st + length results)%nat /\
    exists kept,
      records st' = records st ++ kept /\
      processed_count st' = (processed_count st + length kept)%nat /\
      (forall record,
          record ∈ kept <->
          exists j d,
            results !! j = Some (Py.Dict d) /\
            record = built_record' (i + j) d /\
            has_essential (i + j) record = true).
Proof.
  induction results as [|item rest IH]; intros i st; cbv zeta.
  - cbn [process_items length]. split; [lia|]. exists []. rewrite app_nil_r.
    split; [reflexivity|]. split; [cbn [length]; lia|].
    intros record. split.
    + intros H. apply elem_of_nil in H. destruct H.
    + intros (j & d & H & _). rewrite lookup_nil in H. discriminate.
  - cbn [process_items length].
    specialize (IH (S i) (process_item repr now_isoformat i item st)).
    cbv zeta in IH. destruct IH as (Hcount & kept & Hrec & Hproc & Hkept).
    destruct (process_item_cases i item st)
      as [(d & errs & -> & He & Hstep)|(errs & Hdrop & Hstep)];
      rewrite Hstep in Hcount, Hrec, Hproc |- *;
      cbn [records processed_count error_count count_error] in Hcount, Hrec, Hproc.
    + split; [lia|]. exists (built_record' i d :: kept).
      split; [rewrite Hrec, <- app_assoc; reflexivity|].
      split; [cbn [length]; lia|].
      intros record. rewrite elem_of_cons, Hkept. split.
      * intros [->|(j & d' & Hj & -> & Hej)].
        -- exists 0%nat, d. rewrite Nat.add_0_r.
           split; [reflexivity|]. split; [reflexivity|exact He].
        -- exists (S j), d'. rewrite Nat.add_succ_r.
           split; [exact Hj|]. split; [reflexivity|exact Hej].
      * intros (j & d' & Hj & -> & Hej). destruct j as [|j].
        -- left. injection Hj as <-. rewrite Nat.add_0_r. reflexivity.
        -- right. exists j, d'. rewrite Nat.add_succ_r in Hej |- *.
           split; [exact Hj|]. split; [reflexivity|exact Hej].
    + split; [lia|]. exists kept.
      split; [exact Hrec|]. split; [exact Hproc|].
      intros record. rewrite Hkept. split.
      * intros (j & d' & Hj & -> & Hej).
        exists (S j), d'. rewrite Nat.add_succ_r.
        split; [exact Hj|]. split; [reflexivity|exact Hej].
      * intros (j & d' & Hj & -> & Hej). destruct j as [|j].
        -- injection Hj as Hitem. rewrite Nat.add_0_r in Hej.
           rewrite (Hdrop d' Hitem) in Hej. discriminate.
        -- exists j, d'. rewrite Nat.add_succ_r in Hej |- *.
           split; [exact Hj|]. split; [reflexivity|exact Hej].
Qed.

Lemma extract_records_spec (results : list Py.value) :
  let st := extract_records repr now_isoformat results in
  (processed_count st + error_count st = length results)%nat /\
  length (records st) = processed_count st /\
  (forall record,
      record ∈ records st <->
      exists j d,
        results !! j = Some (Py.Dict d) /\
        record = built_record' j d /\
        has_essential j record = true).
Proof.
  cbv zeta. unfold extract_records.
  destruct (process_items_spec results 0 (ExtractionState [] 0 0 ∅))
    as (Hcount & kept & Hrec & Hproc & Hkept).
  cbn [records processed_count error_count] in Hcount, Hrec, Hproc.
  rewrite Hrec, Hproc. cbn [app Nat.add] in *.
  split; [lia|]. split; [reflexivity|]. exact Hkept.
Qed.

End RecordLoopFacts.

Section Essentials.

Variable repr : Py.value -> string.
Variable now_isoformat : nat -> Py.result string.

(** What a string column holds, by what the raw record has. *)
Lemma stored_string (item : gmap string Py.value) (col field fb : string) :
  stored_value repr item (Assign col field (Py.Str fb) CStr)
  = match item !! field with
    | Some v =>
        if is_none v || Py.eq_str v "" then Py.Str fb
        else Py.Str (Str.strip (str repr v))
    | None => Py.Str (if String.eqb fb "" then fb else Str.strip fb)
    end.
Proof.
  unfold stored_value, safe_extract_body, dict_get.
  cbn [raw_field fallback_value convert].
  destruct (item !! field) as [v|]; cbn [default from_option id].
  - destruct (is_none v || Py.eq_str v "") eqn:E; [reflexivity|].
    apply orb_false_iff in E as [_ E]. rewrite E. reflexivity.
  - cbn [is_none Py.eq_str orb].
    destruct (String.eqb fb ""); reflexivity.
Qed.

(** What a float column holds is a float. *)
Lemma stored_float (item : gmap string Py.value) (col field : string)
    (fb : Py.float) :
  exists f,
    stored_value repr item (Assign col field (Py.Float fb) CFloat) = Py.Float f.
Proof.
  unfold stored_value, safe_extract_body.
  cbn [raw_field fallback_value convert].
  destruct (is_none _ || Py.eq_str _ ""); [simpl; eauto|].
  destruct (negb (is_null_like _)); [|simpl; eauto].
  destruct (Conv.float _); simpl; eauto.
Qed.

Lemma essential_present_string (i : nat) (record : gmap string Py.value)
    (field s : string) :
  record !! field = Some (Py.Str s) ->
  essential_present i record field = true ->
  s <> "" /\ s <> unknown_id i /\ s <> "Unknown Recipient".
Proof.
  intros Hs. unfold essential_present. rewrite Hs.
  cbn [default from_option id Py.truthy Py.eq_str is_none].
  intros H. apply andb_true_iff in H as [_ H]. apply negb_true_iff in H.
  apply orb_false_iff in H as [H _].
  apply orb_false_iff in H as [H Hempty].
  apply orb_false_iff in H as [Hid Hname].
  apply String.eqb_neq in Hempty, Hid, Hname. auto.
Qed.

Lemma identity_assignments (i : nat) :
  Assign "award_id" "Award ID" (Py.Str (unknown_id i)) CStr ∈ useful_columns i /\
  Assign "recipient_name" "Recipient Name" (Py.Str "Unknown Recipient") CStr
    ∈ useful_columns i.
Proof.
  unfold useful_columns. split.
  - do 5 apply list_elem_of_further. apply list_elem_of_here.
  - do 6 apply list_elem_of_further. apply list_elem_of_here.
Qed.

(** A record that passes [has_essential] took both identity fields from
    the raw record. *)
Lemma essential_record (i : nat) (d : gmap string Py.value) :
  has_essential i (built_record repr now_isoformat i d) = true ->
  exists v_id v_name,
    d !! "Award ID" = Some v_id /\ d !! "Recipient Name" = Some v_name /\
    built_record repr now_isoformat i d !! "award_id"
    = Some (Py.Str (Str.strip (str repr v_id))) /\
    built_record repr now_isoformat i d !! "recipient_name"
    = Some (Py.Str (Str.strip (str repr v_name))) /\
    Str.strip (str repr v_id) <> "" /\
    Str.strip (str repr v_name) <> "" /\
    Str.strip (str repr v_id) <> unknown_id i /\
    Str.strip (str repr v_name) <> "Unknown Recipient".
Proof.
  intros He. unfold has_essential, essential_fields in He.
  cbn [forallb] in He. rewrite andb_true_r in He.
  apply andb_true_iff in He as [Hid Hname].
  destruct (identity_assignments i) as [Ha Hb].
  pose proof (built_record_lookup repr now_isoformat i d _ Ha) as Hid_at.
  pose proof (built_record_lookup repr now_isoformat i d _ Hb) as Hname_at.
  cbn [column] in Hid_at, Hname_at.
  rewrite stored_string in Hid_at, Hname_at.
  destruct (d !! "Award ID") as [v_id|].
  2:{ rewrite unknown_id_not_empty, unknown_id_strip in Hid_at.
      destruct (essential_present_string i _ _ _ Hid_at Hid) as (_ & H & _).
      contradiction. }
  destruct (is_none v_id || Py.eq_str v_id "").
  { destruct (essential_present_string i _ _ _ Hid_at Hid) as (_ & H & _).
    contradiction. }
  destruct (d !! "Recipient Name") as [v_name|].
  2:{ destruct (essential_present_string i _ _ _ Hname_at Hname)
        as (_ & _ & H).
      exfalso. apply H. reflexivity. }
  destruct (is_none v_name || Py.eq_str v_name "").
  { destruct (essential_present_string i _ _ _ Hname_at Hname) as (_ & _ & H).
    contradiction. }
  exists v_id, v_name.
  destruct (essential_present_string i _ _ _ Hid_at Hid) as (H1 & H2 & _).
  destruct (essential_present_string i _ _ _ Hname_at Hname) as (H3 & _ & H4).
  auto 10.
Qed.

(** Every assignment fills a financial column with a float or another
    column with a string. *)
Lemma assignment_kinds (i : nat) (a : assignment) :
  a ∈ useful_columns i ->
  (column a ∈ financial_columns /\
   exists fb, a = Assign (column a) (raw_field a) (Py.Float fb) CFloat) \/
  ((column a ∉ financial_columns) /\
   exists fb, a = Assign (column a) (raw_field a) (Py.Str fb) CStr).
Proof.
  unfold useful_columns. rewrite !elem_of_cons, elem_of_nil.
  intros H.
  repeat (destruct H as [->|H];
          [first [left; split;
                  [apply (bool_decide_unpack _); vm_compute; exact I
                  |eexists; reflexivity]
                 |right; split;
                  [apply (bool_decide_eq_false_1 _); vm_compute; reflexivity
                  |eexists; reflexivity]]|]).
  destruct H.
Qed.

Lemma built_record_typed (i : nat) (d : gmap string Py.value) (col : string) :
  col ∈ record_columns ->
  exists v,
    built_record repr now_isoformat i d !! col = Some v /\
    if bool_decide (col ∈ financial_columns)
    then exists f, v = Py.Float f
    else exists s, v = Py.Str s.
Proof.
  unfold record_columns. rewrite elem_of_app, list_elem_of_singleton.
  intros [Hcol| ->].
  - rewrite <- (useful_columns_names i) in Hcol.
    apply list_elem_of_In, List.in_map_iff in Hcol as (a & <- & Ha).
    apply list_elem_of_In in Ha.
    rewrite (built_record_lookup repr now_isoformat i d a Ha).
    eexists. split; [reflexivity|].
    destruct (assignment_kinds i a Ha) as [[Hfin [fb Heq]]|[Hfin [fb Heq]]].
    + rewrite bool_decide_eq_true_2 by exact Hfin.
      rewrite Heq. apply stored_float.
    + rewrite bool_decide_eq_false_2 by exact Hfin.
      rewrite Heq, stored_string.
      destruct (d !! raw_field a) as [v|]; [|eauto].
      destruct (is_none v || Py.eq_str v ""); eauto.
  - unfold built_record. rewrite lookup_insert_eq.
    eexists. split; [reflexivity|].
    rewrite bool_decide_eq_false_2
      by (apply (bool_decide_eq_false_1 _); vm_compute; reflexivity).
    unfold fetched_at_value.
    destruct (now_isoformat i); simpl; eauto.
Qed.

End Essentials.

(** X20.  The extraction loop of [process_to_dataframe] accounts for
    every raw record exactly once: the records it keeps and the records it
    counts as errors add up to the number of raw records, and
    [processed_count] is the number of records kept. *)
Theorem every_record_is_counted (repr : Py.value -> string)
    (now_isoformat : nat -> Py.result string) (results : list Py.value) :
  let st := extract_records repr now_isoformat results in
  (processed_count st + error_count st = length results)%nat /\
  length (records st) = processed_count st.
Proof.
  cbv zeta.
  destruct (extract_records_spec repr now_isoformat results) as (H1 & H2 & _).
  auto.
Qed.

(** X21.  Every record the extraction loop keeps has the same columns,
    the thirty extracted ones and [fetched_at], whatever keys the raw
    record had. *)
Theorem kept_records_share_one_schema (repr : Py.value -> string)
    (now_isoformat : nat -> Py.result string) (results : list Py.value)
    (record : gmap string Py.value) (col : string) :
  record ∈ records (extract_records repr now_isoformat results) ->
  is_Some (record !! col) <-> col ∈ record_columns.
Proof.
  intros Hin.
  apply (extract_records_spec repr now_isoformat results) in Hin
    as (j & d & _ & -> & _).
  apply built_record_columns.
Qed.

Lemma kept_records_share_one_schema_witness :
  let record :=
    built_record plain_repr (fun _ => Py.Ret "2024-01-01T00:00:00") 0
      sample_record in
  is_Some (record !! "psc_code") <-> "psc_code" ∈ record_columns.
Proof.
  cbv zeta.
  apply (kept_records_share_one_schema plain_repr
           (fun _ => Py.Ret "2024-01-01T00:00:00")
           [Py.Dict sample_record]).
  apply extract_records_spec. exists 0%nat, sample_record.
  split; [reflexivity|]. split; [reflexivity|]. vm_compute. reflexivity.
Defined.

(** X22.  In every record the extraction loop keeps, the five financial
    columns hold floats and every other column holds a string: a raw
    value that cannot be converted never reaches the table. *)
Theorem kept_records_are_typed (repr : Py.value -> string)
    (now_isoformat : nat -> Py.result string) (results : list Py.value)
    (record : gmap string Py.value) (col : string) :
  record ∈ records (extract_records repr now_isoformat results) ->
  col ∈ record_columns ->
  exists v,
    record !! col = Some v /\
    if bool_decide (col ∈ financial_columns)
    then exists f, v = Py.Float f
    else exists s, v = Py.Str s.
Proof.
  intros Hin Hcol.
  apply (extract_records_spec repr now_isoformat results) in Hin
    as (j & d & _ & -> & _).
  apply built_record_typed. exact Hcol.
Qed.

Lemma kept_records_are_typed_witness :
  exists v,
    built_record plain_repr (fun _ => Py.Ret "2024-01-01T00:00:00") 0
      sample_record !! "award_amount" = Some v /\
    if bool_decide ("award_amount" ∈ financial_columns)
    then exists f, v = Py.Float f
    else exists s, v = Py.Str s.
Proof.
  apply (kept_records_are_typed plain_repr
           (fun _ => Py.Ret "2024-01-01T00:00:00")
           [Py.Dict sample_record]).
  - apply extract_records_spec. exists 0%nat, sample_record.
    split; [reflexivity|]. split; [reflexivity|]. vm_compute. reflexivity.
  - apply (bool_decide_unpack _). vm_compute. exact I.
Defined.

(** X23.  A record is kept only if the raw record is a dict that has an
    "Award ID" and a "Recipient Name"; the kept record holds both as
    trimmed text, and neither is empty or a placeholder: the identifier
    is not the UNKNOWN_ID placeholder of its position and the name is not
    "Unknown Recipient". *)
Theorem kept_records_have_identity (repr : Py.value -> string)
    (now_isoformat : nat -> Py.result string) (results : list Py.value)
    (record : gmap string Py.value) :
  record ∈ records (extract_records repr now_isoformat results) ->
  exists j d v_id v_name,
    results !! j = Some (Py.Dict d) /\
    d !! "Award ID" = Some v_id /\ d !! "Recipient Name" = Some v_name /\
    record !! "award_id" = Some (Py.Str (Str.strip (str repr v_id))) /\
    record !! "recipient_name" = Some (Py.Str (Str.strip (str repr v_name))) /\
    Str.strip (str repr v_id) <> "" /\
    Str.strip (str repr v_name) <> "" /\
    Str.strip (str repr v_id) <> unknown_id j /\
    Str.strip (str repr v_name) <> "Unknown Recipient".
Proof.
  intros Hin.
  apply (extract_records_spec repr now_isoformat results) in Hin
    as (j & d & Hj & -> & He).
  destruct (essential_record repr now_isoformat j d He)
    as (v_id & v_name & H).
  exists j, d, v_id, v_name. split; [exact Hj|exact H].
Qed.

Lemma kept_records_have_identity_witness :
  let record :=
    built_record plain_repr (fun _ => Py.Ret "2024-01-01T00:00:00") 0
      sample_record in
  exists j d v_id v_name,
    [Py.Dict sample_record] !! j = Some (Py.Dict d) /\
    d !! "Award ID" = Some v_id /\ d !! "Recipient Name" = Some v_name /\
    record !! "award_id" = Some (Py.Str (Str.strip (str plain_repr v_id))) /\
    record !! "recipient_name"
    = Some (Py.Str (Str.strip (str plain_repr v_name))) /\
    Str.strip (str plain_repr v_id) <> "" /\
    Str.strip (str plain_repr v_name) <> "" /\
    Str.strip (str plain_repr v_id) <> unknown_id j /\
    Str.strip (str plain_repr v_name) <> "Unknown Recipient".
Proof.
  cbv zeta.
  apply (kept_records_have_identity plain_repr
           (fun _ => Py.Ret "2024-01-01T00:00:00")
           [Py.Dict sample_record]).
  apply extract_records_spec. exists 0%nat, sample_record.
  split; [reflexivity|]. split; [reflexivity|]. vm_compute. reflexivity.
Defined.

Section ErrorTally.

Variable repr : Py.value -> string.
Variable now_isoformat : nat -> Py.result string.

(** Extracting text never fails. *)
Lemma safe_extract_str_tally (item : gmap string Py.value) (errs : tally)
    (field_name : string) (fallback : Py.value) :
  snd (safe_extract repr item errs field_name fallback CStr) = errs.
Proof.
  unfold safe_extract, safe_extract_body.
  destruct (is_none _ || Py.eq_str _ ""); [reflexivity|].
  destruct (negb (Py.eq_str _ "")); reflexivity.
Qed.

Lemma safe_extract_tally (item : gmap string Py.value) (errs : tally)
    (field_name : string) (fallback : Py.value) (ty : convert_type) :
  snd (safe_extract repr item errs field_name fallback ty) = errs \/
  (ty <> CStr /\
   snd (safe_extract repr item errs field_name fallback ty)
   = record_error errs field_name).
Proof.
  destruct ty; [left; apply safe_extract_str_tally|..];
    unfold safe_extract;
    (destruct (safe_extract_body repr item field_name fallback _);
     [left; reflexivity|right; split; [discriminate|reflexivity]]).
Qed.

(** What the assignments of one record do to one entry of the tally. *)
Lemma run_assignments_tally (item : gmap string Py.value)
    (assignments : list assignment) :
  NoDup (map raw_field assignments) ->
  forall (record : gmap string Py.value) (errs : tally) (field : string),
    let errs' := snd (run_assignments repr item assignments record errs) in
    errs' !! field = errs !! field \/
    ((exists a, a ∈ assignments /\ raw_field a = field /\ convert a <> CStr) /\
     errs' !! field = Some (S (default 0%nat (errs !! field)))).
Proof.
  induction assignments as [|a rest IH]; intros Hnodup record errs field;
    cbv zeta.
  - left. reflexivity.
  - cbn [map] in Hnodup. apply NoDup_cons in Hnodup as [Hfresh Hnodup].
    cbn [run_assignments].
    destruct (safe_extract_value repr item errs (raw_field a)
                (fallback_value a) (convert a)) as [errs1 Hstep].
    pose proof (safe_extract_tally item errs (raw_field a) (fallback_value a)
                  (convert a)) as Htally.
    rewrite Hstep in Htally |- *. cbn [snd] in Htally.
    specialize (IH Hnodup (<[column a := Py.try_except
                               (safe_extract_body repr item (raw_field a)
                                  (fallback_value a) (convert a))
                               (fun _ => fallback_value a)]> record)
                  errs1 field).
    cbv zeta in IH.
    destruct Htally as [->|[Hty ->]].
    + destruct IH as [IH|[(b & Hb & Hfield & Hconv) IH]]; [left; exact IH|].
      right. split; [|exact IH].
      exists b. split; [apply list_elem_of_further; exact Hb|auto].
    + destruct (decide (raw_field a = field)) as [Heq|Hne].
      * destruct IH as [IH|[(b & Hb & Hfield & _) _]].
        -- right. split.
           ++ exists a. split; [apply list_elem_of_here|auto].
           ++ rewrite IH. subst field. apply lookup_insert_eq.
        -- exfalso. apply Hfresh. rewrite Heq, <- Hfield.
           apply list_elem_of_In, List.in_map, list_elem_of_In. exact Hb.
      * unfold record_error in IH.
        rewrite lookup_insert_ne in IH by exact Hne.
        destruct IH as [IH|[(b & Hb & Hfield & Hconv) IH]]; [left; exact IH|].
        right. split; [|exact IH].
        exists b. split; [apply list_elem_of_further; exact Hb|auto].
Qed.

Lemma raw_fields_NoDup (i : nat) : NoDup (map raw_field (useful_columns i)).
Proof.
  change (map raw_field (useful_columns i))
    with (map raw_field (useful_columns 0)).
  apply (bool_decide_unpack _). vm_compute. exact I.
Qed.

Lemma converted_fields (i : nat) (a : assignment) :
  a ∈ useful_columns i -> convert a <> CStr -> raw_field a ∈ amount_fields.
Proof.
  unfold useful_columns. rewrite !elem_of_cons, elem_of_nil.
  intros H Hconv.
  repeat (destruct H as [->|H];
          [first [apply (bool_decide_unpack _); vm_compute; exact I
                 |exfalso; apply Hconv; reflexivity]|]).
  destruct H.
Qed.

(** What one iteration does to one entry of the tally. *)
Lemma process_item_tally (i : nat) (item : Py.value) (st : extraction_state)
    (field : string) :
  let st' := process_item repr now_isoformat i item st in
  field_errors_of st' !! field = field_errors_of st !! field \/
  (field ∈ amount_fields /\
   field_errors_of st' !! field
   = Some (S (default 0%nat (field_errors_of st !! field)))).
Proof.
  cbv zeta.
  destruct item as [| | | | | |d]; try (left; reflexivity).
  pose proof (run_assignments_tally d (useful_columns i) (raw_fields_NoDup i)
                ∅ (field_errors_of st) field) as Htally.
  cbv zeta in Htally. unfold process_item.
  destruct (run_assignments repr d (useful_columns i) ∅ (field_errors_of st))
    as [[record|e] errs]; cbn [snd] in Htally.
  - assert (Hsame : forall st1 st2 : extraction_state,
               field_errors_of st1 = errs -> field_errors_of st2 = errs ->
               forall b : bool,
                 field_errors_of (if b then st1 else st2) = errs)
      by (intros st1 st2 H1 H2 []; assumption).
    rewrite Hsame by reflexivity.
    destruct Htally as [H|[(a & Ha & <- & Hconv) H]]; [left; exact H|].
    right. split; [|exact H]. apply (converted_fields i); assumption.
  - cbn [count_error field_errors_of].
    destruct Htally as [H|[(a & Ha & <- & Hconv) H]]; [left; exact H|].
    right. split; [|exact H]. apply (converted_fields i); assumption.
Qed.

Lemma process_items_tally (results : list Py.value) :
  forall (i : nat) (st : extraction_state) (k : nat),
    (forall field n,
        field_errors_of st !! field = Some n ->
        field ∈ amount_fields /\ (0 < n <= k)%nat) ->
    forall field n,
      field_errors_of (process_items repr now_isoformat i results st) !! field
      = Some n ->
      field ∈ amount_fields /\ (0 < n <= k + length results)%nat.
Proof.
  induction results as [|item rest IH]; intros i st k Hst field n Hn.
  - cbn [process_items length] in *. destruct (Hst field n Hn). split; [auto|lia].
  - cbn [process_items length] in *.
    apply (IH (S i) (process_item repr now_isoformat i item st) (S k)) in Hn.
    + destruct Hn. split; [auto|lia].
    + clear field n Hn. intros field n Hn.
      destruct (process_item_tally i item st field) as [H|[Hfield H]];
        rewrite H in Hn.
      * destruct (Hst field n Hn). split; [auto|lia].
      * injection Hn as <-. split; [exact Hfield|].
        destruct (field_errors_of st !! field) as [m|] eqn:Hm; simpl.
        -- destruct (Hst field m Hm). lia.
        -- lia.
Qed.

End ErrorTally.

(** X24.  The error tally of the extraction loop only ever names the
    five fields that are converted to numbers, and counts a field at most
    once per raw record: extracting text never fails, so a text field is
    never tallied. *)
Theorem only_amount_fields_are_tallied (repr : Py.value -> string)
    (now_isoformat : nat -> Py.result string) (results : list Py.value)
    (field : string) (n : nat) :
  field_errors_of (extract_records repr now_isoformat results) !! field
  = Some n ->
  field ∈ amount_fields /\ (0 < n <= length results)%nat.
Proof.
  intros Hn. unfold extract_records in Hn.
  apply (process_items_tally repr now_isoformat results 0
           (ExtractionState [] 0 0 ∅) 0) in Hn; [exact Hn|].
  intros f m Hm. cbn [field_errors_of] in Hm. rewrite lookup_empty in Hm.
  discriminate.
Qed.

Lemma only_amount_fields_are_tallied_witness :
  "Award Amount" ∈ amount_fields /\ (0 < 1 <= 1)%nat.
Proof.
  apply (only_amount_fields_are_tallied plain_repr
           (fun _ => Py.Ret "2024-01-01T00:00:00")
           [Py.Dict {[ "Award ID" := Py.Str "X1";
                       "Recipient Name" := Py.Str "Acme";
                       "Award Amount" := Py.Str "a lot" ]}]
           "Award Amount" 1).
  vm_compute. reflexivity.
Defined.

(** ** Backup rotation *)

Section BackupFacts.

Lemma insert_newest_perm (e : string * Q) (l : list (string * Q)) :
  Permutation (insert_newest e l) (e :: l).
Proof.
  induction l as [|x l IH]; simpl; [reflexivity|].
  destruct (Qle_bool (snd x) (snd e)); [reflexivity|].
  rewrite IH. apply perm_swap.
Qed.

Lemma sort_newest_first_perm (l : list (string * Q)) :
  Permutation (sort_newest_first l) l.
Proof.
  induction l as [|x l IH]; simpl; [reflexivity|].
  rewrite insert_newest_perm. apply perm_skip. exact IH.
Qed.

Lemma insert_newest_sorted (e : string * Q) (l : list (string * Q)) :
  newest_first l -> newest_first (insert_newest e l).
Proof.
  unfold newest_first. induction 1 as [|x l Hl IH Hx]; simpl.
  - repeat constructor.
  - destruct (Qle_bool (snd x) (snd e)) eqn:E.
    + apply Qle_bool_iff in E. constructor; [constructor; assumption|].
      constructor; [exact E|].
      eapply List.Forall_impl; [|exact Hx].
      intros y Hy. simpl in Hy. eapply Qle_trans; eassumption.
    + assert (Hlt : (snd e <= snd x)%Q).
      { destruct (Qlt_le_dec (snd e) (snd x)) as [H|H];
          [apply Qlt_le_weak; exact H|].
        apply Qle_bool_iff in H. congruence. }
      constructor; [exact IH|].
      eapply Permutation_Forall; [symmetry; apply insert_newest_perm|].
      constructor; assumption.
Qed.

Lemma sort_newest_first_sorted (l : list (string * Q)) :
  newest_first (sort_newest_first l).
Proof.
  induction l as [|x l IH]; simpl; [constructor|].
  apply insert_newest_sorted. exact IH.
Qed.

Lemma newest_first_split (l1 l2 : list (string * Q)) :
  newest_first (l1 ++ l2) ->
  forall k o, In k l1 -> In o l2 -> (snd o <= snd k)%Q.
Proof.
  unfold newest_first. induction l1 as [|x l1 IH]; intros Hs k o Hk Ho.
  - destruct Hk.
  - simpl in Hs. inversion Hs as [|? ? Hrest Hx]; subst.
    destruct Hk as [<-|Hk].
    + rewrite List.Forall_forall in Hx. apply Hx.
      apply List.in_or_app. right. exact Ho.
    + apply IH; assumption.
Qed.

Variable listdir : string -> Py.result (list string).
Variable getmtime : string -> Py.result Q.
Variable remove : string -> Py.result unit.

Lemma collect_backup_files_In (backup_dir : string) (filenames : list string) :
  forall backup_files,
    collect_backup_files getmtime backup_dir filenames = Py.Ret backup_files ->
    forall filename mtime,
      In (filename, mtime) backup_files <->
      In filename filenames /\
      Str.startswith filename "backup_" = true /\
      getmtime (path_join backup_dir filename) = Py.Ret mtime.
Proof.
  clear listdir remove.
  induction filenames as [|f rest IH]; intros backup_files Hc filename mtime.
  - injection Hc as <-. simpl. tauto.
  - cbn [collect_backup_files] in Hc.
    destruct (Str.startswith f "backup_") eqn:Hf.
    + destruct (getmtime (path_join backup_dir f)) as [t|e] eqn:Ht;
        [|discriminate].
      cbn [Py.bind] in Hc.
      destruct (collect_backup_files getmtime backup_dir rest) as [tail|e]
        eqn:Htail; [|discriminate].
      injection Hc as <-. specialize (IH tail eq_refl filename mtime).
      simpl. rewrite IH. split.
      * intros [[= <- <-]|(H1 & H2 & H3)]; auto.
      * intros ([<-|H1] & H2 & H3).
        -- left. rewrite Ht in H3. injection H3 as <-. reflexivity.
        -- right. auto.
    + specialize (IH backup_files Hc filename mtime). simpl. rewrite IH.
      split.
      * intros (H1 & H2 & H3). auto.
      * intros ([<-|H1] & H2 & H3); [congruence|auto].
Qed.

Lemma remove_files_In (backup_dir : string)
    (files_to_remove : list (string * Q)) (p : string) :
  In p (remove_files remove backup_dir files_to_remove) ->
  exists e, In e files_to_remove /\ p = path_join backup_dir (fst e).
Proof.
  clear listdir getmtime.
  induction files_to_remove as [|[filename mtime] rest IH]; simpl; [tauto|].
  destruct (remove (path_join backup_dir filename)); [|intros []].
  intros [<-|H].
  - exists (filename, mtime). auto.
  - destruct (IH H) as (e & He & ->). exists e. auto.
Qed.

Lemma remove_files_all (backup_dir : string)
    (files_to_remove : list (string * Q)) :
  (forall p, remove p = Py.Ret tt) ->
  remove_files remove backup_dir files_to_remove
  = map (fun e => path_join backup_dir (fst e)) files_to_remove.
Proof.
  clear listdir getmtime.
  intros Hok. induction files_to_remove as [|[filename mtime] rest IH];
    simpl; [reflexivity|].
  rewrite Hok, IH. reflexivity.
Qed.

(** What a run that removes something has done. *)
Lemma cleanup_old_backups_run (backup_dir : string) (keep_count : nat) :
  cleanup_old_backups listdir getmtime remove backup_dir keep_count <> [] ->
  exists filenames backup_files,
    listdir backup_dir = Py.Ret filenames /\
    collect_backup_files getmtime backup_dir filenames = Py.Ret backup_files /\
    (keep_count < length backup_files)%nat /\
    cleanup_old_backups listdir getmtime remove backup_dir keep_count
    = remove_files remove backup_dir
        (drop keep_count (sort_newest_first backup_files)).
Proof.
  unfold cleanup_old_backups.
  destruct (listdir backup_dir) as [filenames|e]; [|intros []; reflexivity].
  cbn [Py.bind].
  destruct (collect_backup_files getmtime backup_dir filenames)
    as [backup_files|e] eqn:Hc; [|intros []; reflexivity].
  cbn [Py.bind].
  destruct (keep_count <? length (sort_newest_first backup_files))%nat eqn:E;
    [|intros []; reflexivity].
  intros _. exists filenames, backup_files.
  apply Nat.ltb_lt in E.
  rewrite (Permutation_length (sort_newest_first_perm backup_files)) in E.
  split; [reflexivity|]. split; [exact Hc|]. split; [exact E|reflexivity].
Qed.

End BackupFacts.

(** X25.  [cleanup_old_backups] only removes files of the backup
    directory whose name starts with "backup_", and it removes a file
    only when [keep_count] other backup files that are at least as new
    stay: the backup files split into [keep_count] kept ones and the
    rest, no kept one is older than any of the rest, and every removed
    file is among the rest. *)
Theorem cleanup_keeps_the_newest
    (listdir : string -> Py.result (list string))
    (getmtime : string -> Py.result Q)
    (remove : string -> Py.result unit)
    (backup_dir : string) (keep_count : nat) (p : string) :
  In p (cleanup_old_backups listdir getmtime remove backup_dir keep_count) ->
  exists filenames backup_files kept old,
    listdir backup_dir = Py.Ret filenames /\
    collect_backup_files getmtime backup_dir filenames = Py.Ret backup_files /\
    Permutation (kept ++ old) backup_files /\
    length kept = keep_count /\
    (forall k o, In k kept -> In o old -> (snd o <= snd k)%Q) /\
    exists filename mtime,
      In (filename, mtime) old /\
      p = path_join backup_dir filename /\
      In filename filenames /\
      Str.startswith filename "backup_" = true.
Proof.
  intros Hp.
  destruct (cleanup_old_backups_run listdir getmtime remove backup_dir
              keep_count) as (filenames & backup_files & Hl & Hc & Hlen & Hrun).
  { intros H. rewrite H in Hp. destruct Hp. }
  rewrite Hrun in Hp.
  apply remove_files_In in Hp as ([filename mtime] & He & ->).
  set (sorted := sort_newest_first backup_files) in *.
  assert (Hperm : Permutation sorted backup_files)
    by apply sort_newest_first_perm.
  exists filenames, backup_files, (take keep_count sorted),
    (drop keep_count sorted).
  split; [exact Hl|]. split; [exact Hc|].
  split; [rewrite take_drop; exact Hperm|].
  split.
  { apply length_take_le. rewrite (Permutation_length Hperm). lia. }
  split.
  { apply newest_first_split. rewrite take_drop.
    apply sort_newest_first_sorted. }
  exists filename, mtime. split; [exact He|]. split; [reflexivity|].
  assert (Hin : In (filename, mtime) backup_files).
  { eapply Permutation_in; [exact Hperm|].
    rewrite <- (take_drop keep_count sorted).
    apply List.in_or_app. right. exact He. }
  apply (collect_backup_files_In getmtime backup_dir filenames backup_files Hc)
    in Hin as (H1 & H2 & _).
  auto.
Qed.

Lemma cleanup_keeps_the_newest_witness :
  let listdir := fun _ : string =>
    Py.Ret ["backup_1_a.csv"; "notes.txt"; "backup_2_a.csv"; "backup_3_a.csv"] in
  let getmtime := fun p : string =>
    Py.Ret (if String.eqb p "backups/backup_1_a.csv" then 1%Q
            else if String.eqb p "backups/backup_2_a.csv" then 2%Q else 3%Q) in
  exists filenames backup_files kept old,
    listdir "backups" = Py.Ret filenames /\
    collect_backup_files getmtime "backups" filenames = Py.Ret backup_files /\
    Permutation (kept ++ old) backup_files /\
    length kept = 2%nat /\
    (forall k o, In k kept -> In o old -> (snd o <= snd k)%Q) /\
    exists filename mtime,
      In (filename, mtime) old /\
      "backups/backup_1_a.csv" = path_join "backups" filename /\
      In filename filenames /\
      Str.startswith filename "backup_" = true.
Proof.
  cbv zeta.
  apply (cleanup_keeps_the_newest _ _ (fun _ => Py.Ret tt) "backups" 2
           "backups/backup_1_a.csv").
  vm_compute. left. reflexivity.
Defined.

(** X26.  When the directory can be listed, every backup file has a
    modification time and every removal succeeds, [cleanup_old_backups]
    removes all backup files but [keep_count]: as many as there are
    beyond [keep_count], and none when there are no more than that. *)
Theorem cleanup_leaves_keep_count
    (listdir : string -> Py.result (list string))
    (getmtime : string -> Py.result Q)
    (remove : string -> Py.result unit)
    (backup_dir : string) (keep_count : nat)
    (filenames : list string) (backup_files : list (string * Q)) :
  listdir backup_dir = Py.Ret filenames ->
  collect_backup_files getmtime backup_dir filenames = Py.Ret backup_files ->
  (forall p, remove p = Py.Ret tt) ->
  length (cleanup_old_backups listdir getmtime remove backup_dir keep_count)
  = (length backup_files - keep_count)%nat.
Proof.
  intros Hl Hc Hok. unfold cleanup_old_backups. rewrite Hl. cbn [Py.bind].
  rewrite Hc. cbn [Py.bind].
  pose proof (Permutation_length (sort_newest_first_perm backup_files)) as Hlen.
  destruct (keep_count <? length (sort_newest_first backup_files))%nat eqn:E.
  - cbn [Py.try_except]. rewrite remove_files_all by exact Hok.
    rewrite length_map, length_drop, Hlen. reflexivity.
  - apply Nat.ltb_ge in E. cbn [Py.try_except length]. lia.
Qed.

Lemma cleanup_leaves_keep_count_witness :
  length (cleanup_old_backups
            (fun _ => Py.Ret ["backup_1_a.csv"; "notes.txt"; "backup_2_a.csv";
                              "backup_3_a.csv"])
            (fun _ => Py.Ret 1%Q) (fun _ => Py.Ret tt) "backups" 2)
  = (length [("backup_1_a.csv", 1%Q); ("backup_2_a.csv", 1%Q);
             ("backup_3_a.csv", 1%Q)] - 2)%nat.
Proof.
  apply (cleanup_leaves_keep_count _ _ _ "backups" 2
           ["backup_1_a.csv"; "notes.txt"; "backup_2_a.csv"; "backup_3_a.csv"]).
  - reflexivity.
  - reflexivity.
  - intros p. reflexivity.
Defined.

(** ** Single request and all award types *)

Section AllAwardTypesFacts.

Local Open Scope Z_scope.

Variable post_unpaged : list string -> Z -> http_outcome.
Variable limit_per_group : Z.

Abbreviation fetch_group group :=
  (fetch_spending_data post_unpaged limit_per_group group).

Abbreviation group_results group :=
  (default [] (batch_results_of (fetch_group group))).

(** A response that is handed back has passed the validator. *)
Lemma fetched_response_first_record (award_group : string) (v : Py.value) :
  fetch_group award_group = Some v ->
  exists (d : gmap string Py.value) rs,
    v = Py.Dict d /\ d !! "results" = Some (Py.List rs) /\
    valid_first_record rs.
Proof.
  unfold fetch_spending_data.
  destruct (lookup_group award_group) as [codes|]; [|discriminate].
  destruct (post_unpaged _ _) as [e|status json]; [discriminate|].
  destruct (status =? 200); [|discriminate].
  destruct json as [response_data|e]; [|discriminate]. simpl.
  destruct (Py.as_dict response_data) as [d|e] eqn:Hd; [|discriminate]. simpl.
  destruct (debug_first_record d) as [[]|e] eqn:Hdebug; [|discriminate]. simpl.
  destruct (validate_api_response response_data) as [[|]|e] eqn:Hv;
    try discriminate.
  simpl. intros [= ->].
  destruct v; try discriminate. simpl in Hd. injection Hd as ->.
  pose proof Hv as Hshape. simpl in Hshape.
  destruct (d !! "results") as [[]|] eqn:Hres; try discriminate.
  clear Hshape. exists d, l. split; [reflexivity|]. split; [exact Hres|].
  destruct l as [|first_record rest]; [exact I|].
  destruct (debug_first_record_dict d first_record rest Hres Hdebug)
    as [item ->].
  apply (validate_nonempty_results d (Py.Dict item) rest Hres) in Hv.
  destruct Hv as (field & Hin & Hc). simpl in Hc.
  exists item, field. split; [reflexivity|]. split; [exact Hin|].
  injection Hc as Hc. apply bool_decide_eq_true in Hc. exact Hc.
Qed.

Lemma group_results_valid (award_group : string) :
  valid_first_record (group_results award_group).
Proof.
  destruct (fetch_group award_group) as [v|] eqn:Hfetch; [|exact I].
  destruct (fetched_response_first_record award_group v Hfetch)
    as (d & rs & -> & Hres & Hvalid).
  simpl. rewrite Hres. destruct rs; [exact I|exact Hvalid].
Qed.

Lemma add_group_app (all_data : list Py.value) (group : string) :
  add_group post_unpaged limit_per_group all_data group
  = all_data ++ group_results group.
Proof.
  unfold add_group.
  destruct (batch_results_of (fetch_group group)); simpl;
    [reflexivity|rewrite app_nil_r; reflexivity].
Qed.

Lemma all_data_concat (groups : list string) :
  forall all_data,
    foldl (add_group post_unpaged limit_per_group) all_data groups
    = all_data ++ concat (map (fun group => group_results group) groups).
Proof.
  induction groups as [|g groups IH]; intros all_data; simpl.
  - rewrite app_nil_r. reflexivity.
  - rewrite IH, add_group_app, <- app_assoc. reflexivity.
Qed.

Lemma concat_valid_first_record (parts : list (list Py.value)) :
  Forall valid_first_record parts -> valid_first_record (concat parts).
Proof.
  induction 1 as [|part parts Hpart _ IH]; simpl; [exact I|].
  destruct part; [exact IH|exact Hpart].
Qed.

Lemma all_data_valid (groups : list string) :
  valid_first_record
    (foldl (add_group post_unpaged limit_per_group) [] groups).
Proof.
  rewrite all_data_concat. simpl. apply concat_valid_first_record.
  apply List.Forall_forall. intros part Hpart.
  apply List.in_map_iff in Hpart as (g & <- & _).
  apply group_results_valid.
Qed.

Lemma group_results_nil (group : string) :
  group_results group = [] <-> batch_results_of (fetch_group group) = None.
Proof.
  destruct (batch_results_of (fetch_group group)) as [rs|] eqn:Hb; simpl.
  - split; [|discriminate]. intros ->.
    destruct (fetch_group group) as [[| | | | | |d]|]; try discriminate.
    simpl in Hb. destruct (d !! "results") as [[| | | | |[|]|]|]; discriminate.
  - tauto.
Qed.

Lemma concat_nil (parts : list (list Py.value)) :
  concat parts = [] <-> forall part, In part parts -> part = [].
Proof.
  induction parts as [|part parts IH]; simpl; [tauto|].
  split.
  - intros H. apply app_eq_nil in H as [-> H]. rewrite IH in H.
    intros p [<-|Hp]; auto.
  - intros H. rewrite (H part) by auto. simpl. apply IH. auto.
Qed.

End AllAwardTypesFacts.

(** X27.  What [fetch_all_award_types] hands back is a response the
    validator accepts: a dict with a non-empty "results" list, whose
    "total" is the number of records in that list. *)
Theorem all_types_response_is_valid
    (post_unpaged : list string -> Z -> http_outcome) (limit_per_group : Z)
    (response : Py.value) :
  fetch_all_award_types post_unpaged limit_per_group = Some response ->
  validate_api_response response = Py.Ret true /\
  exists (d metadata : gmap string Py.value) (all_data : list Py.value),
    response = Py.Dict d /\
    d !! "results" = Some (Py.List all_data) /\ all_data <> [] /\
    d !! "page_metadata" = Some (Py.Dict metadata) /\
    metadata !! "total" = Some (Py.Int (Z.of_nat (length all_data))).
Proof.
  unfold fetch_all_award_types.
  pose proof (all_data_valid post_unpaged limit_per_group award_groups)
    as Hhead.
  destruct (foldl _ [] award_groups) as [|first_record rest];
    [discriminate|].
  intros [= <-]. split.
  - destruct Hhead as (item & field & -> & Hin & Hsome).
    unfold combined_response. eapply validate_nonempty_results.
    + apply lookup_insert_eq.
    + exists field. split; [exact Hin|]. simpl.
      rewrite bool_decide_eq_true_2 by exact Hsome. reflexivity.
  - unfold combined_response. do 3 eexists.
    split; [reflexivity|]. split; [apply lookup_insert_eq|].
    split; [discriminate|].
    split; [rewrite lookup_insert_ne by discriminate;
            apply lookup_singleton_eq|].
    rewrite !lookup_insert_ne by discriminate. apply lookup_singleton_eq.
Qed.

Lemma all_types_response_is_valid_witness :
  validate_api_response
    (combined_response (replicate 8 (Py.Dict sample_record)))
  = Py.Ret true /\
  exists (d metadata : gmap string Py.value) (all_data : list Py.value),
    combined_response (replicate 8 (Py.Dict sample_record)) = Py.Dict d /\
    d !! "results" = Some (Py.List all_data) /\ all_data <> [] /\
    d !! "page_metadata" = Some (Py.Dict metadata) /\
    metadata !! "total" = Some (Py.Int (Z.of_nat (length all_data))).
Proof.
  apply (all_types_response_is_valid four_groups_api 2).
  reflexivity.
Defined.

(** X28.  A group that fails does not stop [fetch_all_award_types]: it
    returns [None] exactly when none of the five groups gives a
    record. *)
Theorem all_types_none_iff
    (post_unpaged : list string -> Z -> http_outcome) (limit_per_group : Z) :
  fetch_all_award_types post_unpaged limit_per_group = None <->
  forall group,
    In group award_groups ->
    batch_results_of (fetch_spending_data post_unpaged limit_per_group group)
    = None.
Proof.
  unfold fetch_all_award_types. cbv zeta. rewrite all_data_concat.
  rewrite app_nil_l.
  set (parts := map _ award_groups).
  assert (Hparts : concat parts = [] <->
                   forall group,
                     In group award_groups ->
                     batch_results_of
                       (fetch_spending_data post_unpaged limit_per_group group)
                     = None).
  { rewrite concat_nil. subst parts. split.
    - intros H group Hg. apply group_results_nil. apply H.
      apply List.in_map_iff. exists group. auto.
    - intros H part Hpart. apply List.in_map_iff in Hpart as (g & <- & Hg).
      apply group_results_nil. apply H. exact Hg. }
  rewrite <- Hparts.
  destruct (concat parts); split; intros H; try reflexivity; discriminate.
Qed.

(** X29.  When the API never hands back more records than asked for,
    [fetch_all_award_types] collects at most five times the limit per
    group. *)
Theorem all_types_within_limit
    (post_unpaged : list string -> Z -> http_outcome) (limit_per_group : Z)
    (all_data : list Py.value) :
  (forall group v rs,
      fetch_spending_data post_unpaged limit_per_group group = Some v ->
      batch_results_of (Some v) = Some rs ->
      (Z.of_nat (length rs) <= limit_per_group)%Z) ->
  fetch_all_award_types post_unpaged limit_per_group
  = Some (combined_response all_data) ->
  (Z.of_nat (length all_data) <= 5 * limit_per_group)%Z.
Proof.
  intros Hhon Hfetch. unfold fetch_all_award_types in Hfetch.
  assert (Hpart : forall group,
             let part :=
               default [] (batch_results_of
                             (fetch_spending_data post_unpaged limit_per_group
                                group)) in
             part = [] \/
             (1 <= Z.of_nat (length part) <= limit_per_group)%Z).
  { intros group. cbv zeta.
    destruct (fetch_spending_data post_unpaged limit_per_group group)
      as [v|] eqn:Hv; [|left; reflexivity].
    destruct (batch_results_of (Some v)) as [rs|] eqn:Hrs;
      [|left; reflexivity].
    right. simpl. split; [|eapply Hhon; eassumption].
    destruct v as [| | | | | |d]; try discriminate. simpl in Hrs.
    destruct (d !! "results") as [[| | | | |[|]|]|]; try discriminate.
    injection Hrs as <-. simpl. lia. }
  cbv zeta in Hfetch. rewrite all_data_concat, app_nil_l in Hfetch.
  set (parts := map _ award_groups) in Hfetch.
  destruct (concat parts) as [|first_record rest] eqn:Hall; [discriminate|].
  assert (Heq : first_record :: rest = all_data).
  { apply (f_equal (fun o : option Py.value =>
                      match o with
                      | Some (Py.Dict d) => d !! "results"
                      | _ => None
                      end)) in Hfetch.
    unfold combined_response in Hfetch.
    rewrite !lookup_insert_eq in Hfetch. congruence. }
  rewrite <- Heq, <- Hall. subst parts. unfold award_groups in Hall |- *.
  cbn [map concat] in Hall |- *. rewrite !length_app. cbn [length].
  pose proof (Hpart "contracts") as H1. pose proof (Hpart "grants") as H2.
  pose proof (Hpart "direct_payments") as H3.
  pose proof (Hpart "loans") as H4. pose proof (Hpart "other") as H5.
  cbv zeta in H1, H2, H3, H4, H5.
  assert (Hpos : (1 <= limit_per_group)%Z).
  { destruct H1 as [E1|H1]; [|lia]. destruct H2 as [E2|H2]; [|lia].
    destruct H3 as [E3|H3]; [|lia]. destruct H4 as [E4|H4]; [|lia].
    destruct H5 as [E5|H5]; [|lia].
    exfalso. rewrite E1, E2, E3, E4, E5 in Hall. discriminate. }
  assert (Hle : forall part : list Py.value,
             part = [] \/ (1 <= Z.of_nat (length part) <= limit_per_group)%Z ->
             (Z.of_nat (length part) <= limit_per_group)%Z).
  { intros part [->|H]; [simpl|]; lia. }
  apply Hle in H1, H2, H3, H4, H5. lia.
Qed.

Lemma all_types_within_limit_witness :
  (Z.of_nat (length (replicate 8 (Py.Dict sample_record))) <= 5 * 2)%Z.
Proof.
  apply (all_types_within_limit four_groups_api 2).
  - intros group v rs Hv Hrs. unfold fetch_spending_data in Hv.
    destruct (lookup_group group) as [codes|]; [|discriminate].
    unfold four_groups_api in Hv.
    destruct (bool_decide (codes = ["07"; "08"])); [discriminate|].
    vm_compute in Hv. injection Hv as <-.
    vm_compute in Hrs. injection Hrs as <-. simpl. lia.
  - reflexivity.
Defined.
